(** * Todoist completed tasks for Obsidian: a shallow embedding

    The repository holds two revisions of the plugin's [main.ts]:

    - the Sync API v9 revision ([src/main.ts]), which asks the activity log
      for the last 100 completed items and filters them by day locally;
    - the REST API v1 revision, which asks the completed-tasks endpoint for
      the target day with [since]/[until] bounds and a configurable daily
      note format.

    Both are embedded below (modules [SyncV9] and [RestV1]).  The grouping,
    ordering and rendering code is the same in both revisions up to field
    names and is embedded once, in [Section Aggregator].

    Conventions.
    - A JavaScript value of type [string | null | undefined] is an
      [option string]; truthiness of strings is [truthy].
    - An instant (a [Date], a [moment]) is its number of milliseconds since
      the epoch, in [Z].
    - [async] functions run sequentially: they are functions from a [World]
      (notices shown, editor insertions, requests sent) to an [Outcome] and
      a new [World].  A thrown [Error] is its message.
    - What the host provides (clock, time zone, the date library's parser and
      printer, the collation behind [localeCompare], the network) is a
      [Host] record. *)

From Stdlib Require Import ZArith List String Ascii Bool Lia Permutation Sorted.
From stdpp Require Import base option gmap strings pretty.
Import ListNotations.

Local Open Scope string_scope.
Local Open Scope Z_scope.

(** ** JavaScript basics *)

Module Js.

(** The line feed of the template literals. *)
Definition nl : string := String (ascii_of_nat 10) EmptyString.

(** [!!s] for a string: only the empty string is falsy. *)
Definition truthy (s : string) : bool :=
  match s with
  | EmptyString => false
  | String _ _ => true
  end.

(** [!!x] for [x : string | null | undefined]. *)
Definition truthyOpt (x : option string) : bool :=
  match x with
  | Some s => truthy s
  | None => false
  end.

(** [x || null]. *)
Definition orNull (x : option string) : option string :=
  if truthyOpt x then x else None.

(** [x || d]. *)
Definition orElse (x : option string) (d : string) : string :=
  match x with
  | Some s => if truthy s then s else d
  | None => d
  end.

(** [x ?? d]. *)
Definition nullish (x : option string) (d : string) : string :=
  match x with
  | Some s => s
  | None => d
  end.

(** [Array.prototype.sort(cmp)]: a stable sort.  [cmp a b > 0] puts [a]
    after [b].  For a comparator that is consistent on the array, every
    stable sort returns the same array; it is computed here by insertion. *)
Section Sort.
Context {A : Type} (cmp : A -> A -> Z).

Fixpoint insertSorted (x : A) (l : list A) : list A :=
  match l with
  | [] => [x]
  | y :: ys => if cmp x y <=? 0 then x :: y :: ys else y :: insertSorted x ys
  end.

Definition sort (l : list A) : list A := fold_right insertSorted [] l.
End Sort.

(** [Map<K, V>]: keys are unique and are iterated in insertion order. *)
Section Map.
Context {K V : Type} `{EqDecision K}.

Definition t := list (K * V).

Fixpoint get (k : K) (m : t) : option V :=
  match m with
  | [] => None
  | (k', v) :: m' => if decide (k = k') then Some v else get k m'
  end.

Definition has (k : K) (m : t) : bool :=
  match get k m with Some _ => true | None => false end.

Fixpoint set (k : K) (v : V) (m : t) : t :=
  match m with
  | [] => [(k, v)]
  | (k', v') :: m' =>
      if decide (k = k') then (k', v) :: m' else (k', v') :: set k v m'
  end.

(** [m.get(k)?.f()] for an [f] that mutates the stored value in place. *)
Fixpoint update (k : K) (f : V -> V) (m : t) : t :=
  match m with
  | [] => []
  | (k', v) :: m' =>
      if decide (k = k') then (k', f v) :: m' else (k', v) :: update k f m'
  end.

Definition keys (m : t) : list K := map fst m.
Definition values (m : t) : list V := map snd m.
End Map.
Arguments t : clear implicits.

End Js.

(** ** The date library

    [moment] is not part of the repository.  Its day arithmetic is written
    out here for a zone at a fixed offset from UTC; its strict parser and its
    printer are fields of the [Host]. *)

Module Moment.

Definition MS_PER_DAY : Z := 86400000.
Definition MS_PER_MINUTE : Z := 60000.

(** [m.startOf('day').valueOf()] and [m.endOf('day').valueOf()] for a
    moment in UTC mode. *)
Definition utcStartOfDay (t : Z) : Z := (t / MS_PER_DAY) * MS_PER_DAY.
Definition utcEndOfDay (t : Z) : Z := utcStartOfDay t + MS_PER_DAY - 1.

(** The same for a moment in local mode; [offset] is the zone's offset
    from UTC in minutes, east positive. *)
Definition startOfDay (offset t : Z) : Z :=
  utcStartOfDay (t + offset * MS_PER_MINUTE) - offset * MS_PER_MINUTE.
Definition endOfDay (offset t : Z) : Z := startOfDay offset t + MS_PER_DAY - 1.

(** [this.isSame(input, 'day')]: the instant [input] lies between the
    start and the end of [this]'s day, the day being taken in [this]'s
    mode. *)
Definition utcIsSameDay (this input : Z) : bool :=
  (utcStartOfDay this <=? input) && (input <=? utcEndOfDay this).
Definition isSameDay (offset this input : Z) : bool :=
  (startOfDay offset this <=? input) && (input <=? endOfDay offset this).

(** Calendar day numbers (days since 1970-01-01). *)
Definition utcDay (t : Z) : Z := t / MS_PER_DAY.
Definition localDay (offset t : Z) : Z := (t + offset * MS_PER_MINUTE) / MS_PER_DAY.

End Moment.

(** ** What travels over the wire *)

(** [interface TodoistProject].  The Sync API revision declares [id] and
    [name] only; the REST revision adds [color]. *)
Module TodoistProject.
Record t := { id : string; name : string; color : string }.
End TodoistProject.

(** An item of the activity log (typed [any] in the source); the fields the
    code reads.  [event_date] is the instant [moment.utc] reads from the
    field: [None] when the field is missing, empty or not a date. *)
Module ActivityEvent.
Record t := {
  event_date : option Z;
  parent_project_id : option string;
  object_id : string;
  extra_data : option (option string)   (* [extra_data?.content] *)
}.
Definition content (e : t) : option string :=
  match extra_data e with
  | Some c => c
  | None => None
  end.
End ActivityEvent.

(** [interface TodoistCompletedTask], the fields the code reads, and the
    [completed_at] instant the service sends along (the interface is
    declared partial and leaves it out; the code never reads it). *)
Module TodoistCompletedTask.
Record t := {
  id : string;
  project_id : option string;
  content : string;
  completed_at : Z
}.
End TodoistCompletedTask.

(** [response.json].  The source casts it without a check, so a payload of
    another shape simply lacks the field that is read. *)
Inductive Payload :=
| Null
| SyncData (projects : option (list TodoistProject.t))
| ActivityData (events : option (list ActivityEvent.t))
| TodoistProjectResponse
    (results : option (list TodoistProject.t)) (next_cursor : option string)
| TodoistCompletedTasksResponse
    (items : option (list TodoistCompletedTask.t)) (next_cursor : option string).

Definition data_projects (data : Payload) : option (list TodoistProject.t) :=
  match data with SyncData p => p | _ => None end.
Definition data_events (data : Payload) : option (list ActivityEvent.t) :=
  match data with ActivityData e => e | _ => None end.
Definition data_results (data : Payload) : option (list TodoistProject.t) :=
  match data with TodoistProjectResponse r _ => r | _ => None end.
Definition data_items (data : Payload) : option (list TodoistCompletedTask.t) :=
  match data with TodoistCompletedTasksResponse i _ => i | _ => None end.
Definition data_next_cursor (data : Payload) : option string :=
  match data with
  | TodoistProjectResponse _ c | TodoistCompletedTasksResponse _ c => c
  | _ => None
  end.

Record Response := { status : Z; text : string; json : Payload }.

(** The four GET requests of the two revisions, by endpoint and query.
    - [SyncProjects]: [sync/v9/sync?sync_token=*&resource_types=["projects"]]
    - [ActivityGet]: [sync/v9/activity/get?object_type=item&event_type=completed&limit=_]
    - [GetProjects]: [api/v1/projects?limit=_] (and [cursor=_] when given)
    - [CompletedByCompletionDate]:
      [api/v1/tasks/completed/by_completion_date?since=_&until=_&limit=_]
    [authorization] is the request's Authorization header. *)
Inductive Request :=
| SyncProjects (authorization : string)
| ActivityGet (limit : Z) (authorization : string)
| GetProjects (limit : Z) (cursor : option string) (authorization : string)
| CompletedByCompletionDate
    (since until : Z) (limit : Z) (cursor : option string) (authorization : string).

(** ** Effects *)

Inductive Outcome (A : Type) :=
| Returned (a : A)
| Thrown (message : string).
Arguments Returned {A} a.
Arguments Thrown {A} message.

Record World := {
  notices : list string;     (* [new Notice(_)], oldest first *)
  inserted : list string;    (* [editor.replaceSelection(_)], oldest first *)
  requests : list Request    (* [requestUrl(_)], oldest first *)
}.

Definition emptyWorld : World := {| notices := []; inserted := []; requests := [] |}.

Definition Async (A : Type) : Type := World -> Outcome A * World.

Definition ret {A} (a : A) : Async A := fun w => (Returned a, w).
Definition throw {A} (message : string) : Async A := fun w => (Thrown message, w).

Definition bind {A B} (m : Async A) (k : A -> Async B) : Async B :=
  fun w =>
    match m w with
    | (Returned a, w') => k a w'
    | (Thrown e, w') => (Thrown e, w')
    end.

Notation "'let!' x ':=' m 'in' k" := (bind m (fun x => k))
  (at level 10, x name, m at level 100, k at level 200).
Notation "m ';;;' k" := (bind m (fun _ => k))
  (at level 100, k at level 200, right associativity).

(** [try { body } catch (error) { handler(error.message) }]. *)
Definition tryCatch {A} (body : Async A) (handler : string -> Async A) : Async A :=
  fun w =>
    match body w with
    | (Returned a, w') => (Returned a, w')
    | (Thrown e, w') => handler e w'
    end.

(** The three marks an action leaves on the world. *)
Definition shown (message : string) (w : World) : World :=
  {| notices := (notices w ++ [message])%list;
     inserted := inserted w;
     requests := requests w |}.

Definition replaced (replacement : string) (w : World) : World :=
  {| notices := notices w;
     inserted := (inserted w ++ [replacement])%list;
     requests := requests w |}.

Definition sent (request : Request) (w : World) : World :=
  {| notices := notices w;
     inserted := inserted w;
     requests := (requests w ++ [request])%list |}.

Definition Notice (message : string) : Async unit :=
  fun w => (Returned tt, shown message w).

Definition replaceSelection (replacement : string) : Async unit :=
  fun w => (Returned tt, replaced replacement w).

(** [array.forEach(f)] for an [f] that updates an accumulator and may show
    notices. *)
Fixpoint forEach {A S} (f : S -> A -> Async S) (l : list A) (s : S) : Async S :=
  match l with
  | [] => ret s
  | x :: l' => let! s' := f s x in forEach f l' s'
  end.

(** ** The host *)

Record Host := {
  (** the zone's offset from UTC, in minutes, east positive *)
  utcOffset : Z;
  (** [moment()], the instant of the run *)
  now : Z;
  (** [moment(input, format, true)]: the instant when [isValid()] *)
  momentStrict : string -> string -> option Z;
  (** [moment(t).format(format)] *)
  momentFormat : Z -> string -> string;
  (** [a.localeCompare(b)] *)
  localeCompare : string -> string -> Z;
  (** the remote service behind [requestUrl]; a transport failure throws *)
  service : Request -> Outcome Response
}.

Definition requestUrl (host : Host) (request : Request) : Async Response :=
  fun w => (service host request, sent request w).

Definition bearer (token : string) : string := "Bearer " ++ token.

(** ** Grouping, ordering and rendering

    Steps 3 and 4 of [fetchAndFormatTasksForDate].  The two revisions differ
    here in the names of the fields read only ([event.parent_project_id],
    [event.object_id], [event.extra_data?.content] against
    [task.project_id], [task.id], [task.content]); the three readers are the
    section's variables. *)

Section Aggregator.
Context {Task : Type}.
Variable taskProjectId : Task -> option string.
Variable taskId : Task -> string.
Variable taskContent : Task -> option string.

(** the collation behind [localeCompare] *)
Variable collate : string -> string -> Z.
(** [projects], the directory returned by [fetchProjectData] *)
Variable projects : gmap string string.

(** [const projectId = task.project_id || null] *)
Definition projectKey (task : Task) : option string :=
  Js.orNull (taskProjectId task).

(** The body of the grouping [forEach]. *)
Definition addToGroup
    (tasksByProject : Js.t (option string) (list Task)) (task : Task)
    : Js.t (option string) (list Task) :=
  let projectId := projectKey task in
  let tasksByProject :=
    if Js.has projectId tasksByProject then tasksByProject
    else Js.set projectId [] tasksByProject in
  Js.update projectId (fun tasks => (tasks ++ [task])%list) tasksByProject.

Definition groupByProject (tasks : list Task) : Js.t (option string) (list Task) :=
  fold_left addToGroup tasks [].

(** [a ? projects.get(a) ?? 'Unknown Project' : 'No Project'] *)
Definition sortName (a : option string) : string :=
  if Js.truthyOpt a
  then Js.nullish (a ≫= fun id => projects !! id) "Unknown Project"
  else "No Project".

(** The comparator handed to [sort]. *)
Definition compareProjectIds (a b : option string) : Z :=
  let nameA := sortName a in
  let nameB := sortName b in
  match a, b with
  | None, _ => 1
  | _, None => -1
  | _, _ => collate nameA nameB
  end.

Definition sortedProjectIds
    (tasksByProject : Js.t (option string) (list Task)) : list (option string) :=
  Js.sort compareProjectIds (Js.keys tasksByProject).

(** The subheading line of a group. *)
Definition groupHeading (projectId : option string) : string :=
  let projectName :=
    if Js.truthyOpt projectId then projectId ≫= fun id => projects !! id else None in
  if Js.truthyOpt projectName then
    "### " ++ Js.nullish projectName "" ++ Js.nl
  else
    match projectId with
    | None => "### No Project" ++ Js.nl
    | Some id => "### Unknown Project (ID: " ++ id ++ ")" ++ Js.nl
    end.

(** The list item of a task. *)
Definition taskLine (task : Task) : string :=
  let taskId := taskId task in
  let taskContent := Js.orElse (taskContent task) ("Task ID " ++ taskId) in
  let taskUrl := "https://todoist.com/showTask?id=" ++ taskId in
  "- [" ++ taskContent ++ "](" ++ taskUrl ++ ")" ++ Js.nl.

(** The body of the [for (const projectId of sortedProjectIds)] loop. *)
Definition renderGroup
    (tasksByProject : Js.t (option string) (list Task))
    (markdownOutput : string) (projectId : option string) : string :=
  let projectTasks := default [] (Js.get projectId tasksByProject) in
  let markdownOutput := markdownOutput ++ groupHeading projectId in
  let markdownOutput :=
    fold_left (fun out task => out ++ taskLine task) projectTasks markdownOutput in
  markdownOutput ++ Js.nl.

(** Steps 3 and 4 together, for a sequence of tasks that is not empty. *)
Definition formatTasks (friendlyDateString : string) (tasks : list Task) : string :=
  let tasksByProject := groupByProject tasks in
  let markdownOutput := "## Tasks Completed " ++ friendlyDateString ++ Js.nl ++ Js.nl in
  fold_left (renderGroup tasksByProject) (sortedProjectIds tasksByProject) markdownOutput.

End Aggregator.

(** [projectsMap.set(project.id, project.name)] over a page of projects. *)
Definition setProject (projectsMap : gmap string string) (project : TodoistProject.t)
    : gmap string string :=
  <[TodoistProject.id project := TodoistProject.name project]> projectsMap.

(** ** The Sync API v9 revision ([src/main.ts]) *)

Module SyncV9.

Record TodoistCompletedTasksSettings := { todoistApiToken : string }.

Section Plugin.
Variable host : Host.
Variable settings : TodoistCompletedTasksSettings.

(** The request for the projects. *)
Definition projectsRequest : Request :=
  SyncProjects (bearer (todoistApiToken settings)).

(** The request for the activity log: [limit=100], no date bounds. *)
Definition activityRequest : Request :=
  let limit := 100 in
  ActivityGet limit (bearer (todoistApiToken settings)).

Definition fetchProjectData : Async (gmap string string) :=
  let projectsMap : gmap string string := ∅ in
  if negb (Js.truthy (todoistApiToken settings)) then
    throw "Todoist API token is not set."
  else
    tryCatch
      (let! response := requestUrl host projectsRequest in
       if negb (status response =? 200) then
         throw ("Todoist Sync API error: " ++ pretty (status response)
                ++ " - " ++ text response)
       else
         let data := json response in
         match data_projects data with
         | Some projects => ret (fold_left setProject projects projectsMap)
         | None => ret projectsMap
         end)
      (fun error => throw ("Failed to fetch project data: " ++ error)).

(** [/^(\d{4}-\d{2}-\d{2})$/] *)
Definition isDigit (c : ascii) : bool :=
  let n := nat_of_ascii c in ((48 <=? n) && (n <=? 57))%nat.

Definition filenameDateMatch (basename : string) : option string :=
  match list_ascii_of_string basename with
  | [y1; y2; y3; y4; h1; m1; m2; h2; d1; d2] =>
      if forallb isDigit [y1; y2; y3; y4; m1; m2; d1; d2]
         && Ascii.eqb h1 "-" && Ascii.eqb h2 "-"
      then Some basename else None
  | _ => None
  end.

(** The first lines of [fetchAndInsertTasksForView]: the target date and
    where it comes from.  [file] is [view.file]'s basename. *)
Definition resolveTargetDate (file : option string) : Z * string :=
  let targetDate := now host in
  let dateSource := "today" in
  match file with
  | Some basename =>
      match filenameDateMatch basename with
      | Some captured =>
          match momentStrict host captured "YYYY-MM-DD" with
          | Some parsedDate =>
              (parsedDate,
               "note filename (" ++ momentFormat host parsedDate "YYYY-MM-DD" ++ ")")
          | None => (targetDate, dateSource)
          end
      | None => (targetDate, dateSource)
      end
  | None => (targetDate, dateSource)
  end.

(** The predicate of the [filter] over [data.events]. *)
Definition completedOnDate (targetMoment : Z) (event : ActivityEvent.t) : bool :=
  match ActivityEvent.event_date event with
  | None => false
  | Some eventMoment => Moment.utcIsSameDay eventMoment targetMoment
  end.

Definition formatEvents (projects : gmap string string) :=
  formatTasks ActivityEvent.parent_project_id ActivityEvent.object_id
    ActivityEvent.content (localeCompare host) projects.

Definition fetchAndFormatTasksForDate (targetDate : Z) : Async string :=
  if negb (Js.truthy (todoistApiToken settings)) then
    throw "Todoist API token is not set."
  else
    let! projects := fetchProjectData in
    let targetMoment := targetDate in
    let targetDateString := momentFormat host targetMoment "YYYY-MM-DD" in
    let! response := requestUrl host activityRequest in
    if negb (status response =? 200) then
      throw ("Todoist Activity API error: " ++ pretty (status response)
             ++ " - " ++ text response)
    else
      let data := json response in
      match data_events data with
      | None => throw "Invalid response structure from Todoist Activity API"
      | Some events =>
          let completedOnDateEvents :=
            List.filter (completedOnDate targetMoment) events in
          if (length completedOnDateEvents =? 0)%nat then
            let friendlyDate :=
              if Moment.isSameDay (utcOffset host) targetMoment (now host)
              then "today" else targetDateString in
            Notice ("No tasks completed on " ++ friendlyDate ++ " found in Todoist.") ;;;
            ret ""
          else
            let friendlyDateString :=
              if Moment.isSameDay (utcOffset host) targetMoment (now host)
              then "Today" else targetDateString in
            let markdownOutput :=
              formatEvents projects friendlyDateString completedOnDateEvents in
            Notice ("Inserted " ++ pretty (length completedOnDateEvents)
                    ++ " tasks completed on " ++ targetDateString ++ ".") ;;;
            ret markdownOutput
      end.

Definition fetchAndInsertTasksForView (file : option string) : Async unit :=
  let '(targetDate, dateSource) := resolveTargetDate file in
  if negb (Js.truthy (todoistApiToken settings)) then
    Notice "Todoist API token is not set. Please configure it in the plugin settings."
  else
    Notice ("Fetching Todoist tasks completed for " ++ dateSource ++ "...") ;;;
    tryCatch
      (let! markdownOutput := fetchAndFormatTasksForDate targetDate in
       replaceSelection markdownOutput)
      (fun error => Notice ("Error: " ++ error)).

(** The ways a run fails: the credential is missing, the directory fetch
    fails, the task fetch fails. *)
Definition credentialMissing : Prop :=
  Js.truthy (todoistApiToken settings) = false.

Definition directoryFetchFails : Prop :=
  match service host projectsRequest with
  | Thrown _ => True
  | Returned response => status response <> 200
  end.

Definition taskFetchFails : Prop :=
  match service host activityRequest with
  | Thrown _ => True
  | Returned response =>
      status response <> 200 \/ data_events (json response) = None
  end.

End Plugin.

End SyncV9.

(** ** The REST API v1 revision *)

Module RestV1.

Record TodoistCompletedTasksSettings := {
  todoistApiToken : string;
  dailyNoteFormat : string
}.

Definition DEFAULT_SETTINGS : TodoistCompletedTasksSettings :=
  {| todoistApiToken := ""; dailyNoteFormat := "YYYY-MM-DD" |}.

Section Plugin.
Variable host : Host.
Variable settings : TodoistCompletedTasksSettings.

(** The body of [data.results.forEach].  The notice's first placeholder
    lacks its dollar sign in the source and is shown as written. *)
Definition addProject (projectsMap : gmap string string) (project : TodoistProject.t)
    : Async (gmap string string) :=
  Notice ("Project {project.name} as color " ++ TodoistProject.color project) ;;;
  ret (setProject projectsMap project).

(** The request for the projects: [limit=200], no cursor. *)
Definition projectsRequest : Request :=
  GetProjects 200 None (bearer (todoistApiToken settings)).

Definition fetchProjectData : Async (gmap string string) :=
  let projectsMap : gmap string string := ∅ in
  if negb (Js.truthy (todoistApiToken settings)) then
    throw "Todoist API token is not set."
  else
    tryCatch
      (let! response := requestUrl host projectsRequest in
       if negb (status response =? 200) then
         throw ("Todoist Get Projects API error: " ++ pretty (status response)
                ++ " - " ++ text response)
       else
         let data := json response in
         match data_results data with
         | Some results => forEach addProject results projectsMap
         | None => ret projectsMap
         end)
      (fun error => throw ("Failed to fetch project data: " ++ error)).

(** [this.settings.dailyNoteFormat || 'YYYY-MM-DD'] *)
Definition effectiveFormat : string :=
  Js.orElse (Some (dailyNoteFormat settings)) "YYYY-MM-DD".

(** The first lines of [fetchAndInsertTasksForView]: the target date and
    where it comes from.  [file] is [view.file]'s basename. *)
Definition resolveTargetDate (file : option string) : Z * string :=
  let targetDate := now host in
  let dateSource := "today" in
  match file with
  | Some basename =>
      let dailyNoteFormat := effectiveFormat in
      match momentStrict host basename dailyNoteFormat with
      | Some parseDate =>
          (parseDate,
           "note filename (" ++ momentFormat host parseDate dailyNoteFormat ++ ")")
      | None => (targetDate, dateSource)
      end
  | None => (targetDate, dateSource)
  end.

Definition formatItems (projects : gmap string string) :=
  formatTasks TodoistCompletedTask.project_id TodoistCompletedTask.id
    (fun task => Some (TodoistCompletedTask.content task))
    (localeCompare host) projects.

(** The request for the completed tasks of the target day. *)
Definition completedTasksRequest (targetDate : Z) : Request :=
  let targetMoment := targetDate in
  let sinceDate := Moment.startOfDay (utcOffset host) targetMoment in
  let untilDate := Moment.endOfDay (utcOffset host) targetMoment in
  let limit := 100 in
  CompletedByCompletionDate sinceDate untilDate limit None
    (bearer (todoistApiToken settings)).

Definition fetchAndFormatTasksForDate (targetDate : Z) : Async string :=
  if negb (Js.truthy (todoistApiToken settings)) then
    throw "Todoist API token is not set."
  else
    let! projects := fetchProjectData in
    let targetMoment := targetDate in
    let targetDateString := momentFormat host targetMoment "YYYY-MM-DD" in
    let! response := requestUrl host (completedTasksRequest targetDate) in
    if negb (status response =? 200) then
      throw ("Todoist Activity API error: " ++ pretty (status response)
             ++ " - " ++ text response)
    else
      let data := json response in
      match data_items data with
      | None => throw "Invalid response structure from Todoist completed tasks API"
      | Some items =>
          if (length items =? 0)%nat then
            let friendlyDate :=
              if Moment.isSameDay (utcOffset host) targetMoment (now host)
              then "today" else targetDateString in
            Notice ("No tasks completed on " ++ friendlyDate ++ " found in Todoist.") ;;;
            ret ""
          else
            let friendlyDateString :=
              if Moment.isSameDay (utcOffset host) targetMoment (now host)
              then "Today" else targetDateString in
            let markdownOutput := formatItems projects friendlyDateString items in
            Notice ("Inserted " ++ pretty (length items)
                    ++ " tasks completed on " ++ targetDateString ++ ".") ;;;
            ret markdownOutput
      end.

Definition fetchAndInsertTasksForView (file : option string) : Async unit :=
  let '(targetDate, dateSource) := resolveTargetDate file in
  if negb (Js.truthy (todoistApiToken settings)) then
    Notice "Todoist API token is not set. Please configure it in the plugin settings."
  else
    Notice ("Fetching Todoist tasks completed for " ++ dateSource ++ "...") ;;;
    tryCatch
      (let! markdownOutput := fetchAndFormatTasksForDate targetDate in
       replaceSelection markdownOutput)
      (fun error => Notice ("Error: " ++ error)).

(** The ways a run fails: the credential is missing, the directory fetch
    fails, the task fetch fails. *)
Definition credentialMissing : Prop :=
  Js.truthy (todoistApiToken settings) = false.

Definition directoryFetchFails : Prop :=
  match service host projectsRequest with
  | Thrown _ => True
  | Returned response => status response <> 200
  end.

Definition taskFetchFails (targetDate : Z) : Prop :=
  match service host (completedTasksRequest targetDate) with
  | Thrown _ => True
  | Returned response =>
      status response <> 200 \/ data_items (json response) = None
  end.

End Plugin.

End RestV1.

(** ** The specification's reading of names and order

    These two definitions follow the specification's words, not the code;
    they are what the code's headings and group order are compared with. *)

Module Collation.

Definition lowerChar (c : ascii) : ascii :=
  let n := nat_of_ascii c in
  if ((65 <=? n) && (n <=? 90))%nat then ascii_of_nat (n + 32) else c.

Fixpoint toLowerCase (s : string) : string :=
  match s with
  | EmptyString => EmptyString
  | String c s' => String (lowerChar c) (toLowerCase s')
  end.

Definition sign (c : comparison) : Z :=
  match c with Lt => -1 | Eq => 0 | Gt => 1 end.

(** Case-insensitive lexical comparison, as a [localeCompare]. *)
Definition caseInsensitiveCompare (a b : string) : Z :=
  sign (String.compare (toLowerCase a) (toLowerCase b)).

End Collation.

Module Spec.

(** "known project name; No Project if key is null; Unknown Project (ID:
    <id>) if key is non-null but absent from the directory" *)
Definition displayName (projects : gmap string string) (key : option string) : string :=
  match key with
  | None => "No Project"
  | Some id =>
      match projects !! id with
      | Some name => name
      | None => "Unknown Project (ID: " ++ id ++ ")"
      end
  end.

(** "the null-project group is always last; all other groups are ordered
    by case-insensitive name comparison", checked on neighbours. *)
Fixpoint groupsOrdered (projects : gmap string string) (keys : list (option string))
    : bool :=
  match keys with
  | [] => true
  | a :: rest =>
      match rest with
      | [] => true
      | b :: _ =>
          match a, b with
          | None, _ => false
          | Some _, None => true
          | Some _, Some _ =>
              Collation.caseInsensitiveCompare
                (displayName projects a) (displayName projects b) <=? 0
          end
      end && groupsOrdered projects rest
  end.

(** "Partition tasks into groups keyed by projectId": the tasks of one
    key, in the order received. *)
Definition tasksOf {Task : Type} (taskProjectId : Task -> option string)
    (projectId : option string) (tasks : list Task) : list Task :=
  List.filter (fun task => bool_decide (projectKey taskProjectId task = projectId)) tasks.

(** "if the hint strictly matches the configured format, parse it as the
    target date; otherwise fall back to the current date", with the
    provenance label. [strict] is the date library's strict parser and
    [print] its printer. *)
Definition resolve
    (strict : string -> string -> option Z) (print : Z -> string -> string)
    (current : Z) (hint : option string) (format : string) : Z * string :=
  match hint ≫= fun s => strict s format with
  | Some date => (date, "note filename (" ++ print date format ++ ")")
  | None => (current, "today")
  end.

End Spec.

(** [a] comes before [b] in [l]. *)
Definition before {A : Type} (a b : A) (l : list A) : Prop :=
  exists l1 l2 l3, l = (l1 ++ a :: l2 ++ b :: l3)%list.

(** ** A concrete host

    A proleptic Gregorian calendar at a fixed offset from UTC, with a date
    library that knows the tokens of the default pattern [YYYY-MM-DD] only,
    and the case-insensitive collation.  It is what the examples run on. *)

Module Calendar.

(** Days since 1970-01-01 of a civil date, and back. *)
Definition daysFromCivil (year month day : Z) : Z :=
  let y := if month <=? 2 then year - 1 else year in
  let era := y / 400 in
  let yoe := y - era * 400 in
  let mp := if month >? 2 then month - 3 else month + 9 in
  let doy := (153 * mp + 2) / 5 + day - 1 in
  let doe := yoe * 365 + yoe / 4 - yoe / 100 + doy in
  era * 146097 + doe - 719468.

Definition civilFromDays (days : Z) : Z * Z * Z :=
  let z := days + 719468 in
  let era := z / 146097 in
  let doe := z - era * 146097 in
  let yoe := (doe - doe / 1460 + doe / 36524 - doe / 146096) / 365 in
  let doy := doe - (365 * yoe + yoe / 4 - yoe / 100) in
  let mp := (5 * doy + 2) / 153 in
  let day := doy - (153 * mp + 2) / 5 + 1 in
  let month := if mp <? 10 then mp + 3 else mp - 9 in
  let year := yoe + era * 400 + (if month <=? 2 then 1 else 0) in
  (year, month, day).

Fixpoint zeros (n : nat) : string :=
  match n with
  | O => ""
  | S n' => "0" ++ zeros n'
  end.

Definition padStart (width : nat) (n : Z) : string :=
  let digits := pretty n in
  zeros (width - String.length digits) ++ digits.

(** [format('YYYY-MM-DD')] in the zone at [offset]. *)
Definition formatDate (offset t : Z) : string :=
  let '(year, month, day) := civilFromDays (Moment.localDay offset t) in
  padStart 4 year ++ "-" ++ padStart 2 month ++ "-" ++ padStart 2 day.

Definition digit (c : ascii) : option Z :=
  let n := nat_of_ascii c in
  if ((48 <=? n) && (n <=? 57))%nat then Some (Z.of_nat n - 48) else None.

Fixpoint number (acc : Z) (cs : list ascii) : option Z :=
  match cs with
  | [] => Some acc
  | c :: cs' => d ← digit c; number (10 * acc + d) cs'
  end.

(** Strict parse of [YYYY-MM-DD] in the zone at [offset]: local midnight
    of the date, when the date exists. *)
Definition parseDate (offset : Z) (input : string) : option Z :=
  match list_ascii_of_string input with
  | [y1; y2; y3; y4; h1; m1; m2; h2; d1; d2] =>
      if Ascii.eqb h1 "-" && Ascii.eqb h2 "-" then
        year ← number 0 [y1; y2; y3; y4];
        month ← number 0 [m1; m2];
        day ← number 0 [d1; d2];
        if (1 <=? month) && (month <=? 12) && (1 <=? day)
           && (daysFromCivil year month day
               <? daysFromCivil (if month =? 12 then year + 1 else year)
                                (if month =? 12 then 1 else month + 1) 1)
        then Some (daysFromCivil year month day * Moment.MS_PER_DAY
                   - offset * Moment.MS_PER_MINUTE)
        else None
      else None
  | _ => None
  end.

Definition host (offset now : Z) (service : Request -> Outcome Response) : Host :=
  {| utcOffset := offset;
     now := now;
     momentStrict := fun input format =>
       if String.eqb format "YYYY-MM-DD" then parseDate offset input else None;
     momentFormat := fun t format =>
       if String.eqb format "YYYY-MM-DD" then formatDate offset t else format;
     localeCompare := Collation.caseInsensitiveCompare;
     service := service |}.

(** An instant from its UTC date and time of day. *)
Definition utc (year month day hour minute : Z) : Z :=
  daysFromCivil year month day * Moment.MS_PER_DAY
  + hour * 3600000 + minute * Moment.MS_PER_MINUTE.

End Calendar.

(** ** Scenarios

    Concrete directories, tasks and services for the examples below. *)

Module Scenario.

Definition project (id name : string) : TodoistProject.t :=
  {| TodoistProject.id := id; TodoistProject.name := name;
     TodoistProject.color := "grey" |}.

Definition task (id : string) (project_id : option string) (content : string)
    (completed_at : Z) : TodoistCompletedTask.t :=
  {| TodoistCompletedTask.id := id;
     TodoistCompletedTask.project_id := project_id;
     TodoistCompletedTask.content := content;
     TodoistCompletedTask.completed_at := completed_at |}.

Definition event (object_id : string) (parent_project_id : option string)
    (content : string) (event_date : Z) : ActivityEvent.t :=
  {| ActivityEvent.event_date := Some event_date;
     ActivityEvent.parent_project_id := parent_project_id;
     ActivityEvent.object_id := object_id;
     ActivityEvent.extra_data := Some (Some content) |}.

Definition ok (data : Payload) : Outcome Response :=
  Returned {| status := 200; text := "OK"; json := data |}.

Definition notFound : Outcome Response :=
  Returned {| status := 404; text := "Not Found"; json := Null |}.

(** A text from its lines, each ended by a line feed. *)
Definition lines (ls : list string) : string :=
  fold_right (fun l rest => l ++ Js.nl ++ rest) "" ls.

(** Noon of 2024-05-01, UTC. *)
Definition noon : Z := Calendar.utc 2024 5 1 12 0.

(** Two tasks of projects the directory does not know, "9" first. *)
Definition unknownTasks : list TodoistCompletedTask.t :=
  [ task "a" (Some "9") "Water plants" noon;
    task "b" (Some "10") "Pay rent" noon ].

(** The groups of the specification's scenario 5. *)
Definition scenario5Projects : gmap string string :=
  {[ "1" := "Zeta"; "2" := "Alpha" ]}.
Definition scenario5Tasks : list TodoistCompletedTask.t :=
  [ task "a" None "Inbox zero" noon;
    task "b" (Some "1") "Ship" noon;
    task "c" (Some "2") "Plan" noon ].

(** A directory that knows project "1" under the empty name. *)
Definition namelessProjects : gmap string string := {[ "1" := "" ]}.
Definition namelessTasks : list TodoistCompletedTask.t :=
  [ task "a" (Some "1") "Write spec" noon ].

(** A task whose [project_id] is the empty string. *)
Definition emptyIdTasks : list TodoistCompletedTask.t :=
  [ task "a" (Some "") "Write spec" noon ].

(** *** Services *)

(** One page out of [all]: the first [limit] elements with a cursor when
    more are left, the elements behind them for that cursor. *)
Definition page {A : Type} (limit : Z) (cursor : option string) (all : list A)
    : list A * option string :=
  let n := Z.to_nat limit in
  match cursor with
  | None => (firstn n all, if (n <? length all)%nat then Some "2" else None)
  | Some _ => (firstn n (skipn n all), None)
  end.

Definition completedWithin (since until : Z) (task : TodoistCompletedTask.t) : bool :=
  (since <=? TodoistCompletedTask.completed_at task)
  && (TodoistCompletedTask.completed_at task <=? until).

(** A REST service that holds [projects] and [tasks], honours the date
    bounds and the page size, and hands out a cursor when a page does not
    hold everything. *)
Definition restService
    (projects : list TodoistProject.t) (tasks : list TodoistCompletedTask.t)
    (request : Request) : Outcome Response :=
  match request with
  | GetProjects limit cursor _ =>
      let '(results, next_cursor) := page limit cursor projects in
      ok (TodoistProjectResponse (Some results) next_cursor)
  | CompletedByCompletionDate since until limit cursor _ =>
      let '(items, next_cursor) :=
        page limit cursor (List.filter (completedWithin since until) tasks) in
      ok (TodoistCompletedTasksResponse (Some items) next_cursor)
  | _ => notFound
  end.

(** A Sync service that holds [projects] and the activity log [events],
    latest first. *)
Definition syncService
    (projects : list TodoistProject.t) (events : list ActivityEvent.t)
    (request : Request) : Outcome Response :=
  match request with
  | SyncProjects _ => ok (SyncData (Some projects))
  | ActivityGet limit _ => ok (ActivityData (Some (firstn (Z.to_nat limit) events)))
  | _ => notFound
  end.

(** A service that refuses the token (the request being made so that a
status of 400 and above is returned, not thrown). *)
Definition unauthorized (request : Request) : Outcome Response :=
  Returned {| status := 401; text := "Unauthorized"; json := Null |}.

Definition offline (request : Request) : Outcome Response :=
  Thrown "net::ERR_INTERNET_DISCONNECTED".

(** *** Hosts and settings *)

(** A host two hours east of UTC, at 09:30 local time on 2024-05-01. *)
Definition eastern (service : Request -> Outcome Response) : Host :=
  Calendar.host 120 (Calendar.utc 2024 5 1 7 30) service.

(** A host on UTC, at 09:30 on 2024-05-01. *)
Definition greenwich (service : Request -> Outcome Response) : Host :=
  Calendar.host 0 (Calendar.utc 2024 5 1 9 30) service.

Definition restSettings : RestV1.TodoistCompletedTasksSettings :=
  {| RestV1.todoistApiToken := "0123456789abcdef";
     RestV1.dailyNoteFormat := "YYYY-MM-DD" |}.

Definition syncSettings : SyncV9.TodoistCompletedTasksSettings :=
  {| SyncV9.todoistApiToken := "0123456789abcdef" |}.

Definition workProjects : list TodoistProject.t := [ project "1" "Work" ].

(** *** A day with more than a page of completed tasks *)

Definition numbered (n : nat) : TodoistCompletedTask.t :=
  task (pretty n) (Some "1") ("Task " ++ pretty n) noon.

Definition busyDay : list TodoistCompletedTask.t := map numbered (seq 1 101).

(** *** A directory of more than a page of projects *)

Definition numberedProject (n : nat) : TodoistProject.t :=
  project (pretty n) ("Project " ++ pretty n).

Definition manyProjects : list TodoistProject.t := map numberedProject (seq 1 201).

(** *** An event of the day before the note's day

    Completed on 2024-04-30 at 10:00 UTC, which is 12:00 on 2024-04-30 two
    hours east of UTC. *)
Definition yesterdaysEvents : list ActivityEvent.t :=
  [ event "a" (Some "1") "Write spec" (Calendar.utc 2024 4 30 10 0) ].

End Scenario.

(** ** Settings on disk

[loadSettings] and [saveSettings].  A settings object and the data the
host keeps for the plugin ([data.json]) are JavaScript objects with string
values, that is, finite maps from property names to strings; [loadData]
returns [None] when nothing was saved. *)

Module Store.

(** [Object.assign(target, ...sources)]: the own properties of each source,
in turn, are written over the target's; a [null] source is skipped. *)
Definition assign (target : gmap string string)
    (sources : list (option (gmap string string))) : gmap string string :=
  fold_left
    (fun target source =>
       match source with
       | Some object => object ∪ target
       | None => target
       end)
    sources target.

(** [const DEFAULT_SETTINGS] of the two revisions. *)
Definition SYNC_DEFAULT_SETTINGS : gmap string string :=
  {[ "todoistApiToken" := "" ]}.

Definition REST_DEFAULT_SETTINGS : gmap string string :=
  {[ "todoistApiToken" := ""; "dailyNoteFormat" := "YYYY-MM-DD" ]}.

(** [this.settings = Object.assign({}, DEFAULT_SETTINGS, await this.loadData())] *)
Definition loadSettings (DEFAULT_SETTINGS : gmap string string)
    (data : option (gmap string string)) : gmap string string :=
  assign ∅ [Some DEFAULT_SETTINGS; data].

(** [await this.saveData(this.settings)]: the data kept from then on. *)
Definition saveSettings (settings : gmap string string) : option (gmap string string) :=
  Some settings.

(** The settings as the plugin's methods read them: [settings.todoistApiToken]
and [settings.dailyNoteFormat].  A property that is not there reads as
[undefined], which every test in the code treats as the empty string. *)
Definition restSettings (settings : gmap string string)
    : RestV1.TodoistCompletedTasksSettings :=
  {| RestV1.todoistApiToken := default "" (settings !! "todoistApiToken");
     RestV1.dailyNoteFormat := default "" (settings !! "dailyNoteFormat") |}.

Definition syncSettings (settings : gmap string string)
    : SyncV9.TodoistCompletedTasksSettings :=
  {| SyncV9.todoistApiToken := default "" (settings !! "todoistApiToken") |}.

End Store.

(** ** Vocabulary of the further properties *)

(** The texts of a list, one after the other. *)
Definition joined (parts : list string) : string :=
  fold_right String.append "" parts.

(** The elements of a list in the order of their first occurrences. *)
Definition firstOccurrences {A : Type} `{EqDecision A} (l : list A) : list A :=
  fold_left (fun seen x => if decide (x ∈ seen) then seen else (seen ++ [x])%list) l [].

(** The keys that are not [null]. *)
Definition isProject (key : option string) : bool :=
  match key with Some _ => true | None => false end.

(** ** Strict matching

"Strict means the entire hint must conform to the format with no partial
or fuzzy matching."  This module follows those words, not the code, for
patterns made of the tokens [YYYY], [MM] and [DD] and of separator
characters: the hint is read along the pattern from its first character
to its last, four digits for [YYYY], two for [MM], two for [DD], every
separator as it stands, nothing before, between or behind; and the date
read must exist in the calendar. *)

Module StrictMatch.

Definition isDecimalDigit (c : ascii) : bool :=
  existsb (Ascii.eqb c) (list_ascii_of_string "0123456789").

Definition digitValue (c : ascii) : Z := Z.of_nat (nat_of_ascii c) - 48.

Definition numeral (digits : list ascii) : Z :=
  fold_left (fun n c => 10 * n + digitValue c) digits 0.

Inductive Token :=
| Year
| Month
| Day
| Separator (c : ascii).

Fixpoint tokens (format : list ascii) : list Token :=
  match format with
  | "Y" :: "Y" :: "Y" :: "Y" :: rest => Year :: tokens rest
  | "M" :: "M" :: rest => Month :: tokens rest
  | "D" :: "D" :: rest => Day :: tokens rest
  | c :: rest => Separator c :: tokens rest
  | [] => []
  end%char.

(** The year, month and day read so far. *)
Record Fields := { year : option Z; month : option Z; day : option Z }.

Definition noFields : Fields := {| year := None; month := None; day := None |}.

(** Reading a hint along the tokens, end to end. *)
Fixpoint read (pattern : list Token) (hint : list ascii) (fields : Fields)
    : option Fields :=
  match pattern with
  | [] =>
      match hint with
      | [] => Some fields
      | _ :: _ => None
      end
  | Year :: pattern' =>
      match hint with
      | a :: b :: c :: d :: rest =>
          if forallb isDecimalDigit [a; b; c; d] then
            read pattern' rest
              {| year := Some (numeral [a; b; c; d]);
                 month := month fields; day := day fields |}
          else None
      | _ => None
      end
  | Month :: pattern' =>
      match hint with
      | a :: b :: rest =>
          if forallb isDecimalDigit [a; b] then
            read pattern' rest
              {| year := year fields;
                 month := Some (numeral [a; b]); day := day fields |}
          else None
      | _ => None
      end
  | Day :: pattern' =>
      match hint with
      | a :: b :: rest =>
          if forallb isDecimalDigit [a; b] then
            read pattern' rest
              {| year := year fields;
                 month := month fields; day := Some (numeral [a; b]) |}
          else None
      | _ => None
      end
  | Separator s :: pattern' =>
      match hint with
      | x :: rest => if Ascii.eqb x s then read pattern' rest fields else None
      | [] => None
      end
  end.

(** The hint has the shape of the pattern, end to end. *)
Definition conforms (format hint : string) : bool :=
  match read (tokens (list_ascii_of_string format)) (list_ascii_of_string hint) noFields with
  | Some _ => true
  | None => false
  end.

Definition isLeapYear (y : Z) : bool :=
  ((y mod 4 =? 0) && negb (y mod 100 =? 0)) || (y mod 400 =? 0).

Definition daysInMonth (y m : Z) : Z :=
  if m =? 2 then (if isLeapYear y then 29 else 28)
  else if (m =? 4) || (m =? 6) || (m =? 9) || (m =? 11) then 30
  else 31.

Definition dateExists (y m d : Z) : bool :=
  (1 <=? m) && (m <=? 12) && (1 <=? d) && (d <=? daysInMonth y m).

(** The hint strictly matches the pattern: it has its shape end to end and
names a date that exists. *)
Definition strictlyMatches (format hint : string) : bool :=
  match read (tokens (list_ascii_of_string format)) (list_ascii_of_string hint) noFields with
  | Some {| year := Some y; month := Some m; day := Some d |} => dateExists y m d
  | _ => false
  end.

(** The date library keeps to strict matching for a pattern: called with
its strict flag, it gives a valid date exactly for the hints that strictly
match.  This is what [moment(input, format, true)] promises for a pattern
that names the year, the month and the day. *)
Definition strictLibrary (host : Host) (format : string) : Prop :=
  forall hint,
    is_Some (momentStrict host hint format) <-> strictlyMatches format hint = true.

End StrictMatch.

(** * Properties *)

(** ** Insertion-ordered maps *)

Section MapFacts.
Context {K V : Type} `{EqDecision K}.
Implicit Types (m : Js.t K V) (k : K) (v : V).

Lemma get_None_keys m k : Js.get k m = None <-> ~ In k (Js.keys m).
Proof.
  induction m as [|[k' v'] m IH]; simpl.
  - tauto.
  - destruct (decide (k = k')) as [->|Hne].
    + split; [discriminate | intros Hn; exfalso; apply Hn; now left].
    + rewrite IH. split.
      * intros Hn [Heq|Hin]; [congruence | tauto].
      * intros Hn Hin. apply Hn. now right.
Qed.

Lemma get_In m k v : Js.get k m = Some v -> In (k, v) m.
Proof.
  induction m as [|[k' v'] m IH]; simpl; [discriminate|].
  destruct (decide (k = k')) as [->|Hne].
  - intros [= ->]. now left.
  - intros Hg. right. now apply IH.
Qed.

Lemma In_get m k v : List.NoDup (Js.keys m) -> In (k, v) m -> Js.get k m = Some v.
Proof.
  induction m as [|[k' v'] m IH]; simpl; [tauto|].
  intros Hnd [Heq|Hin].
  - injection Heq as -> ->. now rewrite decide_True.
  - apply NoDup_cons_iff in Hnd as [Hnotin Hnd].
    destruct (decide (k = k')) as [->|Hne].
    + exfalso. apply Hnotin. change (In k' (map fst m)).
      apply in_map_iff. now exists (k', v).
    + now apply IH.
Qed.

Lemma keys_set_new m k v : Js.get k m = None -> Js.keys (Js.set k v m) = (Js.keys m ++ [k])%list.
Proof.
  induction m as [|[k' v'] m IH]; simpl; [reflexivity|].
  destruct (decide (k = k')); [discriminate|].
  intros Hg. simpl. f_equal. now apply IH.
Qed.

Lemma values_set_new m k v :
  Js.get k m = None -> Js.values (Js.set k v m) = (Js.values m ++ [v])%list.
Proof.
  induction m as [|[k' v'] m IH]; simpl; [reflexivity|].
  destruct (decide (k = k')); [discriminate|].
  intros Hg. simpl. f_equal. now apply IH.
Qed.

Lemma get_set_eq m k v : Js.get k (Js.set k v m) = Some v.
Proof.
  induction m as [|[k' v'] m IH]; simpl.
  - now rewrite decide_True.
  - destruct (decide (k = k')) as [->|Hne]; simpl.
    + now rewrite decide_True.
    + now rewrite decide_False.
Qed.

Lemma get_set_ne m k k' v : k <> k' -> Js.get k' (Js.set k v m) = Js.get k' m.
Proof.
  intros Hne. induction m as [|[k0 v0] m IH]; simpl.
  - rewrite decide_False; [reflexivity | congruence].
  - destruct (decide (k = k0)) as [->|Hne0]; simpl.
    + rewrite !decide_False; [reflexivity | congruence | congruence].
    + destruct (decide (k' = k0)); [reflexivity | exact IH].
Qed.

Lemma keys_update m k f : Js.keys (Js.update k f m) = Js.keys m.
Proof.
  induction m as [|[k' v'] m IH]; simpl; [reflexivity|].
  destruct (decide (k = k')); simpl; [reflexivity | now f_equal].
Qed.

Lemma get_update_eq m k f : Js.get k (Js.update k f m) = f <$> Js.get k m.
Proof.
  induction m as [|[k' v'] m IH]; simpl; [reflexivity|].
  destruct (decide (k = k')) as [->|Hne]; simpl.
  - now rewrite decide_True.
  - now rewrite decide_False.
Qed.

Lemma get_update_ne m k k' f : k <> k' -> Js.get k' (Js.update k f m) = Js.get k' m.
Proof.
  intros Hne. induction m as [|[k0 v0] m IH]; simpl; [reflexivity|].
  destruct (decide (k = k0)) as [->|Hne0]; simpl.
  - rewrite !decide_False; [reflexivity | congruence | congruence].
  - destruct (decide (k' = k0)); [reflexivity | exact IH].
Qed.

Lemma has_true m k : Js.has k m = true <-> In k (Js.keys m).
Proof.
  unfold Js.has. destruct (Js.get k m) eqn:Hg.
  - split; [intros _|reflexivity].
    apply get_In in Hg. change (In k (map fst m)). apply in_map_iff. now exists (k, v).
  - split; [discriminate|]. intros Hin. now apply get_None_keys in Hg.
Qed.

End MapFacts.

(** Pushing onto the array stored under a key adds one element to the
    concatenation of all arrays. *)
Lemma concat_values_push {K A : Type} `{EqDecision K}
    (m : Js.t K (list A)) (k : K) (x : A) :
  In k (Js.keys m) ->
  Permutation (concat (Js.values (Js.update k (fun l => (l ++ [x])%list) m)))
              (x :: concat (Js.values m)).
Proof.
  induction m as [|[k' l] m IH]; simpl; [tauto|].
  intros Hin. destruct (decide (k = k')) as [->|Hne]; simpl.
  - rewrite <- app_assoc. simpl.
    symmetry. apply Permutation_middle.
  - destruct Hin as [Heq|Hin]; [congruence|].
    specialize (IH Hin). unfold Js.values in *.
    rewrite IH. symmetry. apply Permutation_middle.
Qed.

(** ** Grouping *)

Section GroupingFacts.
Context {Task : Type} (taskProjectId : Task -> option string).

Local Abbreviation key := (projectKey taskProjectId).
Local Abbreviation groups := (groupByProject taskProjectId).
Local Abbreviation tasksOf := (Spec.tasksOf taskProjectId).

Lemma groupByProject_snoc tasks task :
  groups (tasks ++ [task])%list = addToGroup taskProjectId (groups tasks) task.
Proof. unfold groupByProject. now rewrite fold_left_app. Qed.

Lemma tasksOf_snoc projectId tasks task :
  tasksOf projectId (tasks ++ [task])%list =
  (tasksOf projectId tasks ++ if bool_decide (key task = projectId) then [task] else [])%list.
Proof. unfold Spec.tasksOf. rewrite List.filter_app. simpl. now destruct (bool_decide _). Qed.

(** A key is in the map exactly when some task has it, and it then holds
    the tasks of that key in the order received. *)
Lemma get_groupByProject tasks projectId :
  Js.get projectId (groups tasks) =
  match tasksOf projectId tasks with
  | [] => None
  | group => Some group
  end.
Proof.
  induction tasks as [|task tasks IH] using rev_ind; [reflexivity|].
  rewrite groupByProject_snoc, tasksOf_snoc. unfold addToGroup.
  destruct (decide (key task = projectId)) as [Heq|Hne].
  - rewrite bool_decide_true by exact Heq. rewrite Heq.
    rewrite get_update_eq. unfold Js.has. rewrite IH.
    destruct (tasksOf projectId tasks) as [|t0 g0] eqn:Hg.
    + now rewrite get_set_eq.
    + rewrite IH. reflexivity.
  - rewrite bool_decide_false by exact Hne. rewrite app_nil_r.
    rewrite get_update_ne by exact Hne.
    destruct (Js.has (key task) (groups tasks)); [exact IH|].
    now rewrite get_set_ne.
Qed.

Lemma keys_groupByProject_NoDup tasks : List.NoDup (Js.keys (groups tasks)).
Proof.
  induction tasks as [|task tasks IH] using rev_ind; [constructor|].
  rewrite groupByProject_snoc. unfold addToGroup. rewrite keys_update.
  destruct (Js.has (key task) (groups tasks)) eqn:Hhas; [exact IH|].
  assert (Hnone : Js.get (key task) (groups tasks) = None).
  { unfold Js.has in Hhas. now destruct (Js.get (key task) (groups tasks)). }
  rewrite keys_set_new by exact Hnone.
  apply List.NoDup_app; [exact IH | repeat constructor; simpl; tauto |].
  intros k Hin [<-|[]]. now apply get_None_keys in Hnone.
Qed.

Lemma concat_groupByProject tasks : Permutation (concat (Js.values (groups tasks))) tasks.
Proof.
  induction tasks as [|task tasks IH] using rev_ind; [constructor|].
  rewrite groupByProject_snoc. unfold addToGroup.
  rewrite concat_values_push.
  - rewrite <- Permutation_cons_append. apply perm_skip.
    destruct (Js.has (key task) (groups tasks)) eqn:Hhas; [exact IH|].
    assert (Hnone : Js.get (key task) (groups tasks) = None).
    { unfold Js.has in Hhas. now destruct (Js.get (key task) (groups tasks)). }
    rewrite values_set_new by exact Hnone.
    rewrite concat_app. simpl. now rewrite app_nil_r.
  - destruct (Js.has (key task) (groups tasks)) eqn:Hhas.
    + now apply has_true.
    + apply has_true. unfold Js.has. now rewrite get_set_eq.
Qed.

Lemma In_keys_groupByProject tasks projectId :
  In projectId (Js.keys (groups tasks)) <->
  exists task, In task tasks /\ key task = projectId.
Proof.
  split.
  - intros Hin. destruct (Js.get projectId (groups tasks)) as [group|] eqn:Hg.
    + rewrite get_groupByProject in Hg.
      destruct (tasksOf projectId tasks) as [|task g] eqn:Ht; [discriminate|].
      exists task.
      assert (Hf : In task (tasksOf projectId tasks)) by (rewrite Ht; now left).
      apply filter_In in Hf as [Hf1 Hf2]. apply bool_decide_eq_true in Hf2. auto.
    + now apply get_None_keys in Hg.
  - intros (task & Hin & Hk).
    destruct (Js.get projectId (groups tasks)) as [group|] eqn:Hg.
    + apply get_In in Hg. change (In projectId (map fst (groups tasks))).
      apply in_map_iff. now exists (projectId, group).
    + exfalso. rewrite get_groupByProject in Hg.
      assert (Hf : In task (tasksOf projectId tasks)).
      { apply filter_In. split; [exact Hin|]. now apply bool_decide_eq_true. }
      destruct (tasksOf projectId tasks); [destruct Hf | discriminate].
Qed.

Lemma In_own_group tasks task :
  In task tasks ->
  exists group, Js.get (key task) (groups tasks) = Some group /\ In task group.
Proof.
  intros Hin. rewrite get_groupByProject.
  assert (Hf : In task (tasksOf (key task) tasks)).
  { apply filter_In. split; [exact Hin|]. now apply bool_decide_eq_true. }
  destruct (tasksOf (key task) tasks) as [|t0 g0]; [destruct Hf|].
  eexists. split; [reflexivity | exact Hf].
Qed.

(** The key never is the empty string: [|| null] has turned it into
    [null]. *)
Lemma projectKey_not_empty task : key task <> Some "".
Proof.
  unfold projectKey, Js.orNull.
  destruct (taskProjectId task) as [[|c s]|]; simpl; congruence.
Qed.

End GroupingFacts.

(** C5.  Grouping is a partition of the tasks received: the groups taken
    together hold the tasks exactly once each (a permutation of the input),
    the keys are pairwise different, every task sits in the group of its own
    key and in no other, and every group lists its tasks in the order
    received.  This is the grouping step of both revisions ([Task] is the
    activity event or the completed task). *)
Theorem grouping_is_partition {Task : Type}
    (taskProjectId : Task -> option string) (tasks : list Task) :
  let groups := groupByProject taskProjectId tasks in
  Permutation (concat (Js.values groups)) tasks
  /\ List.NoDup (Js.keys groups)
  /\ (forall task, In task tasks ->
        exists group,
          Js.get (projectKey taskProjectId task) groups = Some group /\ In task group)
  /\ (forall projectId group task,
        In (projectId, group) groups -> In task group ->
        projectKey taskProjectId task = projectId)
  /\ (forall projectId group,
        In (projectId, group) groups ->
        group = Spec.tasksOf taskProjectId projectId tasks /\ group <> []).
Proof.
  intros groups.
  assert (Hgroup : forall projectId group,
             In (projectId, group) groups ->
             group = Spec.tasksOf taskProjectId projectId tasks /\ group <> []).
  { intros projectId group Hin.
    apply In_get in Hin; [|apply keys_groupByProject_NoDup].
    subst groups. rewrite get_groupByProject in Hin.
    destruct (Spec.tasksOf taskProjectId projectId tasks); [discriminate|].
    injection Hin as <-. split; [reflexivity | discriminate]. }
  split; [apply concat_groupByProject|].
  split; [apply keys_groupByProject_NoDup|].
  split; [|split; [|exact Hgroup]].
  - intros task Hin. now apply In_own_group.
  - intros projectId group task Hin Htask.
    apply Hgroup in Hin as [-> _].
    apply filter_In in Htask as [_ Hk]. now apply bool_decide_eq_true in Hk.
Qed.

(** The directory and tasks of scenario 5: three groups, a permutation of
the three tasks. *)
Lemma grouping_scenario5 :
  Js.keys (groupByProject TodoistCompletedTask.project_id Scenario.scenario5Tasks)
  = [None; Some "1"; Some "2"]
  /\ Permutation
       (concat (Js.values (groupByProject TodoistCompletedTask.project_id
                             Scenario.scenario5Tasks)))
       Scenario.scenario5Tasks.
Proof.
  split; [reflexivity|].
  exact (proj1 (grouping_is_partition TodoistCompletedTask.project_id
                  Scenario.scenario5Tasks)).
Defined.

(** ** Sorting *)

Section SortFacts.
Context {A : Type} (cmp : A -> A -> Z).

Local Abbreviation le := (fun a b => cmp a b <= 0).

Lemma insertSorted_Permutation x l : Permutation (Js.insertSorted cmp x l) (x :: l).
Proof.
  induction l as [|y ys IH]; simpl; [reflexivity|].
  destruct (cmp x y <=? 0); [reflexivity|].
  rewrite IH. apply perm_swap.
Qed.

Lemma sort_Permutation l : Permutation (Js.sort cmp l) l.
Proof.
  induction l as [|x l IH]; simpl; [reflexivity|].
  rewrite insertSorted_Permutation. now apply perm_skip.
Qed.

(** Where the new element lands: behind elements it must follow only. *)
Lemma insertSorted_split x l :
  exists l1 l2,
    l = (l1 ++ l2)%list /\ Js.insertSorted cmp x l = (l1 ++ x :: l2)%list
    /\ Forall (fun y => 0 < cmp x y) l1.
Proof.
  induction l as [|y ys (l1 & l2 & Hl & Hins & Hall)]; simpl.
  - exists [], []. repeat split; constructor.
  - destruct (cmp x y <=? 0) eqn:Hc.
    + exists [], (y :: ys). repeat split; constructor.
    + exists (y :: l1), l2. subst ys. rewrite Hins. repeat split.
      constructor; [|exact Hall]. apply Z.leb_gt in Hc. lia.
Qed.

(** The comparator is consistent: total on different elements and
    transitive. *)
Hypothesis cmp_total : forall a b, a <> b -> 0 < cmp a b -> cmp b a <= 0.
Hypothesis cmp_trans : forall a b c, cmp a b <= 0 -> cmp b c <= 0 -> cmp a c <= 0.

Lemma insertSorted_sorted x l :
  ~ In x l -> StronglySorted le l -> StronglySorted le (Js.insertSorted cmp x l).
Proof.
  intros Hnotin Hsorted. induction Hsorted as [|y ys Hs IH Hall]; simpl.
  - repeat constructor.
  - destruct (cmp x y <=? 0) eqn:Hc.
    + apply Z.leb_le in Hc. constructor; [now constructor|].
      constructor; [exact Hc|].
      eapply List.Forall_impl; [|exact Hall]. intros z Hz. now apply cmp_trans with y.
    + apply Z.leb_gt in Hc. constructor.
      * apply IH. intros Hin. apply Hnotin. now right.
      * eapply Permutation_Forall; [symmetry; apply insertSorted_Permutation|].
        constructor; [|exact Hall].
        apply cmp_total; [|lia]. intros ->. apply Hnotin. now left.
Qed.

Lemma sort_sorted l : List.NoDup l -> StronglySorted le (Js.sort cmp l).
Proof.
  induction 1 as [|x l Hnotin Hnd IH]; simpl; [constructor|].
  apply insertSorted_sorted; [|exact IH].
  intros Hin. apply Hnotin.
  eapply Permutation_in; [apply sort_Permutation | exact Hin].
Qed.

End SortFacts.

(** The sort is stable: an element that may stay in front of a later one
    does. *)
Lemma before_cons {A : Type} (x a b : A) l : before a b l -> before a b (x :: l).
Proof. intros (l1 & l2 & l3 & ->). now exists (x :: l1), l2, l3. Qed.

Lemma before_head {A : Type} (a b : A) l : In b l -> before a b (a :: l).
Proof. intros Hin. apply in_split in Hin as (l2 & l3 & ->). now exists [], l2, l3. Qed.

Lemma before_insertSorted_old {A : Type} (cmp : A -> A -> Z) x a b l :
  before a b l -> before a b (Js.insertSorted cmp x l).
Proof.
  induction l as [|y ys IH]; simpl; intros Hbefore.
  - destruct Hbefore as ([|? ?] & ? & ? & ?); discriminate.
  - destruct (cmp x y <=? 0); [now apply before_cons|].
    destruct Hbefore as ([|y' l1] & l2 & l3 & Hl); simpl in Hl.
    + injection Hl as -> ->. apply before_head.
      eapply Permutation_in; [symmetry; apply insertSorted_Permutation|].
      right. apply in_or_app. right. now left.
    + injection Hl as -> ->. apply before_cons, IH. now exists l1, l2, l3.
Qed.

Lemma before_insertSorted_new {A : Type} (cmp : A -> A -> Z) x b l :
  In b l -> cmp x b <= 0 -> before x b (Js.insertSorted cmp x l).
Proof.
  intros Hin Hle.
  destruct (insertSorted_split cmp x l) as (p & q & -> & -> & Hall).
  apply in_app_or in Hin as [Hin|Hin].
  - rewrite List.Forall_forall in Hall. specialize (Hall b Hin). lia.
  - apply in_split in Hin as (q1 & q2 & ->). now exists p, q1, q2.
Qed.

Lemma sort_stable {A : Type} (cmp : A -> A -> Z) a b l :
  before a b l -> cmp a b <= 0 -> before a b (Js.sort cmp l).
Proof.
  intros Hbefore Hle. induction l as [|x l IH]; simpl.
  - destruct Hbefore as ([|? ?] & ? & ? & ?); discriminate.
  - destruct Hbefore as (l1 & l2 & l3 & Hl). destruct l1 as [|x' l1]; simpl in Hl.
    + injection Hl as -> ->. apply before_insertSorted_new; [|exact Hle].
      eapply Permutation_in; [symmetry; apply sort_Permutation|].
      apply in_or_app. right. now left.
    + injection Hl as -> ->. apply before_insertSorted_old, IH. now exists l1, l2, l3.
Qed.

(** ** The order of the groups *)

Section OrderFacts.
Variable collate : string -> string -> Z.
Variable projects : gmap string string.

Hypothesis collate_total : forall a b, 0 < collate a b -> collate b a <= 0.
Hypothesis collate_trans :
  forall a b c, collate a b <= 0 -> collate b c <= 0 -> collate a c <= 0.

Local Abbreviation cmp := (compareProjectIds collate projects).

Lemma compareProjectIds_total a b : a <> b -> 0 < cmp a b -> cmp b a <= 0.
Proof.
  unfold compareProjectIds. destruct a as [a|], b as [b|]; intros Hne Hlt;
    [now apply collate_total | lia | lia | congruence].
Qed.

Lemma compareProjectIds_trans a b c : cmp a b <= 0 -> cmp b c <= 0 -> cmp a c <= 0.
Proof.
  unfold compareProjectIds. destruct a as [a|], b as [b|], c as [c|]; try lia.
  apply collate_trans.
Qed.

(** A list sorted by the comparator is a run of project ids sorted by
    their sort names, with [null] behind it if it is there at all. *)
Lemma sorted_shape l :
  StronglySorted (fun a b => cmp a b <= 0) l ->
  exists named,
    StronglySorted
      (fun a b => collate (sortName projects (Some a)) (sortName projects (Some b)) <= 0)
      named
    /\ (l = map Some named \/ l = (map Some named ++ [None])%list).
Proof.
  induction 1 as [|a l Hs (named & Hnamed & Hl) Hall].
  - exists []. split; [constructor | now left].
  - destruct a as [a|].
    + exists (a :: named). split.
      * constructor; [exact Hnamed|].
        rewrite List.Forall_forall in Hall |- *. intros b Hb.
        apply (Hall (Some b)).
        destruct Hl as [->| ->]; [|apply in_or_app; left]; now apply in_map.
      * destruct Hl as [->| ->]; [now left | now right].
    + exists []. split; [constructor|]. right.
      destruct l as [|b l]; [reflexivity|].
      apply Forall_inv in Hall. unfold compareProjectIds in Hall. lia.
Qed.

End OrderFacts.

Lemma StronglySorted_impl_In {A : Type} (R R' : A -> A -> Prop) l :
  (forall a b, In a l -> In b l -> R a b -> R' a b) ->
  StronglySorted R l -> StronglySorted R' l.
Proof.
  intros Himpl Hs. induction Hs as [|a l Hs IH Hall]; [constructor|].
  constructor.
  - apply IH. intros x y Hx Hy. apply Himpl; now right.
  - rewrite List.Forall_forall in Hall |- *. intros b Hb.
    apply Himpl; [now left | now right | now apply Hall].
Qed.

(** The case-insensitive comparison is a consistent collation. *)
Lemma caseInsensitiveCompare_total a b :
  0 < Collation.caseInsensitiveCompare a b -> Collation.caseInsensitiveCompare b a <= 0.
Proof.
  unfold Collation.caseInsensitiveCompare.
  rewrite (String.compare_antisym (Collation.toLowerCase b)).
  destruct (String.compare (Collation.toLowerCase a) (Collation.toLowerCase b)); simpl; lia.
Qed.

Lemma caseInsensitiveCompare_le a b :
  Collation.caseInsensitiveCompare a b <= 0 <->
  String.le (Collation.toLowerCase a) (Collation.toLowerCase b).
Proof.
  unfold Collation.caseInsensitiveCompare, String.le, String.leb.
  destruct (String.compare (Collation.toLowerCase a) (Collation.toLowerCase b)); simpl;
    split; intros H; try lia; try exact I; try (exfalso; exact H).
Qed.

Lemma caseInsensitiveCompare_trans a b c :
  Collation.caseInsensitiveCompare a b <= 0 ->
  Collation.caseInsensitiveCompare b c <= 0 ->
  Collation.caseInsensitiveCompare a c <= 0.
Proof.
  rewrite !caseInsensitiveCompare_le. intros Hab Hbc.
  now transitivity (Collation.toLowerCase b).
Qed.

Lemma sortName_known_or_unknown (projects : gmap string string) (id : string) :
  id <> "" -> sortName projects (Some id) = Js.nullish (projects !! id) "Unknown Project".
Proof. intros Hne. unfold sortName. simpl. destruct id; [congruence | reflexivity]. Qed.

Lemma before_In {A : Type} (a b : A) l : before a b l -> In a l /\ In b l.
Proof.
  intros (l1 & l2 & l3 & ->). split; apply in_or_app; right; [now left|].
  right. apply in_or_app. right. now left.
Qed.

(** C4, as the code has it.  For a collation that is consistent (total and
    transitive), the order of the groups is a rearrangement of the keys of
    the grouping in which the [null] key, if present, is last, and the
    project ids in front of it are sorted by the collation of their sort
    names.  The sort name of a project is its name in the directory and,
    for a project the directory does not know, the text [Unknown Project]
    without the id.  Groups whose sort names need no exchange keep the order
    in which their first tasks arrived. *)
Theorem groups_ordered_null_last_then_by_sort_name {Task : Type}
    (taskProjectId : Task -> option string)
    (collate : string -> string -> Z) (projects : gmap string string)
    (tasks : list Task) :
  (forall a b, 0 < collate a b -> collate b a <= 0) ->
  (forall a b c, collate a b <= 0 -> collate b c <= 0 -> collate a c <= 0) ->
  let groups := groupByProject taskProjectId tasks in
  let sorted := sortedProjectIds collate projects groups in
  let name := fun id => Js.nullish (projects !! id) "Unknown Project" in
  Permutation sorted (Js.keys groups)
  /\ (exists named,
        sorted = (map Some named ++ if Js.has None groups then [None] else [])%list
        /\ StronglySorted (fun a b => collate (name a) (name b) <= 0) named)
  /\ (forall a b,
        before (Some a) (Some b) (Js.keys groups) ->
        collate (name a) (name b) <= 0 ->
        before (Some a) (Some b) sorted).
Proof.
  intros Htotal Htrans groups sorted name.
  assert (Hperm : Permutation sorted (Js.keys groups)) by apply sort_Permutation.
  assert (Hkey : forall id, In (Some id) (Js.keys groups) -> id <> "").
  { intros id Hin ->. apply In_keys_groupByProject in Hin as (task & _ & Hk).
    now apply projectKey_not_empty in Hk. }
  split; [exact Hperm|]. split.
  - destruct (sorted_shape collate projects (Js.sort (compareProjectIds collate projects)
                                               (Js.keys groups)))
      as (named & Hnamed & Hshape).
    { apply sort_sorted.
      - now apply compareProjectIds_total.
      - now apply compareProjectIds_trans.
      - apply keys_groupByProject_NoDup. }
    fold (sortedProjectIds collate projects groups) in Hshape. fold sorted in Hshape.
    exists named. split.
    + destruct (Js.has None groups) eqn:Hhas.
      * destruct Hshape as [Hs|Hs]; [|exact Hs]. exfalso.
        apply has_true in Hhas.
        apply (Permutation_in _ (Permutation_sym Hperm)) in Hhas.
        rewrite Hs in Hhas. apply in_map_iff in Hhas as (x & Hx & _). discriminate.
      * destruct Hshape as [Hs|Hs]; [now rewrite app_nil_r|]. exfalso.
        assert (Hin : In None (Js.keys groups)).
        { apply (Permutation_in _ Hperm). rewrite Hs. apply in_or_app. right. now left. }
        apply has_true in Hin. congruence.
    + eapply StronglySorted_impl_In; [|exact Hnamed].
      intros a b Ha Hb. unfold name.
      assert (Hin : forall x, In x named -> x <> "").
      { intros x Hx. apply Hkey. apply (Permutation_in _ Hperm).
        destruct Hshape as [->| ->]; [|apply in_or_app; left]; now apply in_map. }
      rewrite !sortName_known_or_unknown by now apply Hin. tauto.
  - intros a b Hbefore Hle. apply sort_stable; [exact Hbefore|].
    apply before_In in Hbefore as [Ha Hb].
    unfold compareProjectIds. rewrite !sortName_known_or_unknown by now apply Hkey.
    exact Hle.
Qed.

(** The specification's scenario 5, "two projects Zeta and Alpha plus a
    null-project group", under the case-insensitive collation. *)
Lemma groups_ordered_scenario5 :
  (forall a b, 0 < Collation.caseInsensitiveCompare a b ->
               Collation.caseInsensitiveCompare b a <= 0)
  /\ (forall a b c, Collation.caseInsensitiveCompare a b <= 0 ->
                    Collation.caseInsensitiveCompare b c <= 0 ->
                    Collation.caseInsensitiveCompare a c <= 0)
  /\ exists named,
       sortedProjectIds Collation.caseInsensitiveCompare Scenario.scenario5Projects
         (groupByProject TodoistCompletedTask.project_id Scenario.scenario5Tasks)
       = (map Some named ++
          if Js.has None (groupByProject TodoistCompletedTask.project_id
                            Scenario.scenario5Tasks)
          then [None] else [])%list
       /\ StronglySorted
            (fun a b =>
               Collation.caseInsensitiveCompare
                 (Js.nullish (Scenario.scenario5Projects !! a) "Unknown Project")
                 (Js.nullish (Scenario.scenario5Projects !! b) "Unknown Project") <= 0)
            named.
Proof.
  split; [exact caseInsensitiveCompare_total|].
  split; [exact caseInsensitiveCompare_trans|].
  exact (proj1 (proj2 (groups_ordered_null_last_then_by_sort_name
                         TodoistCompletedTask.project_id
                         Collation.caseInsensitiveCompare
                         Scenario.scenario5Projects Scenario.scenario5Tasks
                         caseInsensitiveCompare_total caseInsensitiveCompare_trans))).
Defined.

(** C4, as stated, fails.  Two groups of projects the directory does not
    know, "9" before "10", sort under the same name [Unknown Project] and
    keep their order of arrival, while their headings, [Unknown Project
    (ID: 9)] and [Unknown Project (ID: 10)], compare the other way round. *)
Lemma unknown_groups_not_ordered_by_display_name :
  let groups := groupByProject TodoistCompletedTask.project_id Scenario.unknownTasks in
  let sorted := sortedProjectIds Collation.caseInsensitiveCompare ∅ groups in
  sorted = [Some "9"; Some "10"]
  /\ map (groupHeading ∅) sorted =
     [ "### Unknown Project (ID: 9)" ++ Js.nl; "### Unknown Project (ID: 10)" ++ Js.nl ]
  /\ map (Spec.displayName ∅) sorted =
     [ "Unknown Project (ID: 9)"; "Unknown Project (ID: 10)" ]
  /\ 0 < Collation.caseInsensitiveCompare
           "Unknown Project (ID: 9)" "Unknown Project (ID: 10)"
  /\ Spec.groupsOrdered ∅ sorted = false.
Proof. vm_compute. repeat split; reflexivity. Qed.

(** ** Headings *)

(** C7, as the code has it.  The heading of a group is the project's name
    from the directory when the directory knows the project under a name
    that is not empty, [No Project] for the [null] key, and [Unknown Project
    (ID: <id>)] when the directory does not know the id or knows it under
    the empty name. *)
Theorem group_heading_by_case {Task : Type}
    (taskProjectId : Task -> option string) (projects : gmap string string)
    (tasks : list Task) (projectId : option string) :
  In projectId (Js.keys (groupByProject taskProjectId tasks)) ->
  (projectId = None -> groupHeading projects projectId = "### No Project" ++ Js.nl)
  /\ (forall id name,
        projectId = Some id -> projects !! id = Some name -> name <> "" ->
        groupHeading projects projectId = "### " ++ name ++ Js.nl)
  /\ (forall id,
        projectId = Some id -> projects !! id = None \/ projects !! id = Some "" ->
        groupHeading projects projectId = "### Unknown Project (ID: " ++ id ++ ")" ++ Js.nl).
Proof.
  intros Hin.
  assert (Hid : forall id, projectId = Some id -> Js.truthy id = true).
  { intros id ->. apply In_keys_groupByProject in Hin as (task & _ & Hk).
    destruct id; [now apply projectKey_not_empty in Hk | reflexivity]. }
  split; [intros ->; reflexivity|]. split.
  - intros id name -> Hname Hne. unfold groupHeading. simpl.
    rewrite (Hid id eq_refl), Hname. simpl.
    destruct name; [congruence | reflexivity].
  - intros id -> Hname. unfold groupHeading. simpl. rewrite (Hid id eq_refl).
    destruct Hname as [-> | ->]; reflexivity.
Qed.

Lemma group_heading_scenario5 :
  In (Some "2")
     (Js.keys (groupByProject TodoistCompletedTask.project_id Scenario.scenario5Tasks))
  /\ groupHeading Scenario.scenario5Projects (Some "2") = "### Alpha" ++ Js.nl.
Proof.
  assert (Hin : In (Some "2")
                   (Js.keys (groupByProject TodoistCompletedTask.project_id
                               Scenario.scenario5Tasks))).
  { vm_compute. tauto. }
  split; [exact Hin|].
  apply (proj1 (proj2 (group_heading_by_case TodoistCompletedTask.project_id
                         Scenario.scenario5Projects Scenario.scenario5Tasks
                         (Some "2") Hin)) "2" "Alpha");
    [reflexivity | reflexivity | discriminate].
Defined.

(** C7, as stated, fails.  The directory knows project "1", under the empty
    name; the group's heading is not that name but [Unknown Project
    (ID: 1)]. *)
Lemma nameless_project_is_rendered_unknown :
  In (Some "1")
     (Js.keys (groupByProject TodoistCompletedTask.project_id Scenario.namelessTasks))
  /\ Scenario.namelessProjects !! "1" = Some ""
  /\ Spec.displayName Scenario.namelessProjects (Some "1") = ""
  /\ groupHeading Scenario.namelessProjects (Some "1")
     = "### Unknown Project (ID: 1)" ++ Js.nl
  /\ groupHeading Scenario.namelessProjects (Some "1")
     <> "### " ++ Spec.displayName Scenario.namelessProjects (Some "1") ++ Js.nl
  /\ RestV1.formatItems (Calendar.host 0 Scenario.noon (fun _ => Scenario.notFound))
       Scenario.namelessProjects "Today" Scenario.namelessTasks
     = Scenario.lines
         [ "## Tasks Completed Today"; "";
           "### Unknown Project (ID: 1)";
           "- [Write spec](https://todoist.com/showTask?id=a)"; "" ].
Proof.
  vm_compute. repeat split; try reflexivity; [tauto | discriminate].
Qed.

(** C10.  A task whose [project_id] is the empty string gets the [null]
    key: it sits in the group of the [null] key, whose heading is [No
    Project], and no group has the empty string as its key (there is no
    [Unknown Project (ID: )] group). *)
Theorem empty_project_id_is_no_project {Task : Type}
    (taskProjectId : Task -> option string) (projects : gmap string string)
    (tasks : list Task) (task : Task) :
  In task tasks -> taskProjectId task = Some "" ->
  let groups := groupByProject taskProjectId tasks in
  projectKey taskProjectId task = None
  /\ (exists group, Js.get None groups = Some group /\ In task group)
  /\ groupHeading projects None = "### No Project" ++ Js.nl
  /\ ~ In (Some "") (Js.keys groups).
Proof.
  intros Hin Hid groups.
  assert (Hkey : projectKey taskProjectId task = None).
  { unfold projectKey. now rewrite Hid. }
  split; [exact Hkey|]. split; [|split; [reflexivity|]].
  - rewrite <- Hkey. now apply In_own_group.
  - intros Hbad. apply In_keys_groupByProject in Hbad as (t & _ & Hk).
    now apply projectKey_not_empty in Hk.
Qed.

Lemma empty_project_id_example :
  In (Scenario.task "a" (Some "") "Write spec" Scenario.noon) Scenario.emptyIdTasks
  /\ TodoistCompletedTask.project_id
       (Scenario.task "a" (Some "") "Write spec" Scenario.noon) = Some ""
  /\ (exists group,
        Js.get None (groupByProject TodoistCompletedTask.project_id Scenario.emptyIdTasks)
        = Some group
        /\ In (Scenario.task "a" (Some "") "Write spec" Scenario.noon) group)
  /\ ~ In (Some "")
          (Js.keys (groupByProject TodoistCompletedTask.project_id Scenario.emptyIdTasks)).
Proof.
  assert (Hin : In (Scenario.task "a" (Some "") "Write spec" Scenario.noon)
                   Scenario.emptyIdTasks) by (left; reflexivity).
  split; [exact Hin|]. split; [reflexivity|].
  pose proof (empty_project_id_is_no_project TodoistCompletedTask.project_id ∅
                Scenario.emptyIdTasks _ Hin eq_refl) as (_ & Hgroup & _ & Hkeys).
  split; [exact Hgroup | exact Hkeys].
Defined.

(** ** Running the pipeline *)

(** What the loop over a page of projects returns and leaves behind. *)
Lemma forEach_addProject results projectsMap w :
  forEach RestV1.addProject results projectsMap w =
  (Returned (fold_left setProject results projectsMap),
   fold_left
     (fun w project =>
        shown ("Project {project.name} as color " ++ TodoistProject.color project) w)
     results w).
Proof.
  revert projectsMap w. induction results as [|project results IH]; intros; [reflexivity|].
  simpl. unfold bind at 1. simpl. apply IH.
Qed.

Lemma inserted_fold_shown {A : Type} (f : A -> string) l w :
  inserted (fold_left (fun w x => shown (f x) w) l w) = inserted w.
Proof. revert w. induction l as [|x l IH]; intros; simpl; [reflexivity | now rewrite IH]. Qed.

Lemma requests_fold_shown {A : Type} (f : A -> string) l w :
  requests (fold_left (fun w x => shown (f x) w) l w) = requests w.
Proof. revert w. induction l as [|x l IH]; intros; simpl; [reflexivity | now rewrite IH]. Qed.

(** C6.  When the sequence of completed tasks for the day is empty, the
    pipeline returns the empty string, and returns it as a result, not as
    an error.  REST revision: the directory fetch succeeds and the service
    answers 200 with an empty [items].  Sync revision: the directory fetch
    succeeds, the service answers 200, and no event passes the day filter. *)
Theorem empty_day_gives_empty_string
    (host : Host) (targetDate : Z) (w w1 : World) (projects : gmap string string)
    (response : Response) :
  (forall settings : RestV1.TodoistCompletedTasksSettings,
      Js.truthy (RestV1.todoistApiToken settings) = true ->
      RestV1.fetchProjectData host settings w = (Returned projects, w1) ->
      service host (RestV1.completedTasksRequest host settings targetDate)
      = Returned response ->
      status response = 200 ->
      data_items (json response) = Some [] ->
      fst (RestV1.fetchAndFormatTasksForDate host settings targetDate w) = Returned "")
  /\ (forall (settings : SyncV9.TodoistCompletedTasksSettings) events,
        Js.truthy (SyncV9.todoistApiToken settings) = true ->
        SyncV9.fetchProjectData host settings w = (Returned projects, w1) ->
        service host (SyncV9.activityRequest settings) = Returned response ->
        status response = 200 ->
        data_events (json response) = Some events ->
        List.filter (SyncV9.completedOnDate targetDate) events = [] ->
        fst (SyncV9.fetchAndFormatTasksForDate host settings targetDate w) = Returned "").
Proof.
  split.
  - intros settings Htoken Hdir Hresp Hstatus Hitems.
    unfold RestV1.fetchAndFormatTasksForDate. rewrite Htoken. simpl.
    unfold bind at 1. rewrite Hdir.
    unfold bind at 1. unfold requestUrl. rewrite Hresp, Hstatus, Hitems. reflexivity.
  - intros settings events Htoken Hdir Hresp Hstatus Hevents Hfilter.
    unfold SyncV9.fetchAndFormatTasksForDate. rewrite Htoken. simpl.
    unfold bind at 1. rewrite Hdir.
    unfold bind at 1. unfold requestUrl. rewrite Hresp, Hstatus, Hevents, Hfilter.
    reflexivity.
Qed.

(** The two fetches of the REST revision, step by step. *)
Section RestV1Facts.
Variable host : Host.
Variable settings : RestV1.TodoistCompletedTasksSettings.

Local Abbreviation token := (RestV1.todoistApiToken settings).
Local Abbreviation projectsRequest := (RestV1.projectsRequest settings).

Lemma rest_fetchProjectData_run w :
  RestV1.fetchProjectData host settings w =
  if negb (Js.truthy token) then (Thrown "Todoist API token is not set.", w)
  else
    match service host projectsRequest with
    | Thrown e => (Thrown ("Failed to fetch project data: " ++ e), sent projectsRequest w)
    | Returned response =>
        if negb (status response =? 200) then
          (Thrown ("Failed to fetch project data: "
                   ++ "Todoist Get Projects API error: " ++ pretty (status response)
                   ++ " - " ++ text response),
           sent projectsRequest w)
        else
          let results := default [] (data_results (json response)) in
          (Returned (fold_left setProject results ∅),
           fold_left
             (fun w project =>
                shown ("Project {project.name} as color "
                       ++ TodoistProject.color project) w)
             results (sent projectsRequest w))
    end.
Proof.
  unfold RestV1.fetchProjectData. destruct (negb (Js.truthy token)); [reflexivity|].
  unfold tryCatch, bind, requestUrl.
  destruct (service host projectsRequest) as [response|e]; [|reflexivity].
  destruct (negb (status response =? 200)); [reflexivity|].
  destruct (data_results (json response)) as [results|]; simpl; [|reflexivity].
  now rewrite forEach_addProject.
Qed.

Lemma rest_fetchProjectData_inserted w :
  inserted (snd (RestV1.fetchProjectData host settings w)) = inserted w.
Proof.
  rewrite rest_fetchProjectData_run.
  destruct (negb (Js.truthy token)); [reflexivity|].
  destruct (service host projectsRequest) as [response|e]; [|reflexivity].
  destruct (negb (status response =? 200)); [reflexivity|].
  simpl. now rewrite inserted_fold_shown.
Qed.

Lemma rest_fetchProjectData_outcome w w' :
  fst (RestV1.fetchProjectData host settings w)
  = fst (RestV1.fetchProjectData host settings w').
Proof.
  rewrite !rest_fetchProjectData_run.
  destruct (negb (Js.truthy token)); [reflexivity|].
  destruct (service host projectsRequest) as [response|e]; [|reflexivity].
  destruct (negb (status response =? 200)); reflexivity.
Qed.

Lemma rest_pipeline_run targetDate w :
  RestV1.fetchAndFormatTasksForDate host settings targetDate w =
  if negb (Js.truthy token) then (Thrown "Todoist API token is not set.", w)
  else
    match RestV1.fetchProjectData host settings w with
    | (Thrown e, w1) => (Thrown e, w1)
    | (Returned projects, w1) =>
        let request := RestV1.completedTasksRequest host settings targetDate in
        let w2 := sent request w1 in
        let targetDateString := momentFormat host targetDate "YYYY-MM-DD" in
        let isToday := Moment.isSameDay (utcOffset host) targetDate (now host) in
        match service host request with
        | Thrown e => (Thrown e, w2)
        | Returned response =>
            if negb (status response =? 200) then
              (Thrown ("Todoist Activity API error: " ++ pretty (status response)
                       ++ " - " ++ text response), w2)
            else
              match data_items (json response) with
              | None =>
                  (Thrown "Invalid response structure from Todoist completed tasks API",
                   w2)
              | Some [] =>
                  (Returned "",
                   shown ("No tasks completed on "
                          ++ (if isToday then "today" else targetDateString)
                          ++ " found in Todoist.") w2)
              | Some items =>
                  (Returned
                     (RestV1.formatItems host projects
                        (if isToday then "Today" else targetDateString) items),
                   shown ("Inserted " ++ pretty (length items)
                          ++ " tasks completed on " ++ targetDateString ++ ".") w2)
              end
        end
    end.
Proof.
  unfold RestV1.fetchAndFormatTasksForDate.
  destruct (negb (Js.truthy token)); [reflexivity|].
  unfold bind at 1.
  destruct (RestV1.fetchProjectData host settings w) as [[projects|e] w1]; [|reflexivity].
  unfold bind at 1. unfold requestUrl.
  destruct (service host _) as [response|e]; [|reflexivity].
  destruct (negb (status response =? 200)); [reflexivity|].
  destruct (data_items (json response)) as [[|item items]|]; reflexivity.
Qed.

Lemma rest_pipeline_inserted targetDate w :
  inserted (snd (RestV1.fetchAndFormatTasksForDate host settings targetDate w))
  = inserted w.
Proof.
  rewrite rest_pipeline_run.
  destruct (negb (Js.truthy token)); [reflexivity|].
  pose proof (rest_fetchProjectData_inserted w) as Hdir.
  destruct (RestV1.fetchProjectData host settings w) as [[projects|e] w1];
    simpl in Hdir; [|exact Hdir].
  cbv zeta. destruct (service host _) as [response|e]; [|exact Hdir].
  destruct (negb (status response =? 200)); [exact Hdir|].
  destruct (data_items (json response)) as [[|item items]|]; exact Hdir.
Qed.

Lemma rest_pipeline_outcome targetDate w w' :
  fst (RestV1.fetchAndFormatTasksForDate host settings targetDate w)
  = fst (RestV1.fetchAndFormatTasksForDate host settings targetDate w').
Proof.
  rewrite !rest_pipeline_run.
  destruct (negb (Js.truthy token)); [reflexivity|].
  pose proof (rest_fetchProjectData_outcome w w') as Hdir.
  destruct (RestV1.fetchProjectData host settings w) as [[projects|e] w1],
           (RestV1.fetchProjectData host settings w') as [[projects'|e'] w1'];
    simpl in Hdir; try discriminate; [|simpl; congruence].
  injection Hdir as <-. cbv zeta.
  destruct (service host _) as [response|e]; [|reflexivity].
  destruct (negb (status response =? 200)); [reflexivity|].
  destruct (data_items (json response)) as [[|item items]|]; reflexivity.
Qed.

(** A failure of the run is a throw of the pipeline, the same at every
    world. *)
Lemma rest_failure_throws targetDate :
  RestV1.credentialMissing settings
  \/ RestV1.directoryFetchFails host settings
  \/ RestV1.taskFetchFails host settings targetDate ->
  exists message, forall w,
    fst (RestV1.fetchAndFormatTasksForDate host settings targetDate w) = Thrown message.
Proof.
  unfold RestV1.credentialMissing, RestV1.directoryFetchFails, RestV1.taskFetchFails.
  intros Hfail.
  destruct (Js.truthy token) eqn:Htoken.
  2:{ exists "Todoist API token is not set.". intros w.
      now rewrite rest_pipeline_run, Htoken. }
  destruct Hfail as [Hfail|Hfail]; [discriminate|].
  assert (Hdir : (exists e, forall w,
                     fst (RestV1.fetchProjectData host settings w) = Thrown e)
                 \/ (exists projects, forall w,
                       fst (RestV1.fetchProjectData host settings w) = Returned projects
                       /\ ~ RestV1.directoryFetchFails host settings)).
  { unfold RestV1.directoryFetchFails.
    destruct (service host projectsRequest) as [response|e] eqn:Hresp.
    - destruct (status response =? 200) eqn:Hstatus.
      + right. eexists. intros w. rewrite rest_fetchProjectData_run, Htoken, Hresp, Hstatus.
        split; [reflexivity|]. apply Z.eqb_eq in Hstatus. tauto.
      + left. eexists. intros w.
        now rewrite rest_fetchProjectData_run, Htoken, Hresp, Hstatus.
    - left. eexists. intros w. now rewrite rest_fetchProjectData_run, Htoken, Hresp. }
  destruct Hdir as [[e Hdir]|[projects Hdir]].
  - exists e. intros w. rewrite rest_pipeline_run, Htoken. simpl.
    specialize (Hdir w).
    destruct (RestV1.fetchProjectData host settings w) as [[projects|e'] w1];
      simpl in Hdir; [discriminate|]. simpl. congruence.
  - destruct Hfail as [Hfail|Hfail]; [exfalso; now apply (Hdir emptyWorld)|].
    destruct (service host (RestV1.completedTasksRequest host settings targetDate))
      as [response|e] eqn:Hresp.
    + destruct (status response =? 200) eqn:Hstatus.
      * destruct Hfail as [Hfail|Hfail]; [apply Z.eqb_eq in Hstatus; tauto|].
        eexists. intros w. rewrite rest_pipeline_run, Htoken. simpl.
        destruct (Hdir w) as [Hd _].
        destruct (RestV1.fetchProjectData host settings w) as [[projects'|e'] w1];
          simpl in Hd; [|discriminate].
        cbv zeta. now rewrite Hresp, Hstatus, Hfail.
      * eexists. intros w. rewrite rest_pipeline_run, Htoken. simpl.
        destruct (Hdir w) as [Hd _].
        destruct (RestV1.fetchProjectData host settings w) as [[projects'|e'] w1];
          simpl in Hd; [|discriminate].
        cbv zeta. now rewrite Hresp, Hstatus.
    + exists e. intros w. rewrite rest_pipeline_run, Htoken. simpl.
      destruct (Hdir w) as [Hd _].
      destruct (RestV1.fetchProjectData host settings w) as [[projects'|e'] w1];
        simpl in Hd; [|discriminate].
      cbv zeta. now rewrite Hresp.
Qed.

(** A throw of the pipeline leaves the editor as it was and ends in an
    error notice. *)
Lemma rest_throw_inserts_nothing file w message :
  (forall w0,
      fst (RestV1.fetchAndFormatTasksForDate host settings
             (fst (RestV1.resolveTargetDate host settings file)) w0) = Thrown message) ->
  inserted (snd (RestV1.fetchAndInsertTasksForView host settings file w)) = inserted w
  /\ (Js.truthy token = true ->
      exists shownBefore,
        notices (snd (RestV1.fetchAndInsertTasksForView host settings file w))
        = (shownBefore ++ [("Error: " ++ message)%string])%list).
Proof.
  intros Hthrow. unfold RestV1.fetchAndInsertTasksForView.
  destruct (RestV1.resolveTargetDate host settings file) as [targetDate dateSource].
  simpl in Hthrow.
  destruct (Js.truthy token); simpl; [|split; [reflexivity | discriminate]].
  unfold bind, tryCatch, Notice. simpl.
  set (w1 := shown _ w).
  specialize (Hthrow w1).
  pose proof (rest_pipeline_inserted targetDate w1) as Hins.
  destruct (RestV1.fetchAndFormatTasksForDate host settings targetDate w1)
    as [[markdownOutput|e] w2]; simpl in *; [discriminate|].
  injection Hthrow as ->. split; [exact Hins|]. intros _. now eexists.
Qed.

End RestV1Facts.

(** The two fetches of the Sync revision, step by step. *)
Section SyncV9Facts.
Variable host : Host.
Variable settings : SyncV9.TodoistCompletedTasksSettings.

Local Abbreviation token := (SyncV9.todoistApiToken settings).
Local Abbreviation projectsRequest := (SyncV9.projectsRequest settings).
Local Abbreviation activityRequest := (SyncV9.activityRequest settings).

Lemma sync_fetchProjectData_run w :
  SyncV9.fetchProjectData host settings w =
  if negb (Js.truthy token) then (Thrown "Todoist API token is not set.", w)
  else
    match service host projectsRequest with
    | Thrown e => (Thrown ("Failed to fetch project data: " ++ e), sent projectsRequest w)
    | Returned response =>
        if negb (status response =? 200) then
          (Thrown ("Failed to fetch project data: "
                   ++ "Todoist Sync API error: " ++ pretty (status response)
                   ++ " - " ++ text response),
           sent projectsRequest w)
        else
          (Returned (fold_left setProject (default [] (data_projects (json response))) ∅),
           sent projectsRequest w)
    end.
Proof.
  unfold SyncV9.fetchProjectData. destruct (negb (Js.truthy token)); [reflexivity|].
  unfold tryCatch, bind, requestUrl.
  destruct (service host projectsRequest) as [response|e]; [|reflexivity].
  destruct (negb (status response =? 200)); [reflexivity|].
  destruct (data_projects (json response)) as [projects|]; reflexivity.
Qed.

Lemma sync_fetchProjectData_inserted w :
  inserted (snd (SyncV9.fetchProjectData host settings w)) = inserted w.
Proof.
  rewrite sync_fetchProjectData_run.
  destruct (negb (Js.truthy token)); [reflexivity|].
  destruct (service host projectsRequest) as [response|e]; [|reflexivity].
  destruct (negb (status response =? 200)); reflexivity.
Qed.

Lemma sync_fetchProjectData_outcome w w' :
  fst (SyncV9.fetchProjectData host settings w)
  = fst (SyncV9.fetchProjectData host settings w').
Proof.
  rewrite !sync_fetchProjectData_run.
  destruct (negb (Js.truthy token)); [reflexivity|].
  destruct (service host projectsRequest) as [response|e]; [|reflexivity].
  destruct (negb (status response =? 200)); reflexivity.
Qed.

Lemma sync_pipeline_run targetDate w :
  SyncV9.fetchAndFormatTasksForDate host settings targetDate w =
  if negb (Js.truthy token) then (Thrown "Todoist API token is not set.", w)
  else
    match SyncV9.fetchProjectData host settings w with
    | (Thrown e, w1) => (Thrown e, w1)
    | (Returned projects, w1) =>
        let w2 := sent activityRequest w1 in
        let targetDateString := momentFormat host targetDate "YYYY-MM-DD" in
        let isToday := Moment.isSameDay (utcOffset host) targetDate (now host) in
        match service host activityRequest with
        | Thrown e => (Thrown e, w2)
        | Returned response =>
            if negb (status response =? 200) then
              (Thrown ("Todoist Activity API error: " ++ pretty (status response)
                       ++ " - " ++ text response), w2)
            else
              match data_events (json response) with
              | None =>
                  (Thrown "Invalid response structure from Todoist Activity API", w2)
              | Some events =>
                  match List.filter (SyncV9.completedOnDate targetDate) events with
                  | [] =>
                      (Returned "",
                       shown ("No tasks completed on "
                              ++ (if isToday then "today" else targetDateString)
                              ++ " found in Todoist.") w2)
                  | completedOnDateEvents =>
                      (Returned
                         (SyncV9.formatEvents host projects
                            (if isToday then "Today" else targetDateString)
                            completedOnDateEvents),
                       shown ("Inserted " ++ pretty (length completedOnDateEvents)
                              ++ " tasks completed on " ++ targetDateString ++ ".") w2)
                  end
              end
        end
    end.
Proof.
  unfold SyncV9.fetchAndFormatTasksForDate.
  destruct (negb (Js.truthy token)); [reflexivity|].
  unfold bind at 1.
  destruct (SyncV9.fetchProjectData host settings w) as [[projects|e] w1]; [|reflexivity].
  unfold bind at 1. unfold requestUrl.
  destruct (service host _) as [response|e]; [|reflexivity].
  destruct (negb (status response =? 200)); [reflexivity|].
  destruct (data_events (json response)) as [events|]; [|reflexivity].
  destruct (List.filter (SyncV9.completedOnDate targetDate) events); reflexivity.
Qed.

Lemma sync_pipeline_inserted targetDate w :
  inserted (snd (SyncV9.fetchAndFormatTasksForDate host settings targetDate w))
  = inserted w.
Proof.
  rewrite sync_pipeline_run.
  destruct (negb (Js.truthy token)); [reflexivity|].
  pose proof (sync_fetchProjectData_inserted w) as Hdir.
  destruct (SyncV9.fetchProjectData host settings w) as [[projects|e] w1];
    simpl in Hdir; [|exact Hdir].
  cbv zeta. destruct (service host _) as [response|e]; [|exact Hdir].
  destruct (negb (status response =? 200)); [exact Hdir|].
  destruct (data_events (json response)) as [events|]; [|exact Hdir].
  destruct (List.filter (SyncV9.completedOnDate targetDate) events); exact Hdir.
Qed.

Lemma sync_failure_throws targetDate :
  SyncV9.credentialMissing settings
  \/ SyncV9.directoryFetchFails host settings
  \/ SyncV9.taskFetchFails host settings ->
  exists message, forall w,
    fst (SyncV9.fetchAndFormatTasksForDate host settings targetDate w) = Thrown message.
Proof.
  unfold SyncV9.credentialMissing, SyncV9.directoryFetchFails, SyncV9.taskFetchFails.
  intros Hfail.
  destruct (Js.truthy token) eqn:Htoken.
  2:{ exists "Todoist API token is not set.". intros w.
      now rewrite sync_pipeline_run, Htoken. }
  destruct Hfail as [Hfail|Hfail]; [discriminate|].
  assert (Hdir : (exists e, forall w,
                     fst (SyncV9.fetchProjectData host settings w) = Thrown e)
                 \/ (exists projects, forall w,
                       fst (SyncV9.fetchProjectData host settings w) = Returned projects
                       /\ ~ SyncV9.directoryFetchFails host settings)).
  { unfold SyncV9.directoryFetchFails.
    destruct (service host projectsRequest) as [response|e] eqn:Hresp.
    - destruct (status response =? 200) eqn:Hstatus.
      + right. eexists. intros w. rewrite sync_fetchProjectData_run, Htoken, Hresp, Hstatus.
        split; [reflexivity|]. apply Z.eqb_eq in Hstatus. tauto.
      + left. eexists. intros w.
        now rewrite sync_fetchProjectData_run, Htoken, Hresp, Hstatus.
    - left. eexists. intros w. now rewrite sync_fetchProjectData_run, Htoken, Hresp. }
  destruct Hdir as [[e Hdir]|[projects Hdir]].
  - exists e. intros w. rewrite sync_pipeline_run, Htoken. simpl.
    specialize (Hdir w).
    destruct (SyncV9.fetchProjectData host settings w) as [[projects|e'] w1];
      simpl in Hdir; [discriminate|]. simpl. congruence.
  - destruct Hfail as [Hfail|Hfail]; [exfalso; now apply (Hdir emptyWorld)|].
    destruct (service host activityRequest) as [response|e] eqn:Hresp.
    + destruct (status response =? 200) eqn:Hstatus.
      * destruct Hfail as [Hfail|Hfail]; [apply Z.eqb_eq in Hstatus; tauto|].
        eexists. intros w. rewrite sync_pipeline_run, Htoken. simpl.
        destruct (Hdir w) as [Hd _].
        destruct (SyncV9.fetchProjectData host settings w) as [[projects'|e'] w1];
          simpl in Hd; [|discriminate].
        cbv zeta. now rewrite Hresp, Hstatus, Hfail.
      * eexists. intros w. rewrite sync_pipeline_run, Htoken. simpl.
        destruct (Hdir w) as [Hd _].
        destruct (SyncV9.fetchProjectData host settings w) as [[projects'|e'] w1];
          simpl in Hd; [|discriminate].
        cbv zeta. now rewrite Hresp, Hstatus.
    + exists e. intros w. rewrite sync_pipeline_run, Htoken. simpl.
      destruct (Hdir w) as [Hd _].
      destruct (SyncV9.fetchProjectData host settings w) as [[projects'|e'] w1];
        simpl in Hd; [|discriminate].
      cbv zeta. now rewrite Hresp.
Qed.

Lemma sync_throw_inserts_nothing file w message :
  (forall w0,
      fst (SyncV9.fetchAndFormatTasksForDate host settings
             (fst (SyncV9.resolveTargetDate host file)) w0) = Thrown message) ->
  inserted (snd (SyncV9.fetchAndInsertTasksForView host settings file w)) = inserted w
  /\ (Js.truthy token = true ->
      exists shownBefore,
        notices (snd (SyncV9.fetchAndInsertTasksForView host settings file w))
        = (shownBefore ++ [("Error: " ++ message)%string])%list).
Proof.
  intros Hthrow. unfold SyncV9.fetchAndInsertTasksForView.
  destruct (SyncV9.resolveTargetDate host file) as [targetDate dateSource].
  simpl in Hthrow.
  destruct (Js.truthy token); simpl; [|split; [reflexivity | discriminate]].
  unfold bind, tryCatch, Notice. simpl.
  set (w1 := shown _ w).
  specialize (Hthrow w1).
  pose proof (sync_pipeline_inserted targetDate w1) as Hins.
  destruct (SyncV9.fetchAndFormatTasksForDate host settings targetDate w1)
    as [[markdownOutput|e] w2]; simpl in *; [discriminate|].
  injection Hthrow as ->. split; [exact Hins|]. intros _. now eexists.
Qed.

End SyncV9Facts.

(** C9.  When the credential is missing, or the directory fetch fails, or
    the task fetch fails (the transport throws, the status is not 200, or
    the payload lacks the list), the pipeline throws: it returns no Markdown
    at all; the caller catches the error, inserts nothing in the editor, and,
    the credential being there, shows the error's message in a notice.  This
    holds in both revisions. *)
Theorem failure_aborts_without_output (host : Host) (file : option string) (w : World) :
  (forall settings : RestV1.TodoistCompletedTasksSettings,
      let targetDate := fst (RestV1.resolveTargetDate host settings file) in
      RestV1.credentialMissing settings
      \/ RestV1.directoryFetchFails host settings
      \/ RestV1.taskFetchFails host settings targetDate ->
      exists message,
        (forall w0,
            fst (RestV1.fetchAndFormatTasksForDate host settings targetDate w0)
            = Thrown message)
        /\ inserted (snd (RestV1.fetchAndInsertTasksForView host settings file w))
           = inserted w
        /\ (Js.truthy (RestV1.todoistApiToken settings) = true ->
            exists shownBefore,
              notices (snd (RestV1.fetchAndInsertTasksForView host settings file w))
              = (shownBefore ++ [("Error: " ++ message)%string])%list))
  /\ (forall settings : SyncV9.TodoistCompletedTasksSettings,
        let targetDate := fst (SyncV9.resolveTargetDate host file) in
        SyncV9.credentialMissing settings
        \/ SyncV9.directoryFetchFails host settings
        \/ SyncV9.taskFetchFails host settings ->
        exists message,
          (forall w0,
              fst (SyncV9.fetchAndFormatTasksForDate host settings targetDate w0)
              = Thrown message)
          /\ inserted (snd (SyncV9.fetchAndInsertTasksForView host settings file w))
             = inserted w
          /\ (Js.truthy (SyncV9.todoistApiToken settings) = true ->
              exists shownBefore,
                notices (snd (SyncV9.fetchAndInsertTasksForView host settings file w))
                = (shownBefore ++ [("Error: " ++ message)%string])%list)).
Proof.
  split.
  - intros settings targetDate Hfail.
    destruct (rest_failure_throws host settings targetDate Hfail) as [message Hthrow].
    exists message. split; [exact Hthrow|].
    now apply rest_throw_inserts_nothing.
  - intros settings targetDate Hfail.
    destruct (sync_failure_throws host settings targetDate Hfail) as [message Hthrow].
    exists message. split; [exact Hthrow|].
    now apply sync_throw_inserts_nothing.
Qed.

(** A day without completed tasks, in both revisions: the REST service
    holds no task at all; the activity log holds one event, of the day
    before. *)
Lemma empty_day_examples :
  fst (RestV1.fetchAndFormatTasksForDate
         (Scenario.eastern (Scenario.restService Scenario.workProjects []))
         Scenario.restSettings Scenario.noon emptyWorld) = Returned ""
  /\ List.filter (SyncV9.completedOnDate Scenario.noon) Scenario.yesterdaysEvents = []
  /\ fst (SyncV9.fetchAndFormatTasksForDate
            (Scenario.greenwich
               (Scenario.syncService Scenario.workProjects Scenario.yesterdaysEvents))
            Scenario.syncSettings Scenario.noon emptyWorld) = Returned "".
Proof.
  split; [|split; [reflexivity|]].
  - eapply (proj1 (empty_day_gives_empty_string
                     (Scenario.eastern (Scenario.restService Scenario.workProjects []))
                     Scenario.noon emptyWorld _ _ _) Scenario.restSettings);
      reflexivity.
  - eapply (proj2 (empty_day_gives_empty_string
                     (Scenario.greenwich
                        (Scenario.syncService Scenario.workProjects
                           Scenario.yesterdaysEvents))
                     Scenario.noon emptyWorld _ _ _) Scenario.syncSettings);
      reflexivity.
Defined.

(** A service that answers 401 to the REST revision, and a network that is
    down under the Sync revision: nothing is inserted. *)
Lemma failure_examples :
  (RestV1.directoryFetchFails (Scenario.eastern Scenario.unauthorized) Scenario.restSettings
   /\ exists message,
        (forall w0,
            fst (RestV1.fetchAndFormatTasksForDate
                   (Scenario.eastern Scenario.unauthorized) Scenario.restSettings
                   (fst (RestV1.resolveTargetDate (Scenario.eastern Scenario.unauthorized)
                           Scenario.restSettings (Some "2024-05-01"))) w0)
            = Thrown message)
        /\ inserted (snd (RestV1.fetchAndInsertTasksForView
                            (Scenario.eastern Scenario.unauthorized) Scenario.restSettings
                            (Some "2024-05-01") emptyWorld)) = [])
  /\ (SyncV9.directoryFetchFails (Scenario.eastern Scenario.offline) Scenario.syncSettings
      /\ exists message,
           (forall w0,
               fst (SyncV9.fetchAndFormatTasksForDate
                      (Scenario.eastern Scenario.offline) Scenario.syncSettings
                      (fst (SyncV9.resolveTargetDate (Scenario.eastern Scenario.offline)
                              (Some "2024-05-01"))) w0)
               = Thrown message)
           /\ inserted (snd (SyncV9.fetchAndInsertTasksForView
                               (Scenario.eastern Scenario.offline) Scenario.syncSettings
                               (Some "2024-05-01") emptyWorld)) = []).
Proof.
  assert (Hrest : RestV1.directoryFetchFails (Scenario.eastern Scenario.unauthorized)
                    Scenario.restSettings) by (vm_compute; discriminate).
  assert (Hsync : SyncV9.directoryFetchFails (Scenario.eastern Scenario.offline)
                    Scenario.syncSettings) by exact I.
  split; (split; [assumption|]).
  - destruct (proj1 (failure_aborts_without_output
                       (Scenario.eastern Scenario.unauthorized)
                       (Some "2024-05-01") emptyWorld)
                Scenario.restSettings (or_intror (or_introl Hrest)))
      as (message & Hthrow & Hinserted & _).
    exists message. split; [exact Hthrow | exact Hinserted].
  - destruct (proj2 (failure_aborts_without_output
                       (Scenario.eastern Scenario.offline)
                       (Some "2024-05-01") emptyWorld)
                Scenario.syncSettings (or_intror (or_introl Hsync)))
      as (message & Hthrow & Hinserted & _).
    exists message. split; [exact Hthrow | exact Hinserted].
Defined.

(** ** One page only *)

(** The directory built from a page of projects knows the ids of that page
    and no others, each under a name the page gives it. *)
Lemma lookup_fold_setProject results (projectsMap : gmap string string) id name :
  fold_left setProject results projectsMap !! id = Some name ->
  projectsMap !! id = Some name
  \/ exists project,
       In project results /\ TodoistProject.id project = id
       /\ TodoistProject.name project = name.
Proof.
  revert projectsMap. induction results as [|project results IH]; intros m; simpl.
  - now left.
  - intros Hlookup. apply IH in Hlookup as [Hlookup|(p & Hin & Hid & Hname)].
    + unfold setProject in Hlookup. rewrite lookup_insert in Hlookup.
      destruct (decide (TodoistProject.id project = id)) as [Heq|Hne].
      * injection Hlookup as <-. right. exists project. auto.
      * now left.
    + right. exists p. auto.
Qed.

Lemma is_Some_fold_setProject results (projectsMap : gmap string string) project :
  In project results ->
  is_Some (fold_left setProject results projectsMap !! TodoistProject.id project).
Proof.
  revert projectsMap. induction results as [|p results IH]; intros m; simpl; [tauto|].
  assert (Hkeep : forall m' : gmap string string,
             is_Some (m' !! TodoistProject.id project) ->
             is_Some (fold_left setProject results m' !! TodoistProject.id project)).
  { clear. induction results as [|p results IH]; intros m' Hsome; simpl; [exact Hsome|].
    apply IH. unfold setProject. rewrite lookup_insert.
    destruct (decide _); [eauto | exact Hsome]. }
  intros [->|Hin].
  - apply Hkeep. unfold setProject. rewrite lookup_insert_eq. eauto.
  - now apply IH.
Qed.

(** C3, as the code has it.  The fetcher sends one request, for the first
    page of at most 200 projects, whatever the continuation cursor of the
    answer; its result is the id-to-name mapping of that page's projects:
    every project of the page is in it, and nothing else is. *)
Theorem project_fetch_reads_one_page
    (host : Host) (settings : RestV1.TodoistCompletedTasksSettings) (w : World)
    (response : Response) (results : list TodoistProject.t) (cursor : option string) :
  Js.truthy (RestV1.todoistApiToken settings) = true ->
  service host (RestV1.projectsRequest settings) = Returned response ->
  status response = 200 ->
  json response = TodoistProjectResponse (Some results) cursor ->
  RestV1.projectsRequest settings
  = GetProjects 200 None (bearer (RestV1.todoistApiToken settings))
  /\ fst (RestV1.fetchProjectData host settings w)
     = Returned (fold_left setProject results ∅)
  /\ requests (snd (RestV1.fetchProjectData host settings w))
     = (requests w ++ [RestV1.projectsRequest settings])%list
  /\ (forall project,
        In project results ->
        is_Some (fold_left setProject results ∅ !! TodoistProject.id project))
  /\ (forall id name,
        fold_left setProject results ∅ !! id = Some name ->
        exists project,
          In project results /\ TodoistProject.id project = id
          /\ TodoistProject.name project = name).
Proof.
  intros Htoken Hresp Hstatus Hjson.
  split; [reflexivity|].
  rewrite rest_fetchProjectData_run, Htoken, Hresp, Hstatus, Hjson. simpl.
  split; [reflexivity|]. split; [now rewrite requests_fold_shown|].
  split; [intros project Hin; now apply is_Some_fold_setProject|].
  intros id name Hlookup.
  apply lookup_fold_setProject in Hlookup as [Hempty|Hin]; [|exact Hin].
  now rewrite lookup_empty in Hempty.
Qed.

(** A service with 201 projects: the first page holds 200 of them and a
    cursor. *)
Lemma project_fetch_first_page_example :
  let host := Scenario.eastern (Scenario.restService Scenario.manyProjects []) in
  exists response,
    service host (RestV1.projectsRequest Scenario.restSettings) = Returned response
    /\ data_next_cursor (json response) = Some "2"
    /\ fst (RestV1.fetchProjectData host Scenario.restSettings emptyWorld)
       = Returned (fold_left setProject (firstn 200 Scenario.manyProjects) ∅)
    /\ requests (snd (RestV1.fetchProjectData host Scenario.restSettings emptyWorld))
       = [ GetProjects 200 None "Bearer 0123456789abcdef" ].
Proof.
  intros host. eexists. split; [reflexivity|]. split; [reflexivity|].
  destruct (project_fetch_reads_one_page host Scenario.restSettings emptyWorld
              _ (firstn 200 Scenario.manyProjects) (Some "2")
              eq_refl eq_refl eq_refl eq_refl)
    as (_ & Hresult & Hrequests & _).
  split; [exact Hresult | exact Hrequests].
Defined.

(** C3, as stated, fails.  The service holds 201 projects and answers the
    only request with the first 200 and a cursor that is not null; the
    fetcher returns a directory without project "201" and asks for no
    further page. *)
Lemma project_directory_is_truncated :
  let host := Scenario.eastern (Scenario.restService Scenario.manyProjects []) in
  let run := RestV1.fetchProjectData host Scenario.restSettings emptyWorld in
  In (Scenario.project "201" "Project 201") Scenario.manyProjects
  /\ (exists response,
        service host (RestV1.projectsRequest Scenario.restSettings) = Returned response
        /\ data_next_cursor (json response) = Some "2")
  /\ (exists directory,
        fst run = Returned directory
        /\ directory !! "200" = Some "Project 200"
        /\ directory !! "201" = None)
  /\ requests (snd run) = [ GetProjects 200 None "Bearer 0123456789abcdef" ].
Proof.
  intros host run. split; [|split; [|split]].
  - vm_compute. do 200 right. left. reflexivity.
  - eexists. split; reflexivity.
  - eexists. split; [reflexivity|]. split; vm_compute; reflexivity.
  - vm_compute. reflexivity.
Qed.

(** C2, as the code has it.  Each run sends one request for completed
    tasks, with a page size of 100 and no cursor, and never a second one.
    When the service answers 200 with a list, the run succeeds with the
    rendering of that list (of the events of that list which pass the day
    filter, in the Sync revision), whatever the continuation cursor says
    about further records. *)
Theorem task_fetch_reads_one_page
    (host : Host) (targetDate : Z) (w w1 : World) (projects : gmap string string)
    (response : Response) :
  let friendlyDateString :=
    if Moment.isSameDay (utcOffset host) targetDate (now host)
    then "Today" else momentFormat host targetDate "YYYY-MM-DD" in
  (forall (settings : RestV1.TodoistCompletedTasksSettings) items cursor,
      Js.truthy (RestV1.todoistApiToken settings) = true ->
      RestV1.fetchProjectData host settings w = (Returned projects, w1) ->
      service host (RestV1.completedTasksRequest host settings targetDate)
      = Returned response ->
      status response = 200 ->
      json response = TodoistCompletedTasksResponse (Some items) cursor ->
      RestV1.completedTasksRequest host settings targetDate
      = CompletedByCompletionDate
          (Moment.startOfDay (utcOffset host) targetDate)
          (Moment.endOfDay (utcOffset host) targetDate)
          100 None (bearer (RestV1.todoistApiToken settings))
      /\ fst (RestV1.fetchAndFormatTasksForDate host settings targetDate w)
         = Returned
             match items with
             | [] => ""
             | _ => RestV1.formatItems host projects friendlyDateString items
             end
      /\ requests (snd (RestV1.fetchAndFormatTasksForDate host settings targetDate w))
         = (requests w1 ++ [RestV1.completedTasksRequest host settings targetDate])%list)
  /\ (forall (settings : SyncV9.TodoistCompletedTasksSettings) events,
        Js.truthy (SyncV9.todoistApiToken settings) = true ->
        SyncV9.fetchProjectData host settings w = (Returned projects, w1) ->
        service host (SyncV9.activityRequest settings) = Returned response ->
        status response = 200 ->
        json response = ActivityData (Some events) ->
        SyncV9.activityRequest settings
        = ActivityGet 100 (bearer (SyncV9.todoistApiToken settings))
        /\ fst (SyncV9.fetchAndFormatTasksForDate host settings targetDate w)
           = Returned
               match List.filter (SyncV9.completedOnDate targetDate) events with
               | [] => ""
               | completedOnDateEvents =>
                   SyncV9.formatEvents host projects friendlyDateString
                     completedOnDateEvents
               end
        /\ requests (snd (SyncV9.fetchAndFormatTasksForDate host settings targetDate w))
           = (requests w1 ++ [SyncV9.activityRequest settings])%list).
Proof.
  intros friendlyDateString. split.
  - intros settings items cursor Htoken Hdir Hresp Hstatus Hjson.
    split; [reflexivity|].
    rewrite rest_pipeline_run, Htoken, Hdir. cbv zeta.
    rewrite Hresp, Hstatus, Hjson. simpl.
    destruct items; split; reflexivity.
  - intros settings events Htoken Hdir Hresp Hstatus Hjson.
    split; [reflexivity|].
    rewrite sync_pipeline_run, Htoken, Hdir. cbv zeta.
    rewrite Hresp, Hstatus, Hjson. simpl.
    destruct (List.filter (SyncV9.completedOnDate targetDate) events); split; reflexivity.
Qed.

(** The note of 2024-05-01 against a service that holds one completed task
    of that day. *)
Lemma task_fetch_one_page_example :
  let host :=
    Scenario.eastern
      (Scenario.restService Scenario.workProjects
         [ Scenario.task "a" (Some "1") "Write spec" Scenario.noon ]) in
  fst (RestV1.fetchAndFormatTasksForDate host Scenario.restSettings Scenario.noon emptyWorld)
  = Returned
      (RestV1.formatItems host {[ "1" := "Work" ]} "Today"
         [ Scenario.task "a" (Some "1") "Write spec" Scenario.noon ])
  /\ requests
       (snd (RestV1.fetchAndFormatTasksForDate host Scenario.restSettings Scenario.noon
               emptyWorld))
     = [ RestV1.projectsRequest Scenario.restSettings;
         RestV1.completedTasksRequest host Scenario.restSettings Scenario.noon ].
Proof.
  intros host.
  destruct (proj1 (task_fetch_reads_one_page host Scenario.noon emptyWorld
                     (snd (RestV1.fetchProjectData host Scenario.restSettings emptyWorld))
                     {[ "1" := "Work" ]}
                     {| status := 200; text := "OK";
                        json := TodoistCompletedTasksResponse
                                  (Some [ Scenario.task "a" (Some "1") "Write spec"
                                            Scenario.noon ]) None |})
              Scenario.restSettings _ None eq_refl eq_refl eq_refl eq_refl eq_refl)
    as (_ & Hresult & Hrequests).
  split; [exact Hresult | exact Hrequests].
Defined.

(** C2, as stated, fails.  The service holds 101 tasks completed on the
    target day and answers the only request with 100 of them and a cursor
    that is not null.  The run does not fail: it returns the rendering of
    the 100, announces 100 inserted tasks, and asks for no further page. *)
Lemma busy_day_is_truncated_silently :
  let host := Scenario.eastern (Scenario.restService Scenario.workProjects Scenario.busyDay) in
  let targetDate :=
    fst (RestV1.resolveTargetDate host Scenario.restSettings (Some "2024-05-01")) in
  let run :=
    RestV1.fetchAndFormatTasksForDate host Scenario.restSettings targetDate emptyWorld in
  length Scenario.busyDay = 101%nat
  /\ forallb
       (fun task =>
          Moment.localDay 120 (TodoistCompletedTask.completed_at task)
          =? Moment.localDay 120 targetDate)
       Scenario.busyDay = true
  /\ (exists response items,
        service host (RestV1.completedTasksRequest host Scenario.restSettings targetDate)
        = Returned response
        /\ json response = TodoistCompletedTasksResponse (Some items) (Some "2")
        /\ length items = 100%nat)
  /\ fst run
     = Returned
         (RestV1.formatItems host {[ "1" := "Work" ]} "Today"
            (firstn 100 Scenario.busyDay))
  /\ notices (snd run)
     = [ "Project {project.name} as color grey";
         "Inserted 100 tasks completed on 2024-05-01." ]
  /\ requests (snd run)
     = [ GetProjects 200 None "Bearer 0123456789abcdef";
         CompletedByCompletionDate 1714514400000 1714600799999 100 None
           "Bearer 0123456789abcdef" ].
Proof.
  intros host targetDate run. split; [reflexivity|]. split; [vm_compute; reflexivity|].
  split; [|split; [|split]].
  - eexists. eexists. split; [reflexivity|]. split; [reflexivity|]. vm_compute. reflexivity.
  - vm_compute. reflexivity.
  - vm_compute. reflexivity.
  - vm_compute. reflexivity.
Qed.

(** ** Days *)

Lemma utcIsSameDay_iff this input :
  Moment.utcIsSameDay this input = true <-> Moment.utcDay this = Moment.utcDay input.
Proof.
  unfold Moment.utcIsSameDay, Moment.utcEndOfDay, Moment.utcStartOfDay, Moment.utcDay,
    Moment.MS_PER_DAY.
  rewrite andb_true_iff, !Z.leb_le. split.
  - intros [Hlo Hhi]. apply (Z.div_unique input 86400000 _ (input - this / 86400000 * 86400000));
      lia.
  - intros ->. pose proof (Z.mod_pos_bound input 86400000 ltac:(lia)).
    pose proof (Z.div_mod input 86400000 ltac:(lia)). lia.
Qed.

(** The local filter of the Sync revision keeps the events whose UTC day is
    the UTC day of the target instant. *)
Lemma completedOnDate_iff targetMoment event :
  SyncV9.completedOnDate targetMoment event = true <->
  exists eventMoment,
    ActivityEvent.event_date event = Some eventMoment
    /\ Moment.utcDay eventMoment = Moment.utcDay targetMoment.
Proof.
  unfold SyncV9.completedOnDate. destruct (ActivityEvent.event_date event) as [t|].
  - rewrite utcIsSameDay_iff. split; [eauto|]. now intros (? & [= <-] & ?).
  - split; [discriminate | now intros (? & ? & _)].
Qed.

(** The bounds the REST revision sends are the first and the last instant
    of the target's local day. *)
Lemma day_bounds offset targetDate t :
  Moment.startOfDay offset targetDate <= t <= Moment.endOfDay offset targetDate
  <-> Moment.localDay offset t = Moment.localDay offset targetDate.
Proof.
  pose proof (utcIsSameDay_iff (targetDate + offset * Moment.MS_PER_MINUTE)
                (t + offset * Moment.MS_PER_MINUTE)) as Hiff.
  unfold Moment.utcIsSameDay, Moment.utcEndOfDay in Hiff.
  rewrite andb_true_iff, !Z.leb_le in Hiff.
  unfold Moment.endOfDay, Moment.startOfDay, Moment.localDay, Moment.utcDay in *.
  split.
  - intros [Hlo Hhi]. symmetry. apply Hiff. lia.
  - intros Heq. symmetry in Heq. apply Hiff in Heq. lia.
Qed.

Lemma completedTasksRequest_bounds
    host (settings : RestV1.TodoistCompletedTasksSettings) targetDate :
  exists since until,
    RestV1.completedTasksRequest host settings targetDate
    = CompletedByCompletionDate since until 100 None
        (bearer (RestV1.todoistApiToken settings))
    /\ forall t,
         since <= t <= until
         <-> Moment.localDay (utcOffset host) t
             = Moment.localDay (utcOffset host) targetDate.
Proof.
  eexists. eexists. split; [reflexivity|]. intros t. apply day_bounds.
Qed.

(** C1 fails in the Sync revision.  Two hours east of UTC, the note named
    2024-05-01 resolves to local midnight, which is 22:00 UTC of 2024-04-30;
    an event completed at 10:00 UTC of 2024-04-30 (noon of 2024-04-30,
    local time) shares that instant's UTC day, passes the day filter, and is
    rendered under the heading of 2024-05-01. *)
Lemma note_of_a_day_lists_the_day_before :
  let host :=
    Scenario.eastern (Scenario.syncService Scenario.workProjects Scenario.yesterdaysEvents) in
  let targetDate := fst (SyncV9.resolveTargetDate host (Some "2024-05-01")) in
  let completed := Calendar.utc 2024 4 30 10 0 in
  momentFormat host targetDate "YYYY-MM-DD" = "2024-05-01"
  /\ map ActivityEvent.event_date Scenario.yesterdaysEvents = [ Some completed ]
  /\ Calendar.formatDate 120 completed = "2024-04-30"
  /\ Calendar.formatDate 0 completed = "2024-04-30"
  /\ Moment.localDay 120 completed <> Moment.localDay 120 targetDate
  /\ List.filter (SyncV9.completedOnDate targetDate) Scenario.yesterdaysEvents
     = Scenario.yesterdaysEvents
  /\ fst (SyncV9.fetchAndFormatTasksForDate host Scenario.syncSettings targetDate emptyWorld)
     = Returned
         (Scenario.lines
            [ "## Tasks Completed Today"; "";
              "### Work";
              "- [Write spec](https://todoist.com/showTask?id=a)"; "" ])
  /\ inserted (snd (SyncV9.fetchAndInsertTasksForView host Scenario.syncSettings
                      (Some "2024-05-01") emptyWorld))
     = [ Scenario.lines
           [ "## Tasks Completed Today"; "";
             "### Work";
             "- [Write spec](https://todoist.com/showTask?id=a)"; "" ] ].
Proof.
  vm_compute. repeat split; try reflexivity. discriminate.
Qed.

(** In a zone on UTC the same filter is exact: an event is kept exactly when
    its day is the target's day. *)
Lemma completedOnDate_exact_on_utc targetMoment event :
  SyncV9.completedOnDate targetMoment event = true <->
  exists eventMoment,
    ActivityEvent.event_date event = Some eventMoment
    /\ Moment.localDay 0 eventMoment = Moment.localDay 0 targetMoment.
Proof.
  rewrite completedOnDate_iff. unfold Moment.localDay, Moment.utcDay.
  split; intros (t & Hdate & Hday); exists t; split; try exact Hdate;
    rewrite ?Z.mul_0_l, ?Z.add_0_r in *; exact Hday.
Qed.

(** ** The target date *)

Ltac bools_to_props :=
  repeat match goal with
         | H : (_ && _) = true |- _ => apply andb_true_iff in H; destruct H
         | H : (_ && _) = false |- _ => apply andb_false_iff in H; destruct H
         | H : (_ || _) = true |- _ => apply orb_true_iff in H; destruct H
         | H : (_ || _) = false |- _ => apply orb_false_iff in H; destruct H
         | H : negb _ = true |- _ => apply negb_true_iff in H
         | H : negb _ = false |- _ => apply negb_false_iff in H
         | H : (_ =? _) = true |- _ => apply Z.eqb_eq in H
         | H : (_ =? _) = false |- _ => apply Z.eqb_neq in H
         | H : (_ <=? _) = true |- _ => apply Z.leb_le in H
         | H : (_ <=? _) = false |- _ => apply Z.leb_gt in H
         | H : (_ <? _) = true |- _ => apply Z.ltb_lt in H
         | H : (_ <? _) = false |- _ => apply Z.ltb_ge in H
         | H : (_ >? _) = true |- _ => rewrite Z.gtb_ltb in H; apply Z.ltb_lt in H
         | H : (_ >? _) = false |- _ => rewrite Z.gtb_ltb in H; apply Z.ltb_ge in H
         end.

(** Case analysis on the next test of a reading. *)
Ltac destruct_test :=
  match goal with
  | |- context [if StrictMatch.isDecimalDigit ?c && ?r then _ else _] =>
      destruct (StrictMatch.isDecimalDigit c && r)
  | |- context [if Ascii.eqb ?x ?y then _ else _] => destruct (Ascii.eqb x y)
  end.

(** The digits of the anchored pattern are the ten decimal digits. *)
Lemma isDigit_decimal c : SyncV9.isDigit c = StrictMatch.isDecimalDigit c.
Proof. destruct c as [[] [] [] [] [] [] [] []]; reflexivity. Qed.

Lemma strictlyMatches_conforms format hint :
  StrictMatch.strictlyMatches format hint = true -> StrictMatch.conforms format hint = true.
Proof.
  unfold StrictMatch.strictlyMatches, StrictMatch.conforms.
  now destruct (StrictMatch.read _ _ _).
Qed.

(** The anchored pattern of the Sync revision accepts a basename exactly
    when it has the shape of [YYYY-MM-DD] end to end, and captures all of
    it. *)
Lemma filenameDateMatch_conforms basename :
  SyncV9.filenameDateMatch basename
  = if StrictMatch.conforms "YYYY-MM-DD" basename then Some basename else None.
Proof.
  unfold SyncV9.filenameDateMatch, StrictMatch.conforms.
  change (StrictMatch.tokens (list_ascii_of_string "YYYY-MM-DD"))
    with [ StrictMatch.Year; StrictMatch.Separator "-"; StrictMatch.Month;
           StrictMatch.Separator "-"; StrictMatch.Day ].
  destruct (list_ascii_of_string basename)
    as [|y1 [|y2 [|y3 [|y4 [|h1 [|m1 [|m2 [|h2 [|d1 [|d2 [|extra rest]]]]]]]]]]].
  11: {
    cbn [StrictMatch.read forallb]. rewrite !isDigit_decimal.
    destruct (StrictMatch.isDecimalDigit y1), (StrictMatch.isDecimalDigit y2),
      (StrictMatch.isDecimalDigit y3), (StrictMatch.isDecimalDigit y4),
      (Ascii.eqb h1 "-"),
      (StrictMatch.isDecimalDigit m1), (StrictMatch.isDecimalDigit m2),
      (Ascii.eqb h2 "-"),
      (StrictMatch.isDecimalDigit d1), (StrictMatch.isDecimalDigit d2);
      reflexivity. }
  all: cbn [StrictMatch.read forallb]; repeat destruct_test; reflexivity.
Qed.

(** The calendar of the examples is a strict library for [YYYY-MM-DD]. *)
Lemma month_length y m d :
  1 <= m <= 12 ->
  Z.ltb (Calendar.daysFromCivil y m d)
        (Calendar.daysFromCivil (if m =? 12 then y + 1 else y)
                                (if m =? 12 then 1 else m + 1) 1)
  = (d <=? StrictMatch.daysInMonth y m).
Proof.
  intros Hm.
  unfold StrictMatch.daysInMonth, StrictMatch.isLeapYear, Calendar.daysFromCivil.
  apply eq_true_iff_eq. rewrite Z.ltb_lt, Z.leb_le.
  repeat match goal with
         | |- context [if ?b then _ else _] => destruct b eqn:?
         end;
    bools_to_props; try lia.
  all: assert (m = 1 \/ m = 2 \/ m = 3 \/ m = 4 \/ m = 5 \/ m = 6 \/ m = 7 \/ m = 8
               \/ m = 9 \/ m = 10 \/ m = 11 \/ m = 12) as Hcases by lia.
  all: repeat destruct Hcases as [->|Hcases]; try subst m; try lia.
  all: Z.to_euclidean_division_equations; lia.
Qed.

Lemma calendar_check y m d :
  (1 <=? m) && (m <=? 12) && (1 <=? d)
  && Z.ltb (Calendar.daysFromCivil y m d)
           (Calendar.daysFromCivil (if m =? 12 then y + 1 else y)
                                   (if m =? 12 then 1 else m + 1) 1)
  = StrictMatch.dateExists y m d.
Proof.
  unfold StrictMatch.dateExists.
  destruct (1 <=? m) eqn:Hlo; [|reflexivity].
  destruct (m <=? 12) eqn:Hhi; [|reflexivity].
  destruct (1 <=? d); [|reflexivity].
  cbn [andb]. apply month_length. apply Z.leb_le in Hlo, Hhi. lia.
Qed.

Lemma digit_decimal c :
  Calendar.digit c
  = if StrictMatch.isDecimalDigit c then Some (StrictMatch.digitValue c) else None.
Proof. destruct c as [[] [] [] [] [] [] [] []]; reflexivity. Qed.

Lemma number_numeral digits acc :
  Calendar.number acc digits
  = if forallb StrictMatch.isDecimalDigit digits
    then Some (fold_left (fun n c => 10 * n + StrictMatch.digitValue c) digits acc)
    else None.
Proof.
  revert acc. induction digits as [|c digits IH]; intros acc; [reflexivity|].
  cbn [Calendar.number forallb fold_left]. rewrite digit_decimal.
  destruct (StrictMatch.isDecimalDigit c); [|reflexivity].
  cbn [andb]. apply IH.
Qed.

Lemma parseDate_strict offset hint :
  is_Some (Calendar.parseDate offset hint)
  <-> StrictMatch.strictlyMatches "YYYY-MM-DD" hint = true.
Proof.
  unfold Calendar.parseDate, StrictMatch.strictlyMatches.
  change (StrictMatch.tokens (list_ascii_of_string "YYYY-MM-DD"))
    with [ StrictMatch.Year; StrictMatch.Separator "-"; StrictMatch.Month;
           StrictMatch.Separator "-"; StrictMatch.Day ].
  assert (Hnone : forall A, is_Some (@None A) <-> false = true).
  { intros A. split; [intros [? ?]; discriminate | discriminate]. }
  destruct (list_ascii_of_string hint)
    as [|y1 [|y2 [|y3 [|y4 [|h1 [|m1 [|m2 [|h2 [|d1 [|d2 [|extra rest]]]]]]]]]]].
  11: {
    cbn [StrictMatch.read StrictMatch.year StrictMatch.month StrictMatch.day
           StrictMatch.noFields].
    unfold StrictMatch.numeral.
    repeat first
      [ rewrite number_numeral
      | progress cbn [andb mbind option_bind]
      | progress cbv beta iota
      | match goal with
        | |- context [forallb StrictMatch.isDecimalDigit ?l] =>
            destruct (forallb StrictMatch.isDecimalDigit l)
        | |- context [Ascii.eqb ?x ?y] => destruct (Ascii.eqb x y)
        end ];
      try apply Hnone.
    rewrite calendar_check.
    destruct (StrictMatch.dateExists _ _ _); [|apply Hnone].
    split; [reflexivity | eauto]. }
  all: cbn [StrictMatch.read forallb]; repeat destruct_test; apply Hnone.
Qed.

Lemma calendar_host_is_strict offset now service :
  StrictMatch.strictLibrary (Calendar.host offset now service) "YYYY-MM-DD".
Proof. intros hint. apply parseDate_strict. Qed.

(** C8.  The resolver hands the whole basename to the date library's strict
    parser, together with the pattern in force: the configured pattern, or
    [YYYY-MM-DD] when none is configured; in the Sync revision always
    [YYYY-MM-DD], behind an anchored pattern that accepts exactly the
    basenames of that shape.  With a library that keeps to strict matching
    for the pattern in force, the target is the parsed date, with the label
    [note filename (<formatted date>)], exactly when the basename strictly
    matches the pattern end to end; for every other basename, and when there
    is no file, the target is the current date and the label is [today].
    Nothing is thrown or shown: the resolver is a total function of its
    inputs. *)
Theorem target_date_resolution (host : Host) (file : option string) :
  (forall settings : RestV1.TodoistCompletedTasksSettings,
      let format := RestV1.effectiveFormat settings in
      let strictMatch := file ≫= fun basename => momentStrict host basename format in
      (RestV1.dailyNoteFormat settings <> "" -> format = RestV1.dailyNoteFormat settings)
      /\ (RestV1.dailyNoteFormat settings = "" -> format = "YYYY-MM-DD")
      /\ RestV1.resolveTargetDate host settings file
         = Spec.resolve (momentStrict host) (momentFormat host) (now host) file format
      /\ (forall parsed,
            strictMatch = Some parsed ->
            RestV1.resolveTargetDate host settings file
            = (parsed, "note filename (" ++ momentFormat host parsed format ++ ")"))
      /\ (strictMatch = None ->
          RestV1.resolveTargetDate host settings file = (now host, "today"))
      /\ (snd (RestV1.resolveTargetDate host settings file) = "today"
          <-> strictMatch = None)
      /\ (StrictMatch.strictLibrary host format ->
          forall basename,
            file = Some basename ->
            (StrictMatch.strictlyMatches format basename = true ->
             exists parsed,
               momentStrict host basename format = Some parsed
               /\ RestV1.resolveTargetDate host settings file
                  = (parsed, "note filename (" ++ momentFormat host parsed format ++ ")"))
            /\ (StrictMatch.strictlyMatches format basename = false ->
                RestV1.resolveTargetDate host settings file = (now host, "today"))))
  /\ ((forall basename,
         SyncV9.filenameDateMatch basename
         = if StrictMatch.conforms "YYYY-MM-DD" basename then Some basename else None)
      /\ SyncV9.resolveTargetDate host file
         = Spec.resolve
             (fun hint format =>
                if StrictMatch.conforms format hint
                then momentStrict host hint format else None)
             (momentFormat host) (now host) file "YYYY-MM-DD"
      /\ (file = None -> SyncV9.resolveTargetDate host file = (now host, "today"))
      /\ (StrictMatch.strictLibrary host "YYYY-MM-DD" ->
          forall basename,
            file = Some basename ->
            (StrictMatch.strictlyMatches "YYYY-MM-DD" basename = true ->
             exists parsed,
               momentStrict host basename "YYYY-MM-DD" = Some parsed
               /\ SyncV9.resolveTargetDate host file
                  = (parsed,
                     "note filename (" ++ momentFormat host parsed "YYYY-MM-DD" ++ ")"))
            /\ (StrictMatch.strictlyMatches "YYYY-MM-DD" basename = false ->
                SyncV9.resolveTargetDate host file = (now host, "today")))).
Proof.
  split.
  - intros settings format strictMatch.
    split; [|split; [|split; [|split; [|split; [|split]]]]].
    + unfold format, RestV1.effectiveFormat, Js.orElse.
      destruct (RestV1.dailyNoteFormat settings); [congruence | reflexivity].
    + unfold format, RestV1.effectiveFormat. now intros ->.
    + unfold RestV1.resolveTargetDate, Spec.resolve. destruct file as [basename|]; simpl;
        [|reflexivity].
      fold format. now destruct (momentStrict host basename format).
    + subst strictMatch. unfold RestV1.resolveTargetDate.
      destruct file as [basename|]; simpl; [|discriminate].
      fold format. now intros parsed ->.
    + subst strictMatch. unfold RestV1.resolveTargetDate.
      destruct file as [basename|]; simpl; [|reflexivity].
      fold format. now intros ->.
    + subst strictMatch. unfold RestV1.resolveTargetDate.
      destruct file as [basename|]; simpl; [|tauto].
      fold format. destruct (momentStrict host basename format); simpl;
        split; intros H; try reflexivity; discriminate.
    + intros Hstrict basename ->. unfold RestV1.resolveTargetDate. fold format.
      specialize (Hstrict basename). split.
      * intros Hmatch. apply Hstrict in Hmatch as [parsed Hparsed].
        exists parsed. now rewrite Hparsed.
      * intros Hmatch.
        destruct (momentStrict host basename format) as [parsed|] eqn:Hparsed;
          [|reflexivity].
        assert (StrictMatch.strictlyMatches format basename = true) by (apply Hstrict; eauto).
        congruence.
  - split; [exact filenameDateMatch_conforms|]. split; [|split].
    + unfold SyncV9.resolveTargetDate, Spec.resolve.
      destruct file as [basename|]; simpl; [|reflexivity].
      rewrite filenameDateMatch_conforms.
      destruct (StrictMatch.conforms "YYYY-MM-DD" basename); [|reflexivity].
      now destruct (momentStrict host basename "YYYY-MM-DD").
    + now intros ->.
    + intros Hstrict basename ->. unfold SyncV9.resolveTargetDate.
      rewrite filenameDateMatch_conforms. specialize (Hstrict basename). split.
      * intros Hmatch. rewrite (strictlyMatches_conforms _ _ Hmatch).
        apply Hstrict in Hmatch as [parsed Hparsed].
        exists parsed. now rewrite Hparsed.
      * intros Hmatch.
        destruct (StrictMatch.conforms "YYYY-MM-DD" basename); [|reflexivity].
        destruct (momentStrict host basename "YYYY-MM-DD") as [parsed|] eqn:Hparsed;
          [|reflexivity].
        assert (StrictMatch.strictlyMatches "YYYY-MM-DD" basename = true)
          by (apply Hstrict; eauto).
        congruence.
Qed.

(** The note named 2024-05-01 and two notes that only resemble a date, two
    hours east of UTC, in both revisions. *)
Lemma target_date_resolution_example :
  let host := Scenario.eastern Scenario.offline in
  StrictMatch.strictLibrary host "YYYY-MM-DD"
  /\ StrictMatch.strictlyMatches "YYYY-MM-DD" "2024-05-01" = true
  /\ StrictMatch.strictlyMatches "YYYY-MM-DD" "2024-05-01 Meeting" = false
  /\ StrictMatch.strictlyMatches "YYYY-MM-DD" "2024-02-30" = false
  /\ (exists parsed,
        momentStrict host "2024-05-01" "YYYY-MM-DD" = Some parsed
        /\ RestV1.resolveTargetDate host Scenario.restSettings (Some "2024-05-01")
           = (parsed, "note filename (" ++ momentFormat host parsed "YYYY-MM-DD" ++ ")"))
  /\ RestV1.resolveTargetDate host Scenario.restSettings (Some "2024-05-01 Meeting")
     = (now host, "today")
  /\ (exists parsed,
        momentStrict host "2024-05-01" "YYYY-MM-DD" = Some parsed
        /\ SyncV9.resolveTargetDate host (Some "2024-05-01")
           = (parsed, "note filename (" ++ momentFormat host parsed "YYYY-MM-DD" ++ ")"))
  /\ SyncV9.resolveTargetDate host (Some "2024-02-30") = (now host, "today").
Proof.
  intros host.
  assert (Hstrict : StrictMatch.strictLibrary host "YYYY-MM-DD")
    by apply calendar_host_is_strict.
  split; [exact Hstrict|]. split; [reflexivity|]. split; [reflexivity|].
  split; [reflexivity|].
  split; [|split; [|split]].
  - apply (proj2 (proj2 (proj2 (proj2 (proj2 (proj2
             (proj1 (target_date_resolution host (Some "2024-05-01"))
                Scenario.restSettings))))))
             Hstrict "2024-05-01" eq_refl).
    reflexivity.
  - apply (proj2 (proj2 (proj2 (proj2 (proj2 (proj2
             (proj1 (target_date_resolution host (Some "2024-05-01 Meeting"))
                Scenario.restSettings))))))
             Hstrict "2024-05-01 Meeting" eq_refl).
    reflexivity.
  - apply (proj2 (proj2 (proj2 (proj2 (target_date_resolution host (Some "2024-05-01")))))
             Hstrict "2024-05-01" eq_refl).
    reflexivity.
  - apply (proj2 (proj2 (proj2 (proj2 (target_date_resolution host (Some "2024-02-30")))))
             Hstrict "2024-02-30" eq_refl).
    reflexivity.
Defined.

(** ** The specification's scenarios, run on the REST revision *)

(** Scenario 1: directory [{ "1": "Work" }], one task of project "1",
    target day today. *)
Example scenario1 :
  fst (RestV1.fetchAndFormatTasksForDate
         (Scenario.greenwich
            (Scenario.restService Scenario.workProjects
               [ Scenario.task "a" (Some "1") "Write spec" (Calendar.utc 2024 5 1 10 0) ]))
         Scenario.restSettings (Calendar.utc 2024 5 1 0 0) emptyWorld)
  = Returned
      (Scenario.lines
         [ "## Tasks Completed Today"; "";
           "### Work";
           "- [Write spec](https://todoist.com/showTask?id=a)"; "" ]).
Proof. vm_compute. reflexivity. Qed.

(** Scenario 2: empty directory, one task without project and without
    content, target day not today. *)
Example scenario2 :
  fst (RestV1.fetchAndFormatTasksForDate
         (Calendar.host 0 (Calendar.utc 2024 5 3 9 30)
            (Scenario.restService []
               [ Scenario.task "b" None "" (Calendar.utc 2024 5 1 9 0) ]))
         Scenario.restSettings (Calendar.utc 2024 5 1 0 0) emptyWorld)
  = Returned
      (Scenario.lines
         [ "## Tasks Completed 2024-05-01"; "";
           "### No Project";
           "- [Task ID b](https://todoist.com/showTask?id=b)"; "" ]).
Proof. vm_compute. reflexivity. Qed.

(** Scenario 4: no task at all. *)
Example scenario4 :
  RestV1.fetchAndInsertTasksForView
    (Scenario.greenwich (Scenario.restService Scenario.workProjects []))
    Scenario.restSettings (Some "2024-05-01") emptyWorld
  = (Returned tt,
     {| notices :=
          [ "Fetching Todoist tasks completed for note filename (2024-05-01)...";
            "Project {project.name} as color grey";
            "No tasks completed on today found in Todoist." ];
        inserted := [ "" ];
        requests :=
          [ GetProjects 200 None "Bearer 0123456789abcdef";
            CompletedByCompletionDate 1714521600000 1714607999999 100 None
              "Bearer 0123456789abcdef" ] |}).
Proof. vm_compute. reflexivity. Qed.

(** Scenario 5: Zeta, Alpha and the tasks without project. *)
Example scenario5 :
  RestV1.formatItems (Scenario.greenwich Scenario.offline) Scenario.scenario5Projects
    "Today" Scenario.scenario5Tasks
  = Scenario.lines
      [ "## Tasks Completed Today"; "";
        "### Alpha"; "- [Plan](https://todoist.com/showTask?id=c)"; "";
        "### Zeta"; "- [Ship](https://todoist.com/showTask?id=b)"; "";
        "### No Project"; "- [Inbox zero](https://todoist.com/showTask?id=a)"; "" ].
Proof. vm_compute. reflexivity. Qed.

(** * Further properties *)

(** ** The shape of the Markdown *)

Lemma append_assoc (a b c : string) : (a ++ b) ++ c = a ++ b ++ c.
Proof.
  induction a as [|x a IH]; [reflexivity|].
  change (String x ((a ++ b) ++ c) = String x (a ++ b ++ c)). now f_equal.
Qed.

Lemma append_empty_r (a : string) : a ++ "" = a.
Proof.
  induction a as [|x a IH]; [reflexivity|].
  change (String x (a ++ "") = String x a). now f_equal.
Qed.

Lemma fold_left_append {A : Type} (f : A -> string) l init :
  fold_left (fun out x => out ++ f x) l init = init ++ joined (map f l).
Proof.
  revert init. induction l as [|x l IH]; intros init.
  - simpl. now rewrite append_empty_r.
  - change (fold_left (fun out x => out ++ f x) l (init ++ f x)
            = init ++ f x ++ joined (map f l)).
    rewrite IH. apply append_assoc.
Qed.

Section RenderingFacts.
Context {Task : Type}.
Variable taskProjectId : Task -> option string.
Variable taskId : Task -> string.
Variable taskContent : Task -> option string.
Variable collate : string -> string -> Z.
Variable projects : gmap string string.

Local Abbreviation groups := (groupByProject taskProjectId).
Local Abbreviation tasksOf := (Spec.tasksOf taskProjectId).
Local Abbreviation line := (taskLine taskId taskContent).

Lemma tasks_of_key tasks projectId :
  default [] (Js.get projectId (groups tasks)) = tasksOf projectId tasks.
Proof.
  rewrite get_groupByProject. now destruct (tasksOf projectId tasks).
Qed.

Lemma renderGroup_appends tasks markdownOutput projectId :
  renderGroup taskId taskContent projects (groups tasks) markdownOutput projectId
  = markdownOutput
    ++ (groupHeading projects projectId
        ++ joined (map line (tasksOf projectId tasks)) ++ Js.nl).
Proof.
  unfold renderGroup. rewrite tasks_of_key, fold_left_append.
  now rewrite !append_assoc.
Qed.

Lemma fold_left_renderGroup tasks keys markdownOutput :
  fold_left (renderGroup taskId taskContent projects (groups tasks)) keys markdownOutput
  = markdownOutput
    ++ joined
         (map (fun projectId =>
                 groupHeading projects projectId
                 ++ joined (map line (tasksOf projectId tasks)) ++ Js.nl)
              keys).
Proof.
  revert markdownOutput. induction keys as [|k keys IH]; intros out.
  - simpl. now rewrite append_empty_r.
  - cbn [fold_left map]. rewrite IH, renderGroup_appends.
    set (block := fun projectId : option string => _).
    change (joined (block k :: map block keys))
      with (block k ++ joined (map block keys)).
    apply append_assoc.
Qed.

Lemma values_groupByProject tasks :
  Js.values (groups tasks)
  = map (fun projectId => tasksOf projectId tasks) (Js.keys (groups tasks)).
Proof.
  unfold Js.values, Js.keys. rewrite map_map. apply map_ext_in.
  intros [projectId group] Hin. simpl.
  apply In_get in Hin; [|apply keys_groupByProject_NoDup].
  rewrite get_groupByProject in Hin.
  destruct (tasksOf projectId tasks); [discriminate | now injection Hin as <-].
Qed.

End RenderingFacts.

(** X1.  The Markdown of a day with tasks is the heading line and an empty
    line, then, for each key in the sorted order, the group's subheading,
    one list item per task of that key in the order received, and an empty
    line. *)
Theorem markdown_is_heading_then_groups {Task : Type}
    (taskProjectId : Task -> option string) (taskId : Task -> string)
    (taskContent : Task -> option string) (collate : string -> string -> Z)
    (projects : gmap string string) (friendlyDateString : string) (tasks : list Task) :
  formatTasks taskProjectId taskId taskContent collate projects friendlyDateString tasks
  = "## Tasks Completed " ++ friendlyDateString ++ Js.nl ++ Js.nl
    ++ joined
         (map (fun projectId =>
                 groupHeading projects projectId
                 ++ joined (map (taskLine taskId taskContent)
                              (Spec.tasksOf taskProjectId projectId tasks))
                 ++ Js.nl)
              (sortedProjectIds collate projects (groupByProject taskProjectId tasks))).
Proof.
  unfold formatTasks. rewrite fold_left_renderGroup.
  now rewrite !append_assoc.
Qed.

(** X2.  The list items of the Markdown, group after group in the sorted
    order, are the tasks received, each one once: sorting the groups loses
    and repeats nothing, whatever the collation. *)
Theorem every_task_is_listed_once {Task : Type}
    (taskProjectId : Task -> option string) (collate : string -> string -> Z)
    (projects : gmap string string) (tasks : list Task) :
  Permutation
    (flat_map (fun projectId => Spec.tasksOf taskProjectId projectId tasks)
       (sortedProjectIds collate projects (groupByProject taskProjectId tasks)))
    tasks.
Proof.
  unfold sortedProjectIds.
  rewrite (Permutation_flat_map _ (sort_Permutation _ _)).
  rewrite flat_map_concat_map, <- values_groupByProject.
  apply concat_groupByProject.
Qed.

(** ** The order of arrival *)

Lemma firstOccurrences_snoc {A : Type} `{EqDecision A} (l : list A) x :
  firstOccurrences (l ++ [x])%list
  = if decide (x ∈ firstOccurrences l) then firstOccurrences l
    else (firstOccurrences l ++ [x])%list.
Proof. unfold firstOccurrences. now rewrite fold_left_app. Qed.

(** X3.  The keys of the grouping are the project keys of the tasks in the
    order in which each key first arrives. *)
Theorem group_keys_in_order_of_arrival {Task : Type}
    (taskProjectId : Task -> option string) (tasks : list Task) :
  Js.keys (groupByProject taskProjectId tasks)
  = firstOccurrences (map (projectKey taskProjectId) tasks).
Proof.
  induction tasks as [|task tasks IH] using rev_ind; [reflexivity|].
  rewrite groupByProject_snoc, List.map_app. cbn [map].
  rewrite firstOccurrences_snoc, <- IH.
  unfold addToGroup. rewrite keys_update.
  destruct (Js.has (projectKey taskProjectId task) (groupByProject taskProjectId tasks))
    eqn:Hhas.
  - apply has_true, list_elem_of_In in Hhas. now rewrite decide_True.
  - assert (Hnone : Js.get (projectKey taskProjectId task)
                      (groupByProject taskProjectId tasks) = None).
    { unfold Js.has in Hhas. now destruct (Js.get _ _). }
    rewrite keys_set_new by exact Hnone.
    rewrite decide_False; [reflexivity|].
    rewrite list_elem_of_In. now apply get_None_keys.
Qed.

(** ** The [null] key and the collation *)

Section NullLast.
Variable collate : string -> string -> Z.
Variable projects : gmap string string.

Local Abbreviation cmp := (compareProjectIds collate projects).

Lemma insertSorted_null l : Js.insertSorted cmp None l = (l ++ [None])%list.
Proof. induction l as [|k l IH]; simpl; [reflexivity | now rewrite IH]. Qed.

Lemma insertSorted_before_null id l :
  Js.insertSorted cmp (Some id) (l ++ [None])
  = (Js.insertSorted cmp (Some id) l ++ [None])%list.
Proof.
  induction l as [|k l IH]; [reflexivity|].
  cbn [Js.insertSorted app].
  destruct (cmp (Some id) k <=? 0); [reflexivity | now rewrite IH].
Qed.

Lemma sort_null_last (l : list (option string)) :
  List.NoDup l ->
  Js.sort cmp l
  = (Js.sort cmp (List.filter isProject l)
     ++ if decide (None ∈ l) then [None] else [])%list.
Proof.
  induction 1 as [|k l Hnotin Hnd IH]; [reflexivity|].
  cbn [Js.sort fold_right List.filter].
  change (fold_right (Js.insertSorted cmp) [] l) with (Js.sort cmp l). rewrite IH.
  destruct k as [id|]; cbn [isProject].
  - change (fold_right (Js.insertSorted cmp) [] (Some id :: List.filter isProject l))
      with (Js.insertSorted cmp (Some id) (Js.sort cmp (List.filter isProject l))).
    destruct (decide (None ∈ l)) as [Hin|Hout].
    + rewrite decide_True by now apply list_elem_of_further.
      apply insertSorted_before_null.
    + rewrite decide_False.
      * now rewrite !app_nil_r.
      * rewrite list_elem_of_In. intros [Heq|Hin]; [discriminate|].
        apply Hout. now apply list_elem_of_In.
  - rewrite (decide_False (P := None ∈ l)) by (rewrite list_elem_of_In; exact Hnotin).
    rewrite decide_True by apply list_elem_of_here.
    rewrite app_nil_r. apply insertSorted_null.
Qed.

End NullLast.

(** X4.  Whatever the collation, even one that is not consistent, the group
    of the [null] key is rendered last: the sorted keys are the sorted
    project ids followed by [null] when some task has no project. *)
Theorem null_group_is_last_under_any_collation {Task : Type}
    (taskProjectId : Task -> option string) (collate : string -> string -> Z)
    (projects : gmap string string) (tasks : list Task) :
  let groups := groupByProject taskProjectId tasks in
  let ids :=
    Js.sort (compareProjectIds collate projects) (List.filter isProject (Js.keys groups)) in
  sortedProjectIds collate projects groups
  = (ids ++ if Js.has None groups then [None] else [])%list
  /\ Forall (fun key => key <> None) ids.
Proof.
  intros groups ids. split.
  - unfold sortedProjectIds. rewrite sort_null_last by apply keys_groupByProject_NoDup.
    fold ids. f_equal.
    destruct (Js.has None groups) eqn:Hhas.
    + apply has_true, list_elem_of_In in Hhas. now rewrite decide_True.
    + rewrite decide_False; [reflexivity|]. rewrite list_elem_of_In, <- has_true. congruence.
  - apply List.Forall_forall. intros key Hin ->.
    apply (Permutation_in _ (sort_Permutation _ _)) in Hin.
    apply filter_In in Hin as [_ Hproject]. discriminate.
Qed.

(** ** The empty string *)

Lemma formatTasks_not_empty {Task : Type}
    (taskProjectId : Task -> option string) (taskId : Task -> string)
    (taskContent : Task -> option string) (collate : string -> string -> Z)
    (projects : gmap string string) (friendlyDateString : string) (tasks : list Task) :
  formatTasks taskProjectId taskId taskContent collate projects friendlyDateString tasks
  <> "".
Proof.
  unfold formatTasks. rewrite fold_left_renderGroup, !append_assoc. discriminate.
Qed.

(** X5.  A run that succeeds returns the empty string only for a day
    without tasks: with at least one task (one event that passes the day
    filter) the Markdown starts with its heading. *)
Theorem empty_string_only_for_an_empty_day
    (host : Host) (targetDate : Z) (w w1 : World) (projects : gmap string string)
    (response : Response) :
  (forall (settings : RestV1.TodoistCompletedTasksSettings) items cursor,
      Js.truthy (RestV1.todoistApiToken settings) = true ->
      RestV1.fetchProjectData host settings w = (Returned projects, w1) ->
      service host (RestV1.completedTasksRequest host settings targetDate)
      = Returned response ->
      status response = 200 ->
      json response = TodoistCompletedTasksResponse (Some items) cursor ->
      (fst (RestV1.fetchAndFormatTasksForDate host settings targetDate w) = Returned ""
       <-> items = []))
  /\ (forall (settings : SyncV9.TodoistCompletedTasksSettings) events,
        Js.truthy (SyncV9.todoistApiToken settings) = true ->
        SyncV9.fetchProjectData host settings w = (Returned projects, w1) ->
        service host (SyncV9.activityRequest settings) = Returned response ->
        status response = 200 ->
        json response = ActivityData (Some events) ->
        (fst (SyncV9.fetchAndFormatTasksForDate host settings targetDate w) = Returned ""
         <-> List.filter (SyncV9.completedOnDate targetDate) events = [])).
Proof.
  split.
  - intros settings items cursor Htoken Hdir Hresp Hstatus Hjson.
    rewrite rest_pipeline_run, Htoken, Hdir. cbv zeta.
    rewrite Hresp, Hstatus, Hjson. simpl.
    destruct items as [|item items]; simpl; [tauto|].
    split; [|discriminate]. intros [= Hempty].
    now apply formatTasks_not_empty in Hempty.
  - intros settings events Htoken Hdir Hresp Hstatus Hjson.
    rewrite sync_pipeline_run, Htoken, Hdir. cbv zeta.
    rewrite Hresp, Hstatus, Hjson. simpl.
    destruct (List.filter (SyncV9.completedOnDate targetDate) events) as [|event kept];
      simpl; [tauto|].
    split; [|discriminate]. intros [= Hempty].
    now apply formatTasks_not_empty in Hempty.
Qed.

Lemma empty_string_examples :
  fst (RestV1.fetchAndFormatTasksForDate
         (Scenario.eastern (Scenario.restService Scenario.workProjects []))
         Scenario.restSettings Scenario.noon emptyWorld) = Returned ""
  /\ fst (RestV1.fetchAndFormatTasksForDate
            (Scenario.eastern
               (Scenario.restService Scenario.workProjects Scenario.namelessTasks))
            Scenario.restSettings Scenario.noon emptyWorld) <> Returned "".
Proof.
  split.
  - eapply (proj1 (empty_string_only_for_an_empty_day
                     (Scenario.eastern (Scenario.restService Scenario.workProjects []))
                     Scenario.noon emptyWorld _ _ _) Scenario.restSettings [] None);
      reflexivity.
  - intros Hempty.
    eapply (proj1 (empty_string_only_for_an_empty_day
                     (Scenario.eastern
                        (Scenario.restService Scenario.workProjects Scenario.namelessTasks))
                     Scenario.noon emptyWorld _ _ _)
              Scenario.restSettings Scenario.namelessTasks None) in Hempty;
      [discriminate | reflexivity ..].
Defined.

(** ** The credential and the network *)

(** X6.  Without a token nothing is sent: the directory fetch and the
    pipeline throw and leave the world as it was, and the command shows one
    notice, sends nothing and inserts nothing. *)
Theorem no_token_no_request
    (host : Host) (file : option string) (targetDate : Z) (w : World) :
  (forall settings : RestV1.TodoistCompletedTasksSettings,
      Js.truthy (RestV1.todoistApiToken settings) = false ->
      RestV1.fetchProjectData host settings w
      = (Thrown "Todoist API token is not set.", w)
      /\ RestV1.fetchAndFormatTasksForDate host settings targetDate w
         = (Thrown "Todoist API token is not set.", w)
      /\ RestV1.fetchAndInsertTasksForView host settings file w
         = (Returned tt,
            shown "Todoist API token is not set. Please configure it in the plugin settings."
              w))
  /\ (forall settings : SyncV9.TodoistCompletedTasksSettings,
        Js.truthy (SyncV9.todoistApiToken settings) = false ->
        SyncV9.fetchProjectData host settings w
        = (Thrown "Todoist API token is not set.", w)
        /\ SyncV9.fetchAndFormatTasksForDate host settings targetDate w
           = (Thrown "Todoist API token is not set.", w)
        /\ SyncV9.fetchAndInsertTasksForView host settings file w
           = (Returned tt,
              shown "Todoist API token is not set. Please configure it in the plugin settings."
                w)).
Proof.
  split; intros settings Htoken.
  - split; [now rewrite rest_fetchProjectData_run, Htoken|].
    split; [now rewrite rest_pipeline_run, Htoken|].
    unfold RestV1.fetchAndInsertTasksForView.
    destruct (RestV1.resolveTargetDate host settings file). now rewrite Htoken.
  - split; [now rewrite sync_fetchProjectData_run, Htoken|].
    split; [now rewrite sync_pipeline_run, Htoken|].
    unfold SyncV9.fetchAndInsertTasksForView.
    destruct (SyncV9.resolveTargetDate host file). now rewrite Htoken.
Qed.

Lemma no_token_example :
  Js.truthy (RestV1.todoistApiToken RestV1.DEFAULT_SETTINGS) = false
  /\ requests
       (snd (RestV1.fetchAndInsertTasksForView
               (Scenario.eastern (Scenario.restService Scenario.workProjects []))
               RestV1.DEFAULT_SETTINGS (Some "2024-05-01") emptyWorld)) = [].
Proof.
  split; [reflexivity|].
  destruct (proj1 (no_token_no_request
                     (Scenario.eastern (Scenario.restService Scenario.workProjects []))
                     (Some "2024-05-01") 0 emptyWorld)
              RestV1.DEFAULT_SETTINGS eq_refl) as (_ & _ & Hview).
  now rewrite Hview.
Defined.

(** X7.  With a token, the projects are asked for first; the completed
    tasks are asked for second and only when the directory fetch has not
    failed.  No run sends anything else. *)
Theorem requests_in_sequence (host : Host) (targetDate : Z) (w : World) :
  (forall settings : RestV1.TodoistCompletedTasksSettings,
      Js.truthy (RestV1.todoistApiToken settings) = true ->
      (RestV1.directoryFetchFails host settings ->
       requests (snd (RestV1.fetchAndFormatTasksForDate host settings targetDate w))
       = (requests w ++ [RestV1.projectsRequest settings])%list)
      /\ (~ RestV1.directoryFetchFails host settings ->
          requests (snd (RestV1.fetchAndFormatTasksForDate host settings targetDate w))
          = (requests w
             ++ [RestV1.projectsRequest settings;
                 RestV1.completedTasksRequest host settings targetDate])%list))
  /\ (forall settings : SyncV9.TodoistCompletedTasksSettings,
        Js.truthy (SyncV9.todoistApiToken settings) = true ->
        (SyncV9.directoryFetchFails host settings ->
         requests (snd (SyncV9.fetchAndFormatTasksForDate host settings targetDate w))
         = (requests w ++ [SyncV9.projectsRequest settings])%list)
        /\ (~ SyncV9.directoryFetchFails host settings ->
            requests (snd (SyncV9.fetchAndFormatTasksForDate host settings targetDate w))
            = (requests w
               ++ [SyncV9.projectsRequest settings; SyncV9.activityRequest settings])%list)).
Proof.
  split; intros settings Htoken.
  - rewrite rest_pipeline_run, rest_fetchProjectData_run, Htoken.
    unfold RestV1.directoryFetchFails. cbn [negb].
    destruct (service host (RestV1.projectsRequest settings)) as [response|e].
    + destruct (status response =? 200) eqn:Hstatus; cbn [negb].
      * apply Z.eqb_eq in Hstatus. split; [tauto|]. intros _. cbv zeta.
        assert (Hsent : forall w',
                   requests w' = (requests w ++ [RestV1.projectsRequest settings])%list ->
                   requests (sent (RestV1.completedTasksRequest host settings targetDate) w')
                   = (requests w
                      ++ [RestV1.projectsRequest settings;
                          RestV1.completedTasksRequest host settings targetDate])%list).
        { intros w' Hw'. simpl. rewrite Hw', <- app_assoc. reflexivity. }
        match goal with
        | |- context [sent (RestV1.completedTasksRequest _ _ _) ?w'] =>
            specialize (Hsent w' (requests_fold_shown _ _ _))
        end.
        destruct (service host (RestV1.completedTasksRequest host settings targetDate))
          as [taskResponse|e]; [|exact Hsent].
        destruct (negb (status taskResponse =? 200)); [exact Hsent|].
        destruct (data_items (json taskResponse)) as [[|item items]|]; exact Hsent.
      * apply Z.eqb_neq in Hstatus. split; [reflexivity | tauto].
    + split; [reflexivity | tauto].
  - rewrite sync_pipeline_run, sync_fetchProjectData_run, Htoken.
    unfold SyncV9.directoryFetchFails. cbn [negb].
    destruct (service host (SyncV9.projectsRequest settings)) as [response|e].
    + destruct (status response =? 200) eqn:Hstatus; cbn [negb].
      * apply Z.eqb_eq in Hstatus. split; [tauto|]. intros _. cbv zeta.
        assert (Hsent : requests (sent (SyncV9.activityRequest settings)
                                    (sent (SyncV9.projectsRequest settings) w))
                        = (requests w
                           ++ [SyncV9.projectsRequest settings;
                               SyncV9.activityRequest settings])%list).
        { simpl. now rewrite <- app_assoc. }
        destruct (service host (SyncV9.activityRequest settings))
          as [taskResponse|e]; [|exact Hsent].
        destruct (negb (status taskResponse =? 200)); [exact Hsent|].
        destruct (data_events (json taskResponse)) as [events|]; [|exact Hsent].
        destruct (List.filter (SyncV9.completedOnDate targetDate) events); exact Hsent.
      * apply Z.eqb_neq in Hstatus. split; [reflexivity | tauto].
    + split; [reflexivity | tauto].
Qed.

Lemma requests_in_sequence_example :
  RestV1.directoryFetchFails (Scenario.eastern Scenario.unauthorized) Scenario.restSettings
  /\ requests
       (snd (RestV1.fetchAndFormatTasksForDate
               (Scenario.eastern Scenario.unauthorized) Scenario.restSettings
               Scenario.noon emptyWorld))
     = [ GetProjects 200 None "Bearer 0123456789abcdef" ].
Proof.
  assert (Hfails : RestV1.directoryFetchFails (Scenario.eastern Scenario.unauthorized)
                     Scenario.restSettings) by (vm_compute; discriminate).
  split; [exact Hfails|].
  exact (proj1 (proj1 (requests_in_sequence (Scenario.eastern Scenario.unauthorized)
                         Scenario.noon emptyWorld)
                  Scenario.restSettings eq_refl) Hfails).
Defined.

(** ** What the user is told *)

(** X8.  A failure of the directory fetch reaches the user with its cause:
    the pipeline throws [Failed to fetch project data: ] followed by the
    transport's message, or by the API error with the status and the body,
    and the command shows that text behind [Error: ]. *)
Theorem directory_failure_is_reported
    (host : Host) (file : option string) (w : World) :
  (forall (settings : RestV1.TodoistCompletedTasksSettings) cause,
      Js.truthy (RestV1.todoistApiToken settings) = true ->
      match service host (RestV1.projectsRequest settings) with
      | Thrown e => cause = e
      | Returned response =>
          status response <> 200
          /\ cause = "Todoist Get Projects API error: " ++ pretty (status response)
                     ++ " - " ++ text response
      end ->
      (forall targetDate w0,
          fst (RestV1.fetchAndFormatTasksForDate host settings targetDate w0)
          = Thrown ("Failed to fetch project data: " ++ cause))
      /\ exists shownBefore,
           notices (snd (RestV1.fetchAndInsertTasksForView host settings file w))
           = (shownBefore
              ++ [("Error: " ++ "Failed to fetch project data: " ++ cause)%string])%list)
  /\ (forall (settings : SyncV9.TodoistCompletedTasksSettings) cause,
        Js.truthy (SyncV9.todoistApiToken settings) = true ->
        match service host (SyncV9.projectsRequest settings) with
        | Thrown e => cause = e
        | Returned response =>
            status response <> 200
            /\ cause = "Todoist Sync API error: " ++ pretty (status response)
                       ++ " - " ++ text response
        end ->
        (forall targetDate w0,
            fst (SyncV9.fetchAndFormatTasksForDate host settings targetDate w0)
            = Thrown ("Failed to fetch project data: " ++ cause))
        /\ exists shownBefore,
             notices (snd (SyncV9.fetchAndInsertTasksForView host settings file w))
             = (shownBefore
                ++ [("Error: " ++ "Failed to fetch project data: " ++ cause)%string])%list).
Proof.
  split; intros settings cause Htoken Hcause.
  - assert (Hthrow : forall targetDate w0,
               fst (RestV1.fetchAndFormatTasksForDate host settings targetDate w0)
               = Thrown ("Failed to fetch project data: " ++ cause)).
    { intros targetDate w0.
      rewrite rest_pipeline_run, rest_fetchProjectData_run, Htoken. cbn [negb].
      destruct (service host (RestV1.projectsRequest settings)) as [response|e].
      - destruct Hcause as [Hstatus ->]. apply Z.eqb_neq in Hstatus.
        now rewrite Hstatus.
      - now subst cause. }
    split; [exact Hthrow|].
    now apply (rest_throw_inserts_nothing host settings file w).
  - assert (Hthrow : forall targetDate w0,
               fst (SyncV9.fetchAndFormatTasksForDate host settings targetDate w0)
               = Thrown ("Failed to fetch project data: " ++ cause)).
    { intros targetDate w0.
      rewrite sync_pipeline_run, sync_fetchProjectData_run, Htoken. cbn [negb].
      destruct (service host (SyncV9.projectsRequest settings)) as [response|e].
      - destruct Hcause as [Hstatus ->]. apply Z.eqb_neq in Hstatus.
        now rewrite Hstatus.
      - now subst cause. }
    split; [exact Hthrow|].
    now apply (sync_throw_inserts_nothing host settings file w).
Qed.

Lemma directory_failure_examples :
  notices (snd (RestV1.fetchAndInsertTasksForView
                  (Scenario.eastern Scenario.unauthorized) Scenario.restSettings
                  None emptyWorld))
  = [ "Fetching Todoist tasks completed for today...";
      "Error: Failed to fetch project data: Todoist Get Projects API error: 401 - Unauthorized" ]
  /\ exists shownBefore,
       notices (snd (SyncV9.fetchAndInsertTasksForView
                       (Scenario.eastern Scenario.offline) Scenario.syncSettings
                       None emptyWorld))
       = (shownBefore
          ++ [ "Error: Failed to fetch project data: net::ERR_INTERNET_DISCONNECTED" ])%list.
Proof.
  split; [reflexivity|].
  exact (proj2 (proj2 (directory_failure_is_reported (Scenario.eastern Scenario.offline)
                         None emptyWorld)
                  Scenario.syncSettings "net::ERR_INTERNET_DISCONNECTED" eq_refl eq_refl)).
Defined.

(** X9.  A failure of the task fetch, the directory being there, is thrown
    as it is: the transport's message without a prefix, [Todoist Activity
    API error: <status> - <body>] for a status other than 200 (in the REST
    revision as well), and a fixed text when the payload has no list.  The
    request has been sent, nothing else has happened. *)
Theorem task_fetch_failure_messages
    (host : Host) (targetDate : Z) (w w1 : World) (projects : gmap string string) :
  (forall settings : RestV1.TodoistCompletedTasksSettings,
      let request := RestV1.completedTasksRequest host settings targetDate in
      Js.truthy (RestV1.todoistApiToken settings) = true ->
      RestV1.fetchProjectData host settings w = (Returned projects, w1) ->
      (forall e,
          service host request = Thrown e ->
          RestV1.fetchAndFormatTasksForDate host settings targetDate w
          = (Thrown e, sent request w1))
      /\ (forall response,
            service host request = Returned response ->
            status response <> 200 ->
            RestV1.fetchAndFormatTasksForDate host settings targetDate w
            = (Thrown ("Todoist Activity API error: " ++ pretty (status response)
                       ++ " - " ++ text response), sent request w1))
      /\ (forall response,
            service host request = Returned response ->
            status response = 200 ->
            data_items (json response) = None ->
            RestV1.fetchAndFormatTasksForDate host settings targetDate w
            = (Thrown "Invalid response structure from Todoist completed tasks API",
               sent request w1)))
  /\ (forall settings : SyncV9.TodoistCompletedTasksSettings,
        let request := SyncV9.activityRequest settings in
        Js.truthy (SyncV9.todoistApiToken settings) = true ->
        SyncV9.fetchProjectData host settings w = (Returned projects, w1) ->
        (forall e,
            service host request = Thrown e ->
            SyncV9.fetchAndFormatTasksForDate host settings targetDate w
            = (Thrown e, sent request w1))
        /\ (forall response,
              service host request = Returned response ->
              status response <> 200 ->
              SyncV9.fetchAndFormatTasksForDate host settings targetDate w
              = (Thrown ("Todoist Activity API error: " ++ pretty (status response)
                         ++ " - " ++ text response), sent request w1))
        /\ (forall response,
              service host request = Returned response ->
              status response = 200 ->
              data_events (json response) = None ->
              SyncV9.fetchAndFormatTasksForDate host settings targetDate w
              = (Thrown "Invalid response structure from Todoist Activity API",
                 sent request w1))).
Proof.
  split; intros settings request Htoken Hdir.
  - split; [|split].
    + intros e Hresp. rewrite rest_pipeline_run, Htoken, Hdir. cbv zeta. fold request.
      now rewrite Hresp.
    + intros response Hresp Hstatus. apply Z.eqb_neq in Hstatus.
      rewrite rest_pipeline_run, Htoken, Hdir. cbv zeta. fold request.
      now rewrite Hresp, Hstatus.
    + intros response Hresp Hstatus Hitems.
      rewrite rest_pipeline_run, Htoken, Hdir. cbv zeta. fold request.
      now rewrite Hresp, Hstatus, Hitems.
  - split; [|split].
    + intros e Hresp. rewrite sync_pipeline_run, Htoken, Hdir. cbv zeta. fold request.
      now rewrite Hresp.
    + intros response Hresp Hstatus. apply Z.eqb_neq in Hstatus.
      rewrite sync_pipeline_run, Htoken, Hdir. cbv zeta. fold request.
      now rewrite Hresp, Hstatus.
    + intros response Hresp Hstatus Hevents.
      rewrite sync_pipeline_run, Htoken, Hdir. cbv zeta. fold request.
      now rewrite Hresp, Hstatus, Hevents.
Qed.

(** A REST service that answers the projects and then sends a payload
    without [items]. *)
Lemma task_fetch_failure_example :
  let host :=
    Scenario.eastern
      (fun request =>
         match request with
         | GetProjects _ _ _ => Scenario.ok (TodoistProjectResponse (Some []) None)
         | _ => Scenario.ok Null
         end) in
  fst (RestV1.fetchAndFormatTasksForDate host Scenario.restSettings Scenario.noon emptyWorld)
  = Thrown "Invalid response structure from Todoist completed tasks API".
Proof.
  intros host.
  rewrite (proj2 (proj2 (proj1 (task_fetch_failure_messages host Scenario.noon emptyWorld
                                  (sent (RestV1.projectsRequest Scenario.restSettings)
                                     emptyWorld) ∅)
                           Scenario.restSettings eq_refl eq_refl))
             {| status := 200; text := "OK"; json := Null |} eq_refl eq_refl eq_refl).
  reflexivity.
Defined.

(** ** The directory *)

(** X10.  An answer of status 200 whose payload is [null] or has no list of
    projects gives the empty directory, as a result and not as an error. *)
Theorem missing_project_list_is_an_empty_directory
    (host : Host) (w : World) (response : Response) :
  (forall settings : RestV1.TodoistCompletedTasksSettings,
      Js.truthy (RestV1.todoistApiToken settings) = true ->
      service host (RestV1.projectsRequest settings) = Returned response ->
      status response = 200 ->
      data_results (json response) = None ->
      RestV1.fetchProjectData host settings w
      = (Returned ∅, sent (RestV1.projectsRequest settings) w))
  /\ (forall settings : SyncV9.TodoistCompletedTasksSettings,
        Js.truthy (SyncV9.todoistApiToken settings) = true ->
        service host (SyncV9.projectsRequest settings) = Returned response ->
        status response = 200 ->
        data_projects (json response) = None ->
        SyncV9.fetchProjectData host settings w
        = (Returned ∅, sent (SyncV9.projectsRequest settings) w)).
Proof.
  split; intros settings Htoken Hresp Hstatus Hdata.
  - now rewrite rest_fetchProjectData_run, Htoken, Hresp, Hstatus, Hdata.
  - now rewrite sync_fetchProjectData_run, Htoken, Hresp, Hstatus, Hdata.
Qed.

Lemma missing_project_list_example :
  RestV1.fetchProjectData (Scenario.eastern (fun _ => Scenario.ok Null))
    Scenario.restSettings emptyWorld
  = (Returned ∅, sent (RestV1.projectsRequest Scenario.restSettings) emptyWorld).
Proof.
  exact (proj1 (missing_project_list_is_an_empty_directory
                  (Scenario.eastern (fun _ => Scenario.ok Null)) emptyWorld
                  {| status := 200; text := "OK"; json := Null |})
           Scenario.restSettings eq_refl eq_refl eq_refl eq_refl).
Defined.

Lemma lookup_fold_setProject_other results (projectsMap : gmap string string) id :
  (forall project, In project results -> TodoistProject.id project <> id) ->
  fold_left setProject results projectsMap !! id = projectsMap !! id.
Proof.
  revert projectsMap. induction results as [|project results IH]; intros m Hother;
    [reflexivity|].
  simpl. rewrite IH by (intros q Hq; apply Hother; now right).
  unfold setProject. apply lookup_insert_ne. apply Hother. now left.
Qed.

Lemma lookup_fold_setProject_last earlier project later (projectsMap : gmap string string) :
  (forall other, In other later -> TodoistProject.id other <> TodoistProject.id project) ->
  fold_left setProject (earlier ++ project :: later) projectsMap
  !! TodoistProject.id project
  = Some (TodoistProject.name project).
Proof.
  intros Hlater. rewrite fold_left_app. simpl.
  rewrite lookup_fold_setProject_other by exact Hlater.
  unfold setProject. apply lookup_insert_eq.
Qed.

(** X11.  When a page names an id more than once, the directory holds the
    name given last. *)
Theorem last_project_of_an_id_wins
    (host : Host) (w : World) (response : Response)
    (earlier later : list TodoistProject.t) (project : TodoistProject.t) :
  (forall other, In other later -> TodoistProject.id other <> TodoistProject.id project) ->
  status response = 200 ->
  (forall settings : RestV1.TodoistCompletedTasksSettings,
      Js.truthy (RestV1.todoistApiToken settings) = true ->
      service host (RestV1.projectsRequest settings) = Returned response ->
      data_results (json response) = Some (earlier ++ project :: later)%list ->
      exists directory,
        fst (RestV1.fetchProjectData host settings w) = Returned directory
        /\ directory !! TodoistProject.id project = Some (TodoistProject.name project))
  /\ (forall settings : SyncV9.TodoistCompletedTasksSettings,
        Js.truthy (SyncV9.todoistApiToken settings) = true ->
        service host (SyncV9.projectsRequest settings) = Returned response ->
        data_projects (json response) = Some (earlier ++ project :: later)%list ->
        exists directory,
          fst (SyncV9.fetchProjectData host settings w) = Returned directory
          /\ directory !! TodoistProject.id project = Some (TodoistProject.name project)).
Proof.
  intros Hlater Hstatus. split; intros settings Htoken Hresp Hdata.
  - rewrite rest_fetchProjectData_run, Htoken, Hresp, Hstatus, Hdata. simpl.
    eexists. split; [reflexivity|]. now apply lookup_fold_setProject_last.
  - rewrite sync_fetchProjectData_run, Htoken, Hresp, Hstatus, Hdata. simpl.
    eexists. split; [reflexivity|]. now apply lookup_fold_setProject_last.
Qed.

Lemma last_project_example :
  let projects :=
    [ Scenario.project "1" "Work"; Scenario.project "2" "Home";
      Scenario.project "1" "Office" ] in
  exists directory,
    fst (SyncV9.fetchProjectData (Scenario.eastern (Scenario.syncService projects []))
           Scenario.syncSettings emptyWorld) = Returned directory
    /\ directory !! "1" = Some "Office".
Proof.
  intros projects.
  refine (proj2 (last_project_of_an_id_wins
                   (Scenario.eastern (Scenario.syncService projects [])) emptyWorld
                   {| status := 200; text := "OK"; json := SyncData (Some projects) |}
                   [ Scenario.project "1" "Work"; Scenario.project "2" "Home" ] []
                   (Scenario.project "1" "Office") _ eq_refl)
            Scenario.syncSettings eq_refl eq_refl eq_refl).
  intros other [].
Defined.

Lemma notices_fold_shown {A : Type} (f : A -> string) l w :
  notices (fold_left (fun w x => shown (f x) w) l w) = (notices w ++ map f l)%list.
Proof.
  revert w. induction l as [|x l IH]; intros w; simpl.
  - now rewrite app_nil_r.
  - rewrite IH. simpl. now rewrite <- app_assoc.
Qed.

(** X12.  The REST revision shows one notice per project of the page, in
    the page's order, each reading [Project {project.name} as color
    <color>] with the name's placeholder left as written; the Sync revision
    shows none while it fetches the directory. *)
Theorem one_notice_per_project (host : Host) (w : World) :
  (forall (settings : RestV1.TodoistCompletedTasksSettings) response results,
      Js.truthy (RestV1.todoistApiToken settings) = true ->
      service host (RestV1.projectsRequest settings) = Returned response ->
      status response = 200 ->
      data_results (json response) = Some results ->
      notices (snd (RestV1.fetchProjectData host settings w))
      = (notices w
         ++ map (fun project =>
                   ("Project {project.name} as color "
                    ++ TodoistProject.color project)%string)
              results)%list)
  /\ (forall settings : SyncV9.TodoistCompletedTasksSettings,
        notices (snd (SyncV9.fetchProjectData host settings w)) = notices w).
Proof.
  split.
  - intros settings response results Htoken Hresp Hstatus Hdata.
    rewrite rest_fetchProjectData_run, Htoken, Hresp, Hstatus, Hdata. simpl.
    now rewrite notices_fold_shown.
  - intros settings. rewrite sync_fetchProjectData_run.
    destruct (negb (Js.truthy (SyncV9.todoistApiToken settings))); [reflexivity|].
    destruct (service host (SyncV9.projectsRequest settings)) as [response|e];
      [|reflexivity].
    destruct (negb (status response =? 200)); reflexivity.
Qed.

Lemma one_notice_per_project_example :
  notices (snd (RestV1.fetchProjectData
                  (Scenario.eastern
                     (Scenario.restService
                        [ Scenario.project "1" "Work"; Scenario.project "2" "Home" ] []))
                  Scenario.restSettings emptyWorld))
  = [ "Project {project.name} as color grey"; "Project {project.name} as color grey" ].
Proof.
  exact (proj1 (one_notice_per_project
                  (Scenario.eastern
                     (Scenario.restService
                        [ Scenario.project "1" "Work"; Scenario.project "2" "Home" ] []))
                  emptyWorld)
           Scenario.restSettings _ _ eq_refl eq_refl eq_refl eq_refl).
Defined.

(** ** The editor *)

(** X13.  Neither fetch touches the editor, whether it returns or throws:
    only the command inserts. *)
Theorem fetches_never_edit (host : Host) (targetDate : Z) (w : World) :
  (forall settings : RestV1.TodoistCompletedTasksSettings,
      inserted (snd (RestV1.fetchProjectData host settings w)) = inserted w
      /\ inserted (snd (RestV1.fetchAndFormatTasksForDate host settings targetDate w))
         = inserted w)
  /\ (forall settings : SyncV9.TodoistCompletedTasksSettings,
        inserted (snd (SyncV9.fetchProjectData host settings w)) = inserted w
        /\ inserted (snd (SyncV9.fetchAndFormatTasksForDate host settings targetDate w))
           = inserted w).
Proof.
  split; intros settings; split.
  - apply rest_fetchProjectData_inserted.
  - apply rest_pipeline_inserted.
  - apply sync_fetchProjectData_inserted.
  - apply sync_pipeline_inserted.
Qed.

(** X14.  When the pipeline returns, the command replaces the selection
    once, with exactly what the pipeline returned, and shows no error; on a
    day without tasks that is the empty string, so the selection is replaced
    by nothing. *)
Theorem success_inserts_once (host : Host) (file : option string) (w : World) :
  (forall (settings : RestV1.TodoistCompletedTasksSettings) markdownOutput w2,
      let targetDate := fst (RestV1.resolveTargetDate host settings file) in
      let dateSource := snd (RestV1.resolveTargetDate host settings file) in
      Js.truthy (RestV1.todoistApiToken settings) = true ->
      RestV1.fetchAndFormatTasksForDate host settings targetDate
        (shown ("Fetching Todoist tasks completed for " ++ dateSource ++ "...") w)
      = (Returned markdownOutput, w2) ->
      RestV1.fetchAndInsertTasksForView host settings file w
      = (Returned tt, replaced markdownOutput w2)
      /\ inserted (snd (RestV1.fetchAndInsertTasksForView host settings file w))
         = (inserted w ++ [markdownOutput])%list)
  /\ (forall (settings : SyncV9.TodoistCompletedTasksSettings) markdownOutput w2,
        let targetDate := fst (SyncV9.resolveTargetDate host file) in
        let dateSource := snd (SyncV9.resolveTargetDate host file) in
        Js.truthy (SyncV9.todoistApiToken settings) = true ->
        SyncV9.fetchAndFormatTasksForDate host settings targetDate
          (shown ("Fetching Todoist tasks completed for " ++ dateSource ++ "...") w)
        = (Returned markdownOutput, w2) ->
        SyncV9.fetchAndInsertTasksForView host settings file w
        = (Returned tt, replaced markdownOutput w2)
        /\ inserted (snd (SyncV9.fetchAndInsertTasksForView host settings file w))
           = (inserted w ++ [markdownOutput])%list).
Proof.
  split; intros settings markdownOutput w2 targetDate dateSource Htoken Hrun.
  - assert (Hview : RestV1.fetchAndInsertTasksForView host settings file w
                    = (Returned tt, replaced markdownOutput w2)).
    { unfold RestV1.fetchAndInsertTasksForView. subst targetDate dateSource.
      destruct (RestV1.resolveTargetDate host settings file) as [t source].
      simpl in Hrun. rewrite Htoken. simpl.
      unfold bind, tryCatch, Notice. simpl. now rewrite Hrun. }
    split; [exact Hview|]. rewrite Hview. simpl.
    pose proof (rest_pipeline_inserted host settings targetDate
                  (shown ("Fetching Todoist tasks completed for " ++ dateSource ++ "...") w))
      as Hins.
    rewrite Hrun in Hins. simpl in Hins. now rewrite Hins.
  - assert (Hview : SyncV9.fetchAndInsertTasksForView host settings file w
                    = (Returned tt, replaced markdownOutput w2)).
    { unfold SyncV9.fetchAndInsertTasksForView. subst targetDate dateSource.
      destruct (SyncV9.resolveTargetDate host file) as [t source].
      simpl in Hrun. rewrite Htoken. simpl.
      unfold bind, tryCatch, Notice. simpl. now rewrite Hrun. }
    split; [exact Hview|]. rewrite Hview. simpl.
    pose proof (sync_pipeline_inserted host settings targetDate
                  (shown ("Fetching Todoist tasks completed for " ++ dateSource ++ "...") w))
      as Hins.
    rewrite Hrun in Hins. simpl in Hins. now rewrite Hins.
Qed.

(** A day without tasks: the selection is replaced by the empty string. *)
Lemma success_inserts_once_example :
  inserted (snd (RestV1.fetchAndInsertTasksForView
                   (Scenario.greenwich (Scenario.restService Scenario.workProjects []))
                   Scenario.restSettings (Some "2024-05-01") emptyWorld))
  = [ "" ].
Proof.
  exact (proj2 (proj1 (success_inserts_once
                         (Scenario.greenwich
                            (Scenario.restService Scenario.workProjects []))
                         (Some "2024-05-01") emptyWorld)
                  Scenario.restSettings "" _ eq_refl eq_refl)).
Defined.

(** ** Today *)

Lemma isSameDay_iff offset this input :
  Moment.isSameDay offset this input = true
  <-> Moment.localDay offset input = Moment.localDay offset this.
Proof.
  unfold Moment.isSameDay. rewrite andb_true_iff, !Z.leb_le. apply day_bounds.
Qed.

(** X15.  In a zone that keeps one offset from UTC all year (the zone of
    this model: no clock changes), the heading reads [Today] exactly when
    the target instant lies on the local day of the host's clock, and the
    formatted date otherwise; the closing notice names the formatted date in
    both cases and counts the tasks rendered. *)
Theorem heading_says_today_on_the_clocks_day
    (host : Host) (targetDate : Z) (w w1 : World) (projects : gmap string string)
    (response : Response) :
  let today :=
    Moment.localDay (utcOffset host) (now host)
    = Moment.localDay (utcOffset host) targetDate in
  let targetDateString := momentFormat host targetDate "YYYY-MM-DD" in
  (forall (settings : RestV1.TodoistCompletedTasksSettings) item items cursor,
      Js.truthy (RestV1.todoistApiToken settings) = true ->
      RestV1.fetchProjectData host settings w = (Returned projects, w1) ->
      service host (RestV1.completedTasksRequest host settings targetDate)
      = Returned response ->
      status response = 200 ->
      json response = TodoistCompletedTasksResponse (Some (item :: items)) cursor ->
      let run := RestV1.fetchAndFormatTasksForDate host settings targetDate w in
      (today ->
       fst run = Returned (RestV1.formatItems host projects "Today" (item :: items)))
      /\ (~ today ->
          fst run
          = Returned (RestV1.formatItems host projects targetDateString (item :: items)))
      /\ notices (snd run)
         = (notices w1
            ++ [("Inserted " ++ pretty (S (length items)) ++ " tasks completed on "
                 ++ targetDateString ++ ".")%string])%list)
  /\ (forall (settings : SyncV9.TodoistCompletedTasksSettings) events event kept,
        Js.truthy (SyncV9.todoistApiToken settings) = true ->
        SyncV9.fetchProjectData host settings w = (Returned projects, w1) ->
        service host (SyncV9.activityRequest settings) = Returned response ->
        status response = 200 ->
        json response = ActivityData (Some events) ->
        List.filter (SyncV9.completedOnDate targetDate) events = event :: kept ->
        let run := SyncV9.fetchAndFormatTasksForDate host settings targetDate w in
        (today ->
         fst run = Returned (SyncV9.formatEvents host projects "Today" (event :: kept)))
        /\ (~ today ->
            fst run
            = Returned (SyncV9.formatEvents host projects targetDateString (event :: kept)))
        /\ notices (snd run)
           = (notices w1
              ++ [("Inserted " ++ pretty (S (length kept)) ++ " tasks completed on "
                   ++ targetDateString ++ ".")%string])%list).
Proof.
  intros today targetDateString. split.
  - intros settings item items cursor Htoken Hdir Hresp Hstatus Hjson run. subst run.
    rewrite rest_pipeline_run, Htoken, Hdir. cbv zeta.
    rewrite Hresp, Hstatus, Hjson.
    change (negb (200 =? 200)) with false. cbn [data_items fst snd].
    destruct (Moment.isSameDay (utcOffset host) targetDate (now host)) eqn:Hsame.
    + apply isSameDay_iff in Hsame. split; [reflexivity|]. split; [tauto | reflexivity].
    + split; [|split; reflexivity]. intros Htoday.
      apply isSameDay_iff in Htoday. congruence.
  - intros settings events event kept Htoken Hdir Hresp Hstatus Hjson Hkept run. subst run.
    rewrite sync_pipeline_run, Htoken, Hdir. cbv zeta.
    rewrite Hresp, Hstatus, Hjson.
    change (negb (200 =? 200)) with false. cbn [data_events fst snd]. rewrite Hkept.
    destruct (Moment.isSameDay (utcOffset host) targetDate (now host)) eqn:Hsame.
    + apply isSameDay_iff in Hsame. split; [reflexivity|]. split; [tauto | reflexivity].
    + split; [|split; reflexivity]. intros Htoday.
      apply isSameDay_iff in Htoday. congruence.
Qed.

(** The note of two days ago. *)
Lemma heading_example :
  let task := Scenario.task "b" None "" (Calendar.utc 2024 5 1 9 0) in
  let host :=
    Calendar.host 0 (Calendar.utc 2024 5 3 9 30) (Scenario.restService [] [ task ]) in
  Moment.localDay 0 (Calendar.utc 2024 5 3 9 30)
  <> Moment.localDay 0 (Calendar.utc 2024 5 1 0 0)
  /\ fst (RestV1.fetchAndFormatTasksForDate host Scenario.restSettings
            (Calendar.utc 2024 5 1 0 0) emptyWorld)
     = Returned (RestV1.formatItems host ∅ "2024-05-01" [ task ]).
Proof.
  intros task host.
  assert (Hday : Moment.localDay 0 (Calendar.utc 2024 5 3 9 30)
                 <> Moment.localDay 0 (Calendar.utc 2024 5 1 0 0))
    by (vm_compute; discriminate).
  split; [exact Hday|].
  exact (proj1 (proj2 (proj1 (heading_says_today_on_the_clocks_day host
                                (Calendar.utc 2024 5 1 0 0) emptyWorld _ ∅ _)
                         Scenario.restSettings task [] None
                         eq_refl eq_refl eq_refl eq_refl eq_refl))
           Hday).
Defined.

(** ** The day filter *)

(** X16.  The Sync revision keeps an event exactly when it carries a date
    whose UTC day is the UTC day of the target instant; an event without a
    readable date is never rendered. *)
Theorem sync_filter_keeps_the_utc_day
    (targetDate : Z) (events : list ActivityEvent.t) (event : ActivityEvent.t) :
  In event (List.filter (SyncV9.completedOnDate targetDate) events)
  <-> In event events
      /\ exists eventMoment,
           ActivityEvent.event_date event = Some eventMoment
           /\ Moment.utcDay eventMoment = Moment.utcDay targetDate.
Proof. rewrite filter_In, completedOnDate_iff. tauto. Qed.

Lemma length_list_ascii_of_string s :
  length (list_ascii_of_string s) = String.length s.
Proof. induction s as [|c s IH]; simpl; [reflexivity | now rewrite IH]. Qed.

(** X17.  In the Sync revision a note whose name is not exactly ten
    characters long is never read as a date, whatever the date library
    would make of it: the target is the current date. *)
Theorem sync_other_lengths_mean_today (host : Host) (basename : string) :
  String.length basename <> 10%nat ->
  SyncV9.resolveTargetDate host (Some basename) = (now host, "today").
Proof.
  intros Hlength. unfold SyncV9.resolveTargetDate.
  assert (Hnone : SyncV9.filenameDateMatch basename = None).
  { unfold SyncV9.filenameDateMatch.
    rewrite <- length_list_ascii_of_string in Hlength.
    destruct (list_ascii_of_string basename)
      as [|? [|? [|? [|? [|? [|? [|? [|? [|? [|? [|? ?]]]]]]]]]]]; try reflexivity.
    now contradiction Hlength. }
  now rewrite Hnone.
Qed.

Lemma sync_other_lengths_example :
  SyncV9.resolveTargetDate (Scenario.eastern Scenario.offline) (Some "2024-05-01 Meeting")
  = (Calendar.utc 2024 5 1 7 30, "today").
Proof.
  apply (sync_other_lengths_mean_today (Scenario.eastern Scenario.offline)
           "2024-05-01 Meeting").
  discriminate.
Defined.

(** ** Settings *)

Lemma lookup_loadSettings (DEFAULT_SETTINGS : gmap string string) data key :
  Store.loadSettings DEFAULT_SETTINGS data !! key
  = match data ≫= fun stored => stored !! key with
    | Some value => Some value
    | None => DEFAULT_SETTINGS !! key
    end.
Proof.
  unfold Store.loadSettings, Store.assign. simpl.
  destruct data as [stored|]; simpl.
  - rewrite !lookup_union, lookup_empty.
    destruct (stored !! key), (DEFAULT_SETTINGS !! key); reflexivity.
  - rewrite lookup_union, lookup_empty. now destruct (DEFAULT_SETTINGS !! key).
Qed.

(** X18.  Loading puts what was saved over the defaults: a saved property
    keeps its value, a missing one gets its default; so both settings of the
    REST revision are always defined, nothing saved gives the defaults, and
    data saved before the format setting existed gets the format
    [YYYY-MM-DD] and keeps its token. *)
Theorem loaded_settings_fill_in_defaults (data : option (gmap string string)) :
  (forall DEFAULT_SETTINGS key,
      Store.loadSettings DEFAULT_SETTINGS data !! key
      = match data ≫= fun stored => stored !! key with
        | Some value => Some value
        | None => DEFAULT_SETTINGS !! key
        end)
  /\ is_Some (Store.loadSettings Store.REST_DEFAULT_SETTINGS data !! "todoistApiToken")
  /\ is_Some (Store.loadSettings Store.REST_DEFAULT_SETTINGS data !! "dailyNoteFormat")
  /\ (data = None ->
      Store.restSettings (Store.loadSettings Store.REST_DEFAULT_SETTINGS data)
      = RestV1.DEFAULT_SETTINGS)
  /\ (forall stored token,
        data = Some stored ->
        stored !! "todoistApiToken" = Some token ->
        stored !! "dailyNoteFormat" = None ->
        Store.restSettings (Store.loadSettings Store.REST_DEFAULT_SETTINGS data)
        = {| RestV1.todoistApiToken := token; RestV1.dailyNoteFormat := "YYYY-MM-DD" |}).
Proof.
  split; [intros; apply lookup_loadSettings|].
  split; [|split; [|split]].
  - rewrite lookup_loadSettings. destruct (data ≫= _); [eauto|]. now eexists.
  - rewrite lookup_loadSettings. destruct (data ≫= _); [eauto|]. now eexists.
  - intros ->. reflexivity.
  - intros stored token -> Htoken Hformat. unfold Store.restSettings.
    rewrite !lookup_loadSettings. simpl. now rewrite Htoken, Hformat.
Qed.

(** What the Sync revision saved, loaded by the REST revision. *)
Lemma loaded_settings_example :
  Store.restSettings
    (Store.loadSettings Store.REST_DEFAULT_SETTINGS
       (Store.saveSettings
          (<["todoistApiToken" := "0123456789abcdef"]> Store.SYNC_DEFAULT_SETTINGS)))
  = Scenario.restSettings.
Proof.
  exact (proj2 (proj2 (proj2 (proj2 (loaded_settings_fill_in_defaults
                                       (Store.saveSettings
                                          (<["todoistApiToken" := "0123456789abcdef"]>
                                             Store.SYNC_DEFAULT_SETTINGS))))))
           _ "0123456789abcdef" eq_refl eq_refl eq_refl).
Defined.

(** X19.  Settings that hold every property the defaults name come back
    unchanged from saving and loading. *)
Theorem settings_survive_save_and_load
    (DEFAULT_SETTINGS settings : gmap string string) :
  (forall key, is_Some (DEFAULT_SETTINGS !! key) -> is_Some (settings !! key)) ->
  Store.loadSettings DEFAULT_SETTINGS (Store.saveSettings settings) = settings.
Proof.
  intros Hcomplete. apply map_eq. intros key.
  rewrite lookup_loadSettings. simpl.
  destruct (settings !! key) as [value|] eqn:Hvalue; [reflexivity|].
  destruct (DEFAULT_SETTINGS !! key) as [value|] eqn:Hdefault; [|reflexivity].
  destruct (Hcomplete key) as [value' Hvalue']; [eauto | congruence].
Qed.

(** After the token has been typed in. *)
Lemma settings_round_trip_example :
  let settings :=
    <["todoistApiToken" := "0123456789abcdef"]>
      (Store.loadSettings Store.REST_DEFAULT_SETTINGS None) in
  Store.loadSettings Store.REST_DEFAULT_SETTINGS (Store.saveSettings settings) = settings.
Proof.
  intros settings.
  apply (settings_survive_save_and_load Store.REST_DEFAULT_SETTINGS settings).
  intros key [value Hvalue]. subst settings.
  destruct (decide (key = "todoistApiToken")) as [->|Htoken].
  - rewrite lookup_insert_eq. eauto.
  - rewrite lookup_insert_ne by congruence. rewrite lookup_loadSettings. simpl.
    rewrite Hvalue. eauto.
Defined.

(** ** The bounds of the day *)

(** X20.  In a zone that keeps one offset from UTC all year (the zone of
    this model: no clock changes, every local day 24 hours long), the REST
    revision asks for the completed tasks of exactly one local day: [since]
    is the first and [until] the last millisecond of the target instant's
    day in the host's zone, the target lies between them, and an instant
    lies between them exactly when its local day is the target's. *)
Theorem rest_bounds_are_the_local_day
    (host : Host) (settings : RestV1.TodoistCompletedTasksSettings) (targetDate : Z) :
  exists since until,
    RestV1.completedTasksRequest host settings targetDate
    = CompletedByCompletionDate since until 100 None
        (bearer (RestV1.todoistApiToken settings))
    /\ since <= targetDate <= until
    /\ until - since = Moment.MS_PER_DAY - 1
    /\ (since + utcOffset host * Moment.MS_PER_MINUTE) mod Moment.MS_PER_DAY = 0
    /\ forall t,
         since <= t <= until
         <-> Moment.localDay (utcOffset host) t
             = Moment.localDay (utcOffset host) targetDate.
Proof.
  eexists. eexists. split; [reflexivity|].
  split; [now apply day_bounds|].
  split; [unfold Moment.endOfDay; lia|].
  split; [|intros t; apply day_bounds].
  unfold Moment.startOfDay, Moment.utcStartOfDay.
  replace (_ + _) with
    ((targetDate + utcOffset host * Moment.MS_PER_MINUTE) / Moment.MS_PER_DAY
     * Moment.MS_PER_DAY) by lia.
  apply Z.mod_mul. discriminate.
Qed.
